(** * conda-forge-webservices: the GitHub Actions task pipeline

    A shallow embedding of
    [conda_forge_webservices/github_actions_integration/__main__.py]:
    the task runner ([main_run_task]), the trusted finalizer
    ([main_finalize_task], with its helper [_push_changes]) and the
    automerge trigger ([main_automerge]).

    The three entry points are sequential scripts that talk to
    collaborators which live outside this file (git, the forge API, the
    rerender / lint / version tools, the file system).  Every such call is
    an element of [call]; a [world] answers a call, given the history of
    the run so far, with a result or with an exception.  The scripts are
    written in a state-and-error monad [M] that threads the history and
    stops at the first exception or [sys.exit]. *)

From stdpp Require Import gmap strings list fin_maps.
From Stdlib Require Import ZArith Ascii.

Local Open Scope string_scope.
Local Open Scope Z_scope.
Local Open Scope list_scope.

(** ** Python values

    The values that cross the JSON hand-off between the two phases. *)

#[warnings="-register-all"]
Inductive value :=
| VNone
| VBool (b : bool)
| VInt (z : Z)
| VStr (s : string)
| VList (l : list value)
| VDict (d : gmap string value).

(** Python truthiness, as used by [if], [not], [and], [or], [any]. *)
Definition truthy (v : value) : bool :=
  match v with
  | VNone => false
  | VBool b => b
  | VInt z => negb (z =? 0)
  | VStr s => negb (String.eqb s "")
  | VList l => match l with [] => false | _ :: _ => true end
  | VDict d => negb (bool_decide (d = ∅))
  end.

(** [v is None] *)
Definition is_None (v : value) : bool :=
  match v with VNone => true | _ => false end.

Definition of_bool (b : bool) : value := VBool b.

Definition of_opt_str (o : option string) : value :=
  match o with Some s => VStr s | None => VNone end.

(** [a or b] on Python values: the first operand when it is truthy. *)
Definition py_or (a b : value) : value := if truthy a then a else b.

(** ** Exceptions and outcomes

    [exn] are instances of Python's [Exception]; leaving through
    [sys.exit] is the separate outcome [SysExit], which an
    [except Exception] clause does not intercept. *)

Inductive exn :=
| KeyError (key : string)
| AttributeError (msg : string)
| TypeError (msg : string)
| ValueError (msg : string)
| UnboundLocalError (var : string)
| ExternalError (what : string).

Inductive outcome (A : Type) :=
| Ret (a : A)
| Raise (e : exn)
| SysExit (code : Z).
Arguments Ret {A} a.
Arguments Raise {A} e.
Arguments SysExit {A} code.

(** The exit status of the process: 0 when the command returns, the
    argument of [sys.exit], and 1 when an exception reaches top level. *)
Definition exit_code {A} (o : outcome A) : Z :=
  match o with
  | Ret _ => 0
  | Raise _ => 1
  | SysExit c => c
  end.

(** What a collaborator, or a pure step that may raise, gives back. *)
Inductive answer (A : Type) :=
| Ok (a : A)
| Err (e : exn).
Arguments Ok {A} a.
Arguments Err {A} e.

(** ** Strings *)

Definition ascii_lower (c : ascii) : ascii :=
  let n := nat_of_ascii c in
  if ((65 <=? n) && (n <=? 90))%nat then ascii_of_nat (n + 32) else c.

(** [s.lower()], on the ASCII letters; the scripts only compare the
    result with the ASCII literals "null" and "none". *)
Fixpoint lower (s : string) : string :=
  match s with
  | EmptyString => EmptyString
  | String c s' => String (ascii_lower c) (lower s')
  end.

(** [s[n:]] *)
Fixpoint slice_from (n : nat) (s : string) : string :=
  match n, s with
  | O, _ => s
  | S n', String _ s' => slice_from n' s'
  | S _, EmptyString => EmptyString
  end.

Definition startswith (p s : string) : bool := String.prefix p s.

Fixpoint endswith_sep (s : string) : bool :=
  match s with
  | EmptyString => false
  | String c EmptyString => Ascii.eqb c "/"%char
  | String _ s' => endswith_sep s'
  end.

(** [os.path.join(a, b)] (posix). *)
Definition os_path_join (a b : string) : string :=
  if startswith "/" b then b
  else if String.eqb a "" || endswith_sep a then a +:+ b
  else a +:+ "/" +:+ b.

(** [str(x)] for an optional string, as an f-string interpolates it. *)
Definition str_of_opt (o : option string) : string :=
  match o with Some s => s | None => "None" end.

(** ** Dictionaries *)

(** [d[k]] *)
Definition getitem (d : gmap string value) (k : string) : answer value :=
  match d !! k with
  | Some v => Ok v
  | None => Err (KeyError k)
  end.

(** [errors.get(rec, True)] on a JSON value: only a dict has [get]. *)
Definition py_get (errors : value) (rec : string) (default : value) : answer value :=
  match errors with
  | VDict d => Ok (match d !! rec with Some v => v | None => default end)
  | _ => Err (AttributeError "get")
  end.

(** [any(errors.get(rec, True) for rec in recipes)]: stops at the first
    truthy element; an exception from an element propagates. *)
Fixpoint any_errors (errors : value) (recipes : list string) : answer bool :=
  match recipes with
  | [] => Ok false
  | rec :: rest =>
      match py_get errors rec (VBool true) with
      | Ok v => if truthy v then Ok true else any_errors errors rest
      | Err e => Err e
      end
  end.

(** [info_message += more] where [more] is a string: concatenation for a
    string, extension by the characters for a list, [TypeError]
    otherwise. *)
Fixpoint chars (s : string) : list value :=
  match s with
  | EmptyString => []
  | String c s' => VStr (String c EmptyString) :: chars s'
  end.

Definition iadd_str (v : value) (more : string) : answer value :=
  match v with
  | VStr s => Ok (VStr (s +:+ more))
  | VList l => Ok (VList (l ++ chars more))
  | _ => Err (TypeError "+=")
  end.

(** ** Objects handed out by the collaborators *)

(** A forge API session ([gh]). *)
Record Github := { session_id : string }.

(** [gh.get_repo(full_name)] *)
Record Repository := { repo_session : Github; repo_full_name : string }.

(** The attributes of a pull request that the scripts read. *)
Record PullRequest := {
  number : Z;
  state : string;
  title : string;
  user_login : string;
  head_ref : string;
  head_sha : string;
  head_repo_owner_login : string;
  head_repo_name : string;
}.

(** A posted comment ([msg]). *)
Record IssueComment := { html_url : string; body : string }.

(** The serialized Task Result ([task_data]): the four fields echoed from
    the command line and the kind-specific [task_results] dict. *)
Record TaskData := {
  task : string;
  repo : string;
  pr_number : string;
  sha : option string;
  task_results : gmap string value;
}.

(** What [lint_feedstock] returns: a two-tuple or a three-tuple of
    per-recipe mappings. *)
Inductive lint_result :=
| LintTwo (lints hints : gmap string value)
| LintThree (lints hints errors : gmap string value).

(** The keyword arguments of [comment_and_push_if_changed]. *)
Record push_args := {
  action : string;
  changed : value;
  error : value;
  git_repo : string;
  pull : PullRequest;
  pr_branch : string;
  pr_owner : string;
  pr_repo : string;
  repo_name : string;
  close_pr_if_no_changes_or_errors : bool;
  help_message : string;
  info_message : value;
}.

(** ** Calls to collaborators

    A cloned repository is designated by its working directory. *)
Inductive call :=
| setup_logging (level : string)
| logging_basicConfig
| flush_logger
| os_makedirs (path : string)
| Repo_clone_from (url to_path : string) (branch : option string)
| origin_fetch (git_repo : string) (refspecs : list string)
| git_switch (git_repo : string) (ref : string)
| active_branch_commit_hexsha (git_repo : string)
| os_environ (name : string)
| subprocess_run (args : list string) (cwd : option string) (check capture_output : bool)
| rerender (git_repo : string)
| update_version (git_repo : string) (full_repo_name : string) (input_version : option string)
| get_git_patch_relative_to_commit (git_repo : string) (prev_head : string)
| lint_feedstock (feedstock_dir : string) (use_container : bool)
| json_dump (path : string) (task_data : TaskData)
| json_load (path : string)
| TemporaryDirectory
| TemporaryDirectory_cleanup (tmpdir : string)
| open_w (path : string)
| fp_write (path : string) (content : string)
| create_api_sessions
| create_api_sessions_for_admin
| get_repo (gh : Github) (full_repo_name : string)
| get_pull (gh_repo : Repository) (n : Z)
| get_pulls (gh_repo : Repository)
| comment_and_push_if_changed (a : push_args)
| set_rerender_pr_status (gh_repo : Repository) (n : Z) (status target_url : string)
    (sha : option string)
| mark_pr_as_ready_for_review (pr : PullRequest)
| update_pr_title (full_repo_name : string) (n : Z) (new_version : value)
| get_recipes_for_linting (gh : Github) (gh_repo : Repository) (n : Z) (lints hints : value)
| get_gha_run_link
| make_lint_comment (gh_repo : Repository) (n : Z) (message : string)
| build_and_make_lint_comment (gh : Github) (gh_repo : Repository) (n : Z)
    (lints hints : value)
| set_pr_status (gh_repo : Repository) (sha : option string) (status target_url : string)
| automerge_pr (gh_repo : Repository) (pr pr_for_admin : PullRequest).

(** The type of the result of each call, as the collaborator's contract
    has it: flags are booleans, messages, patches and versions are strings
    or [None], findings are per-recipe mappings.  Of a returned tuple only
    the components that the scripts bind are kept. *)
Definition ret_type (c : call) : Type :=
  match c with
  | active_branch_commit_hexsha _ | os_environ _ | TemporaryDirectory
  | get_gha_run_link => string
  | rerender _ => bool * bool * option string * option string
  | update_version _ _ _ => bool * bool * option string
  | get_git_patch_relative_to_commit _ _ => option string
  | lint_feedstock _ _ => lint_result
  | json_load _ => TaskData
  | create_api_sessions | create_api_sessions_for_admin => Github
  | get_repo _ _ => Repository
  | get_pull _ _ => PullRequest
  | get_pulls _ => list PullRequest
  | comment_and_push_if_changed _ => bool
  | update_pr_title _ _ _ => bool
  | get_recipes_for_linting _ _ _ _ _ => list string
  | make_lint_comment _ _ _ => IssueComment
  | build_and_make_lint_comment _ _ _ _ _ => IssueComment * string
  | _ => unit
  end.

(** What a run leaves behind, in order: the calls it made, the log
    records ([LOGGER.info] and the like, with their lazy arguments) and
    the lines it printed. *)
Inductive event :=
| ECall (c : call)
| ELog (level : string) (msg : string) (args : list value)
| EPrint (line : string)
| EPrintResults (task_results : gmap string value)
| ELogExc (level : string) (msg : string) (err : exn).

Definition trace := list event.

(** A world answers each call from the history of the run. *)
Definition world := ∀ c : call, trace → answer (ret_type c).

(** ** The monad of the scripts *)

Definition M (A : Type) : Type := world → trace → outcome A * trace.

Definition ret {A} (a : A) : M A := λ _ h, (Ret a, h).

Definition bind {A B} (m : M A) (f : A → M B) : M B :=
  λ w h,
    match m w h with
    | (Ret a, h') => f a w h'
    | (Raise e, h') => (Raise e, h')
    | (SysExit c, h') => (SysExit c, h')
    end.

#[global] Instance M_ret : MRet M := @ret.
#[global] Instance M_bind : MBind M := λ A B f m, bind m f.

(** [raise e] *)
Definition raise {A} (e : exn) : M A := λ _ h, (Raise e, h).

(** [sys.exit(code)] *)
Definition sys_exit {A} (code : Z) : M A := λ _ h, (SysExit code, h).

(** A pure computation that may raise. *)
Definition lift {A} (o : answer A) : M A :=
  λ _ h, (match o with Ok a => Ret a | Err e => Raise e end, h).

(** Call a collaborator. *)
Definition ext (c : call) : M (ret_type c) :=
  λ w h,
    (match w c h with Ok r => Ret r | Err e => Raise e end, h ++ [ECall c]).

(** Log or print. *)
Definition emit (e : event) : M unit := λ _ h, (Ret tt, h ++ [e]).

(** [try: body  except Exception as err: handler(err)] *)
Definition try_except {A} (body : M A) (handler : exn → M A) : M A :=
  λ w h,
    match body w h with
    | (Raise e, h') => handler e w h'
    | r => r
    end.

(** [try: body  finally: final] *)
Definition try_finally {A} (body : M A) (final : M unit) : M A :=
  λ w h,
    let '(o, h') := body w h in
    match final w h' with
    | (Ret _, h'') => (o, h'')
    | (Raise e, h'') => (Raise e, h'')
    | (SysExit c, h'') => (SysExit c, h'')
    end.

(** Read a local variable that is assigned on some paths only. *)
Definition local {A} (name : string) (x : option A) : M A :=
  match x with
  | Some a => ret a
  | None => raise (UnboundLocalError name)
  end.

(** Run a script from the empty history. *)
Definition run {A} (m : M A) (w : world) : outcome A * trace := m w [].

(** [x in xs] for strings. *)
Definition str_in (x : string) (xs : list string) : bool :=
  existsb (String.eqb x) xs.

(** [requested_version.lower()]; [None] has no such attribute. *)
Definition str_lower (o : option string) : answer string :=
  match o with
  | Some s => Ok (lower s)
  | None => Err (AttributeError "lower")
  end.

(** [not requested_version] *)
Definition opt_str_falsy (o : option string) : bool :=
  match o with
  | None => true
  | Some s => String.eqb s ""
  end.

(** Lines 104-109 of [main_run_task]: the test
    [requested_version.lower() == "null" or
     requested_version.lower() == "none" or not requested_version],
    its disjuncts evaluated from left to right, and the assignment of
    [None] when it holds. *)
Definition normalize_requested_version (requested_version : option string)
    : answer (option string) :=
  match str_lower requested_version with
  | Ok l1 =>
      if String.eqb l1 "null" then Ok None
      else
        match str_lower requested_version with
        | Ok l2 =>
            if String.eqb l2 "none" then Ok None
            else if opt_str_falsy requested_version then Ok None
            else Ok requested_version
        | Err e => Err e
        end
  | Err e => Err e
  end.

(** Lines 394-404 of [main_finalize_task]: the error flag handed to
    [_push_changes] for a version update. *)
Definition version_update_action_error (task_results : gmap string value)
    : answer value :=
  match getitem task_results "version_error" with
  | Ok ve =>
      if truthy ve then Ok (VBool true)
      else
        match getitem task_results "version_changed" with
        | Ok vc =>
            if truthy vc then getitem task_results "rerender_error"
            else Ok (VBool false)
        | Err e => Err e
        end
  | Err e => Err e
  end.

(** Lines 441-444 of [main_finalize_task]: the re-scoping of the lint
    error on the recipes that are to be linted. *)
Definition rescope_lint_error (task_results : gmap string value)
    (errors : value) (recipes_to_lint : list string)
    : answer (gmap string value) :=
  match any_errors errors recipes_to_lint with
  | Ok true => Ok (<["lint_error" := VBool true]> task_results)
  | Ok false => Ok task_results
  | Err e => Err e
  end.

(** The local variables of [main_finalize_task] that are bound only
    for the tasks that commit. *)
Record commit_locals := {
  l_pr_branch : string;
  l_pr_owner : string;
  l_pr_repo : string;
  l_git_repo : string;
}.

Definition more_info_text : string :=
"
        The following suggestions might help debug any issues:
        * Is the `recipe/{meta.yaml,recipe.yaml}` file valid?
        * If there is a `recipe/conda-build-config.yaml` file in \
        the feedstock make sure that it is compatible with the current \
        [global pinnnings](https://github.com/conda-forge/conda-forge-pinning-feedstock/blob/master/recipe/conda_build_config.yaml).
        * Is the fork used for this PR on an organization or user GitHub account? \
        Automated rerendering via the webservices admin bot only works for user \
        GitHub accounts.
    ".

Definition lint_failed_text (run_link : string) : string :=
"
                    Hi! This is the friendly automated conda-forge-linting service.

                    I failed to even lint the recipe, probably because of a \
                    conda-smithy \
                    bug :cry:. This likely indicates a problem in your `meta.yaml`, \
                    though. To get a traceback to help figure out what's going on, \
                    install conda-smithy and run \
                    `conda smithy recipe-lint --conda-forge .` from the recipe \
                    directory. You can also examine the [workflow logs](" +:+ run_link +:+ ") \
                    for more detail.
                    ".

Definition newline : string := "
".

Definition help_text : string :=
  " or you can try [rerendering locally]" +:+
  "(https://conda-forge.org/docs/maintainer/updating_pkgs.html" +:+
  "#rerendering-with-conda-smithy-locally)".

Definition check_logs_text : string :=
  "Check the workflow logs of the `run task` job for more details!".

(** ** The scripts *)

Section Scripts.

(** [int(s)] on a string ([None]: [ValueError]) and the text helper
    [dedent_with_escaped_continue] of [utils], both taken as given. *)
Variable py_int : string → option Z.
Variable dedent_with_escaped_continue : string → string.

Definition int_of (s : string) : M Z :=
  match py_int s with
  | Some n => ret n
  | None => raise (ValueError "int")
  end.

(** Flushing the standard streams leaves no event. *)
Definition _pull_docker_image : M unit :=
  try_finally
    (emit (EPrint "::group::docker image pull");;
     name ← ext (os_environ "CF_FEEDSTOCK_OPS_CONTAINER_NAME");
     tag ← ext (os_environ "CF_FEEDSTOCK_OPS_CONTAINER_TAG");
     ext (subprocess_run ["docker"; "pull"; name +:+ ":" +:+ tag] None false false))
    (emit (EPrint "::endgroup::")).

(** Lines 94-102: the rerender task. *)
Definition run_rerender (git_repo prev_head : string)
    (task_results : gmap string value) : M (gmap string value) :=
  _pull_docker_image;;
  '(changed, rerender_error, info_message, commit_message) ← ext (rerender git_repo);
  patch ← ext (get_git_patch_relative_to_commit git_repo prev_head);
  let task_results := <["changed" := of_bool changed]> task_results in
  let task_results := <["rerender_error" := of_bool rerender_error]> task_results in
  let task_results := <["info_message" := of_opt_str info_message]> task_results in
  let task_results := <["commit_message" := of_opt_str commit_message]> task_results in
  let task_results := <["patch" := of_opt_str patch]> task_results in
  ret task_results.

(** Lines 103-148: the version update task. *)
Definition run_version_update (repo git_repo prev_head : string)
    (requested_version : option string)
    (task_results : gmap string value) : M (gmap string value) :=
  requested_version ← lift (normalize_requested_version requested_version);
  emit (ELog "info" "version update requested version: '%s'"
          [of_opt_str requested_version]);;
  _pull_docker_image;;
  let full_repo_name := "conda-forge/" +:+ repo in
  '(version_changed, version_error, new_version) ←
    ext (update_version git_repo full_repo_name requested_version);
  let task_results := <["version_changed" := of_bool version_changed]> task_results in
  let task_results := <["version_error" := of_bool version_error]> task_results in
  let task_results := <["new_version" := of_opt_str new_version]> task_results in
  let task_results := <["patch" := VNone]> task_results in
  if version_changed then
    let message := "ENH: updated version to " +:+ str_of_opt new_version in
    let task_results := <["commit_message" := VStr message]> task_results in
    '(rerender_changed, rerender_error, info_message, commit_message) ←
      ext (rerender git_repo);
    let task_results := <["rerender_changed" := of_bool rerender_changed]> task_results in
    let task_results := <["rerender_error" := of_bool rerender_error]> task_results in
    let task_results := <["info_message" := of_opt_str info_message]> task_results in
    task_results ←
      (if rerender_changed then
         match commit_message with
         | Some commit_message =>
             ret (<["commit_message" :=
                      VStr (message +:+ " & " +:+ slice_from 5 commit_message)]>
                    task_results)
         | None => raise (TypeError "'NoneType' object is not subscriptable")
         end
       else ret task_results);
    patch ← ext (get_git_patch_relative_to_commit git_repo prev_head);
    ret (<["patch" := of_opt_str patch]> task_results)
  else
    let task_results := <["rerender_changed" := VBool false]> task_results in
    let task_results := <["rerender_error" := VBool false]> task_results in
    let task_results := <["info_message" := VNone]> task_results in
    let task_results := <["commit_message" := VNone]> task_results in
    ret task_results.

(** Lines 150-172: the lint task. *)
Definition run_lint (feedstock_dir : string)
    (task_results : gmap string value) : M (gmap string value) :=
  _pull_docker_image;;
  '(lint_error, lints, hints, errors) ←
    try_except
      (res ← ext (lint_feedstock feedstock_dir true);
       match res with
       | LintTwo lints hints =>
           let all_keys : gset string := dom lints ∪ dom hints in
           let errors : gmap string value := gset_to_gmap (VBool false) all_keys in
           ret (false, VDict lints, VDict hints, VDict errors)
       | LintThree lints hints errors =>
           ret (false, VDict lints, VDict hints, VDict errors)
       end)
      (λ err,
        emit (ELogExc "warning" "LINTING ERROR: %s" err);;
        emit (ELogExc "warning" "LINTING ERROR TRACEBACK: %s" err);;
        ret (true, VNone, VNone, VNone));
  let task_results := <["lint_error" := of_bool lint_error]> task_results in
  let task_results := <["lints" := lints]> task_results in
  let task_results := <["hints" := hints]> task_results in
  let task_results := <["errors" := errors]> task_results in
  ret task_results.

Definition main_run_task (task repo pr_number task_data_dir : string)
    (requested_version sha : option string) : M unit :=
  ext (setup_logging "DEBUG");;
  let action_desc :=
    "task `" +:+ task +:+ "` for conda-forge/" +:+ repo +:+ "#" +:+ pr_number in
  emit (ELog "info" action_desc []);;
  emit (EPrint ("::notice title=conda-forge-webservices job information::"
                +:+ action_desc));;
  let feedstock_dir := os_path_join task_data_dir repo in
  ext (os_makedirs feedstock_dir);;
  let repo_url := "https://github.com/conda-forge/" +:+ repo +:+ ".git" in
  ext (Repo_clone_from repo_url feedstock_dir None);;
  let git_repo := feedstock_dir in
  ext (origin_fetch git_repo
         ["pull/" +:+ pr_number +:+ "/head:pull/" +:+ pr_number +:+ "/head"]);;
  ext (git_switch git_repo ("pull/" +:+ pr_number +:+ "/head"));;
  prev_head ← ext (active_branch_commit_hexsha git_repo);
  task_results ←
    (if String.eqb task "rerender" then
       run_rerender git_repo prev_head ∅
     else if String.eqb task "version_update" then
       run_version_update repo git_repo prev_head requested_version ∅
     else if String.eqb task "lint" then
       run_lint feedstock_dir ∅
     else raise (ValueError ("Task `" +:+ task +:+ "` is not valid!")));
  let task_data :=
    {| task := task; repo := repo; pr_number := pr_number; sha := sha;
       task_results := task_results |} in
  ext (json_dump (os_path_join task_data_dir "task_data.json") task_data);;
  ext (subprocess_run ["rm"; "-rf"; os_path_join feedstock_dir ".git"] None true true);;
  ext (subprocess_run ["rm"; "-rf"; feedstock_dir] None true true).

Definition _push_changes (action : string) (action_error info_message changed : value)
    (git_repo : string) (pr : PullRequest)
    (pr_branch pr_owner pr_repo repo_name : string)
    (close_pr_if_no_changes_or_errors : bool) : M value :=
  let more_info_message :=
    newline +:+ dedent_with_escaped_continue more_info_text in
  info_message ←
    (if truthy action_error then
       let info_message := if is_None info_message then VStr "" else info_message in
       lift (iadd_str info_message more_info_message)
     else ret info_message);
  push_error ←
    ext (comment_and_push_if_changed
           {| action := action; changed := changed; error := action_error;
              git_repo := git_repo; pull := pr; pr_branch := pr_branch;
              pr_owner := pr_owner; pr_repo := pr_repo; repo_name := repo_name;
              close_pr_if_no_changes_or_errors := close_pr_if_no_changes_or_errors;
              help_message := help_text; info_message := info_message |});
  ret (py_or action_error (VBool push_error)).

(** Lines 282-333: clone the contributor's branch, apply the patch and
    commit.  Gives the task results, whose commit message may have been
    defaulted, and the locals bound on the way. *)
Definition commit_changes (tmpdir : string) (pr : PullRequest)
    (task_results : gmap string value)
    : M (gmap string value * commit_locals) :=
  let pr_branch := head_ref pr in
  let pr_owner := head_repo_owner_login pr in
  let pr_repo := head_repo_name pr in
  patch ← lift (getitem task_results "patch");
  task_results ←
    (if negb (is_None patch) then
       commit_message ← lift (getitem task_results "commit_message");
       if is_None commit_message then
         emit (ELog "warning"
                 ("The webservices tasks did not provide a commit message " +:+
                  "but did provide a patch. This is likely an error. " +:+
                  "Proceeding with a default commit message.") []);;
         ret (<["commit_message" := VStr "chore: conda-forge-webservices update"]>
                task_results)
       else ret task_results
     else ret task_results);
  let feedstock_dir := os_path_join tmpdir pr_repo in
  ext (Repo_clone_from
         ("https://github.com/" +:+ pr_owner +:+ "/" +:+ pr_repo +:+ ".git")
         feedstock_dir (Some pr_branch));;
  let git_repo := feedstock_dir in
  patch ← lift (getitem task_results "patch");
  (if negb (is_None patch) then
     let patch_file := os_path_join tmpdir "rerender-diff.patch" in
     ext (open_w patch_file);;
     match patch with
     | VStr content => ext (fp_write patch_file content)
     | _ => raise (TypeError "write() argument must be str")
     end;;
     ext (subprocess_run ["git"; "apply"; "--allow-empty"; patch_file]
            (Some feedstock_dir) true false);;
     ext (subprocess_run ["git"; "add"; "-f"; "."] (Some feedstock_dir) true false)
   else ret tt);;
  commit_message ← lift (getitem task_results "commit_message");
  (if negb (is_None commit_message) then
     match commit_message with
     | VStr message =>
         ext (subprocess_run ["git"; "commit"; "-m"; message; "--allow-empty"]
                (Some feedstock_dir) true false)
     | _ => raise (TypeError "expected str, bytes or os.PathLike object")
     end
   else ret tt);;
  ret (task_results,
       {| l_pr_branch := pr_branch; l_pr_owner := pr_owner; l_pr_repo := pr_repo;
          l_git_repo := git_repo |}).

(** Lines 336-376. *)
Definition finalize_rerender (repo pr_number : string) (sha_for_status : option string)
    (gh_repo : Repository) (pr : PullRequest)
    (task_results : gmap string value) (locals : option commit_locals) : M unit :=
  let full_repo_name := "conda-forge/" +:+ repo in
  action_error ← lift (getitem task_results "rerender_error");
  info_message ← lift (getitem task_results "info_message");
  changed ← lift (getitem task_results "changed");
  l ← local "git_repo" locals;
  comment_push_error ←
    _push_changes "rerender" action_error info_message changed
      (l_git_repo l) pr (l_pr_branch l) (l_pr_owner l) (l_pr_repo l)
      full_repo_name false;
  let status := if negb (truthy comment_push_error) then "success" else "failure" in
  run_id ← ext (os_environ "GITHUB_RUN_ID");
  let target_url :=
    "https://github.com/conda-forge/conda-forge-webservices/" +:+
    "actions/runs/" +:+ run_id in
  n ← int_of pr_number;
  ext (set_rerender_pr_status gh_repo n status target_url sha_for_status);;
  (if negb (truthy comment_push_error)
      && String.eqb (title pr) "MNT: rerender"
      && String.eqb (user_login pr) "conda-forge-admin"
   then ext (mark_pr_as_ready_for_review pr)
   else ret tt);;
  if truthy comment_push_error then
    emit (ELog "error"
            ("Error in rerender for " +:+ full_repo_name +:+ "#" +:+ pr_number
             +:+ "! " +:+ check_logs_text) []);;
    sys_exit 1
  else ret tt.

(** Lines 378-431.  [pr_title_error] is assigned only when the title
    update is attempted.  The last f-string interpolates two values; they
    are recorded as the arguments of the log record. *)
Definition finalize_version_update (repo pr_number : string)
    (pr : PullRequest)
    (task_results : gmap string value) (locals : option commit_locals) : M unit :=
  let full_repo_name := "conda-forge/" +:+ repo in
  version_error ← lift (getitem task_results "version_error");
  pr_title_error ←
    (if negb (truthy version_error) then
       version_changed ← lift (getitem task_results "version_changed");
       if truthy version_changed then
         new_version ← lift (getitem task_results "new_version");
         if truthy new_version then
           emit (ELog "info" "Updating PR title for %s#%s with version=%s"
                   [VStr full_repo_name; VStr pr_number; new_version]);;
           n ← int_of pr_number;
           pr_title_error ← ext (update_pr_title full_repo_name n new_version);
           ret (Some pr_title_error)
         else ret None
       else ret None
     else ret None);
  action_error ← lift (version_update_action_error task_results);
  info_message ← lift (getitem task_results "info_message");
  changed ← lift (getitem task_results "version_changed");
  l ← local "git_repo" locals;
  comment_push_error ←
    _push_changes "update the version and rerender" action_error info_message changed
      (l_git_repo l) pr (l_pr_branch l) (l_pr_owner l) (l_pr_repo l)
      full_repo_name true;
  (if negb (truthy comment_push_error)
   then ext (mark_pr_as_ready_for_review pr)
   else ret tt);;
  pr_title_error ← local "pr_title_error" pr_title_error;
  if pr_title_error || truthy comment_push_error then
    emit (ELog "error"
            ("Error in version update for " +:+ full_repo_name +:+ "#" +:+ pr_number
             +:+ ": pr_title_error=%r comment_push_error=%r. " +:+ check_logs_text)
            [VBool pr_title_error; comment_push_error]);;
    sys_exit 1
  else ret tt.

(** Lines 432-483. *)
Definition finalize_lint (repo pr_number : string) (sha_for_status : option string)
    (gh : Github) (gh_repo : Repository) (pr : PullRequest)
    (task_results : gmap string value) : M unit :=
  let full_repo_name := "conda-forge/" +:+ repo in
  lints ← lift (getitem task_results "lints");
  task_results ←
    (if negb (is_None lints) then
       hints ← lift (getitem task_results "hints");
       if negb (is_None hints) then
         errors ← lift (getitem task_results "errors");
         if negb (is_None errors) then
           recipes_to_lint ←
             ext (get_recipes_for_linting gh gh_repo (number pr) lints hints);
           lift (rescope_lint_error task_results errors recipes_to_lint)
         else ret task_results
       else ret task_results
     else ret task_results);
  lint_error ← lift (getitem task_results "lint_error");
  '(msg, status) ←
    (if truthy lint_error then
       run_link ← ext get_gha_run_link;
       let _message := dedent_with_escaped_continue (lint_failed_text run_link) in
       let _message :=
         _message +:+ newline +:+ newline +:+
         "<sub>This message was generated by " +:+
         "GitHub Actions workflow run [" +:+ run_link +:+ "](" +:+ run_link +:+ "). " +:+
         "Examine the logs at this URL for more detail.</sub>" +:+ newline in
       msg ← ext (make_lint_comment gh_repo (number pr) _message);
       ret (msg, "bad")
     else
       lints ← lift (getitem task_results "lints");
       hints ← lift (getitem task_results "hints");
       ext (build_and_make_lint_comment gh gh_repo (number pr) lints hints));
  ext (set_pr_status gh_repo sha_for_status status (html_url msg));;
  emit (EPrint ("Linter status: " +:+ status));;
  emit (EPrint ("Linter message:" +:+ newline +:+ body msg));;
  lint_error ← lift (getitem task_results "lint_error");
  if truthy lint_error then
    emit (ELog "error"
            ("Error in linting for " +:+ full_repo_name +:+ "#" +:+ pr_number
             +:+ "! " +:+ check_logs_text) []);;
    sys_exit 1
  else ret tt.

(** Lines 273-485: what the finalizer does once the pull request is
    resolved. *)
Definition finalize_pull (task_data : TaskData) (tmpdir : string)
    (gh : Github) (gh_repo : Repository) (pr : PullRequest) : M unit :=
  let task := task task_data in
  let repo := repo task_data in
  let pr_number := pr_number task_data in
  let task_results := task_results task_data in
  let sha_for_status := sha task_data in
  if str_in task ["rerender"; "version_update"; "lint"]
     && String.eqb (state pr) "closed"
  then
    emit (ELog "error"
            ("Closed PRs cannot be linted, rerendered, " +:+
             " or have their versions updated! Exiting...") [])
  else
    '(task_results, locals) ←
      (if str_in task ["rerender"; "version_update"] then
         '(task_results, l) ← commit_changes tmpdir pr task_results;
         ret (task_results, Some l)
       else ret (task_results, None));
    if String.eqb task "rerender" then
      finalize_rerender repo pr_number sha_for_status gh_repo pr task_results locals
    else if String.eqb task "version_update" then
      finalize_version_update repo pr_number pr task_results locals
    else if String.eqb task "lint" then
      finalize_lint repo pr_number sha_for_status gh gh_repo pr task_results
    else raise (ValueError ("Task `" +:+ task +:+ "` is not valid!")).

Definition main_finalize_task (task_data_dir : string) : M unit :=
  ext logging_basicConfig;;
  task_data ← ext (json_load (os_path_join task_data_dir "task_data.json"));
  emit (ELog "info" "finalizing task `%s` for conda-forge/%s#%s"
          [VStr (task task_data); VStr (repo task_data);
           VStr (pr_number task_data)]);;
  emit (ELog "info" "task results:" []);;
  ext flush_logger;;
  emit (EPrintResults (task_results task_data));;
  ext flush_logger;;
  tmpdir ← ext TemporaryDirectory;
  try_finally
    (let full_repo_name := "conda-forge/" +:+ repo task_data in
     gh ← ext create_api_sessions;
     gh_repo ← ext (get_repo gh full_repo_name);
     n ← int_of (pr_number task_data);
     pr ← ext (get_pull gh_repo n);
     finalize_pull task_data tmpdir gh gh_repo pr)
    (ext (TemporaryDirectory_cleanup tmpdir)).

(** Lines 504-510: the scan of the open pull requests. *)
Fixpoint automerge_scan (gh_repo : Repository) (full_repo_name sha : string)
    (pulls : list PullRequest) (found_pr : bool) : M bool :=
  match pulls with
  | [] => ret found_pr
  | pr :: rest =>
      if String.eqb (head_sha pr) sha then
        gh_for_admin ← ext create_api_sessions_for_admin;
        gh_repo_for_admin ← ext (get_repo gh_for_admin full_repo_name);
        pr_for_admin ← ext (get_pull gh_repo_for_admin (number pr));
        ext (automerge_pr gh_repo pr pr_for_admin);;
        automerge_scan gh_repo full_repo_name sha rest true
      else automerge_scan gh_repo full_repo_name sha rest found_pr
  end.

Definition main_automerge (repo sha : string) : M unit :=
  ext logging_basicConfig;;
  let action_desc := "task `automerge` for conda-forge/" +:+ repo +:+ "@" +:+ sha in
  emit (EPrint ("::notice title=conda-forge-webservices job information::"
                +:+ action_desc));;
  let found_pr := false in
  let full_repo_name := "conda-forge/" +:+ repo in
  gh ← ext create_api_sessions;
  gh_repo ← ext (get_repo gh full_repo_name);
  pulls ← ext (get_pulls gh_repo);
  found_pr ← automerge_scan gh_repo full_repo_name sha pulls found_pr;
  if negb found_pr then
    emit (ELog "error" ("No PR found for " +:+ full_repo_name +:+ "@" +:+ sha +:+ "!") []);;
    emit (EPrint ("::warning title=No PR Found for Automerge::" +:+
                  "No PR found for " +:+ full_repo_name +:+ "@" +:+ sha))
  else ret tt.

End Scripts.

(** ** Observations on runs *)

(** The calls that only read: logging set-up, the environment, the
    hand-off file, the scratch directory, and the forge queries made with
    the standard session. *)
Definition read_only (c : call) : bool :=
  match c with
  | setup_logging _ | logging_basicConfig | flush_logger
  | active_branch_commit_hexsha _ | os_environ _ | json_load _
  | TemporaryDirectory | TemporaryDirectory_cleanup _
  | create_api_sessions | get_repo _ _ | get_pull _ _ | get_pulls _
  | get_recipes_for_linting _ _ _ _ _ | get_gha_run_link => true
  | _ => false
  end.

(** Every other call counts as a mutation: clone, patch, commit, push,
    comment, status, close, ready-for-review, merge, elevated session. *)
Definition mutates (e : event) : bool :=
  match e with
  | ECall c => negb (read_only c)
  | _ => false
  end.

(** A world in which every collaborator returns normally. *)
Definition answers_all (w : world) : Prop :=
  ∀ c h, ∃ r, w c h = Ok r.

(** A world in which every collaborator but the lint tool returns
    normally. *)
Definition is_lint_feedstock (c : call) : bool :=
  match c with lint_feedstock _ _ => true | _ => false end.

Definition answers_all_but_lint (w : world) : Prop :=
  ∀ c h, is_lint_feedstock c = false → ∃ r, w c h = Ok r.

(** Weakest preconditions: [wp m w h Q] holds when running [m] in world
    [w] from history [h] ends in an outcome and a history related by
    [Q]. *)
Definition wp {A} (m : M A) (w : world) (h : trace)
    (Q : outcome A → trace → Prop) : Prop :=
  Q (m w h).1 (m w h).2.

(** Shapes of events. *)
Definition is_rerender_call (e : event) : bool :=
  match e with ECall (rerender _) => true | _ => false end.

Definition is_update_version_call (e : event) : bool :=
  match e with ECall (update_version _ _ _) => true | _ => false end.

Definition is_update_pr_title_call (e : event) : bool :=
  match e with ECall (update_pr_title _ _ _) => true | _ => false end.

Definition is_formatter_call (e : event) : bool :=
  match e with ECall (build_and_make_lint_comment _ _ _ _ _) => true | _ => false end.

(** The steps of the commit phase of the finalizer. *)
Definition is_commit_step (e : event) : bool :=
  match e with
  | ECall (Repo_clone_from _ _ _) | ECall (open_w _) | ECall (fp_write _ _)
  | ECall (subprocess_run _ _ _ _) | ELog "warning" _ _ => true
  | _ => false
  end.

(** The error flag of every push/comment step in a trace is [v]. *)
Definition pushes_with_error (v : value) (e : event) : Prop :=
  match e with
  | ECall (comment_and_push_if_changed a) => error a = v
  | _ => True
  end.

(** The version update tool is only ever asked to auto-detect. *)
Definition update_version_auto (e : event) : Prop :=
  match e with
  | ECall (update_version _ _ input_version) => input_version = None
  | _ => True
  end.

(** A lint Task Result with the given fields. *)
Definition lint_task_data (lints hints errors lint_error : value)
    (td : TaskData) : Prop :=
  task td = "lint" ∧
  task_results td !! "lints" = Some lints ∧
  task_results td !! "hints" = Some hints ∧
  task_results td !! "errors" = Some errors ∧
  task_results td !! "lint_error" = Some lint_error.

(** The world scopes the linting to the given recipes. *)
Definition scopes_to (w : world) (recipes_to_lint : list string) : Prop :=
  ∀ gh gh_repo n lints hints h,
    w (get_recipes_for_linting gh gh_repo n lints hints) h = Ok recipes_to_lint.

Definition sets_status_bad (e : event) : Prop :=
  match e with
  | ECall (set_pr_status _ _ status _) => status = "bad"
  | _ => False
  end.

Definition is_failure_comment (e : event) : bool :=
  match e with ECall (make_lint_comment _ _ _) => true | _ => false end.

(** The failure path of the lint finalizer: the fixed comment, the
    status "bad", exit code 1, and no findings comment. *)
Definition lint_failure (o : outcome unit) (tr : trace) : Prop :=
  o = SysExit 1 ∧
  Exists (λ e, is_failure_comment e = true) tr ∧
  Exists sets_status_bad tr ∧
  Forall (λ e, is_formatter_call e = false) tr.

(** The success path: the findings comment of the formatter, a normal
    return, and no failure comment. *)
Definition lint_success (o : outcome unit) (tr : trace) : Prop :=
  o = Ret tt ∧
  Exists (λ e, is_formatter_call e = true) tr ∧
  Forall (λ e, is_failure_comment e = false) tr.

(** [errors.get(rec, True)] is truthy. *)
Definition reports_error (errors : gmap string value) (rec : string) : bool :=
  truthy (default (VBool true) (errors !! rec)).

(** The errors of the scoping example: recipe "a" failed, "b" did not. *)
Definition errors_a_b : gmap string value :=
  <["a" := VBool true]> (<["b" := VBool false]> ∅).

(** ** Sample worlds *)

(** Default results. *)
Definition no_pr : PullRequest :=
  {| number := 0; state := "open"; title := ""; user_login := "";
     head_ref := ""; head_sha := ""; head_repo_owner_login := "";
     head_repo_name := "" |}.

Definition default_result (c : call) : ret_type c :=
  match c with
  | active_branch_commit_hexsha _ => "0000000"
  | os_environ _ => "env"
  | TemporaryDirectory => "/tmp/tmpdir"
  | get_gha_run_link => "https://github.com/run"
  | rerender _ => (false, false, None, None)
  | update_version _ _ _ => (false, false, None)
  | get_git_patch_relative_to_commit _ _ => None
  | lint_feedstock _ _ => LintTwo ∅ ∅
  | json_load _ =>
      {| task := ""; repo := ""; pr_number := ""; sha := None; task_results := ∅ |}
  | create_api_sessions => {| session_id := "standard" |}
  | create_api_sessions_for_admin => {| session_id := "admin" |}
  | get_repo gh full_repo_name =>
      {| repo_session := gh; repo_full_name := full_repo_name |}
  | get_pull _ _ => no_pr
  | get_pulls _ => []
  | comment_and_push_if_changed _ => false
  | update_pr_title _ _ _ => false
  | get_recipes_for_linting _ _ _ _ _ => []
  | make_lint_comment _ _ message => {| html_url := "https://github.com/c"; body := message |}
  | build_and_make_lint_comment _ _ _ _ _ =>
      ({| html_url := "https://github.com/c"; body := "" |}, "good")
  | setup_logging _ | logging_basicConfig | flush_logger | os_makedirs _
  | Repo_clone_from _ _ _ | origin_fetch _ _ | git_switch _ _
  | subprocess_run _ _ _ _ | json_dump _ _ | TemporaryDirectory_cleanup _
  | open_w _ | fp_write _ _ | set_rerender_pr_status _ _ _ _ _
  | mark_pr_as_ready_for_review _ | set_pr_status _ _ _ _ | automerge_pr _ _ _ => tt
  end.

(** Every collaborator returns its default result. *)
Definition quiet : world := λ c _, Ok (default_result c).

(** Decimal digits only; enough for the sample runs. *)
Definition sample_int (s : string) : option Z :=
  if String.eqb s "7" then Some 7 else None.

Definition open_pr : PullRequest :=
  {| number := 7; state := "open"; title := "update"; user_login := "someone";
     head_ref := "branch"; head_sha := "abc"; head_repo_owner_login := "someone";
     head_repo_name := "pkg-feedstock" |}.

Definition closed_pr : PullRequest :=
  {| number := 7; state := "closed"; title := "update"; user_login := "someone";
     head_ref := "branch"; head_sha := "abc"; head_repo_owner_login := "someone";
     head_repo_name := "pkg-feedstock" |}.

Definition task_data_of (task : string) (task_results : gmap string value) : TaskData :=
  {| task := task; repo := "pkg-feedstock"; pr_number := "7"; sha := Some "abc";
     task_results := task_results |}.

(** A world that hands out the given Task Result and pull request and
    scopes the linting to the given recipes. *)
Definition world_with (task_data : TaskData) (pr : PullRequest)
    (recipes_to_lint : list string) : world :=
  λ c h,
    match c return answer (ret_type c) with
    | json_load _ => Ok task_data
    | get_pull _ _ => Ok pr
    | get_recipes_for_linting _ _ _ _ _ => Ok recipes_to_lint
    | c => quiet c h
    end.

(** The Task Result of a version update that found nothing to update,
    as the Runner writes it. *)
Definition unchanged_version_results : gmap string value :=
  <["commit_message" := VNone]>
    (<["info_message" := VNone]>
       (<["rerender_error" := VBool false]>
          (<["rerender_changed" := VBool false]>
             (<["patch" := VNone]>
                (<["new_version" := VNone]>
                   (<["version_error" := VBool false]>
                      (<["version_changed" := VBool false]> ∅))))))).

(** The Task Result of a version update to 1.2.3 whose chained rerender
    failed. *)
Definition changed_version_results : gmap string value :=
  <["commit_message" := VStr "ENH: updated version to 1.2.3"]>
    (<["info_message" := VStr "rerender failed"]>
       (<["rerender_error" := VBool true]>
          (<["rerender_changed" := VBool false]>
             (<["patch" := VStr "diff"]>
                (<["new_version" := VStr "1.2.3"]>
                   (<["version_error" := VBool false]>
                      (<["version_changed" := VBool true]> ∅))))))).

Definition is_push_call (e : event) : bool :=
  match e with ECall (comment_and_push_if_changed _) => true | _ => false end.

Definition is_ready_call (e : event) : bool :=
  match e with ECall (mark_pr_as_ready_for_review _) => true | _ => false end.

(** The lint Task Result of the scoping example. *)
Definition lint_results_a_b : gmap string value :=
  <["lint_error" := VBool false]>
    (<["lints" := VDict ∅]>
       (<["hints" := VDict ∅]>
          (<["errors" := VDict errors_a_b]> ∅))).

(** Every Task Result that the world hands out satisfies [P]. *)
Definition hands_out (w : world) (P : TaskData → Prop) : Prop :=
  ∀ path h task_data, w (json_load path) h = Ok task_data → P task_data.

(** Every pull request that the world resolves satisfies [P]. *)
Definition resolves (w : world) (P : PullRequest → Prop) : Prop :=
  ∀ gh_repo n h pr, w (get_pull gh_repo n) h = Ok pr → P pr.


(** The Task Result of a lint task whose tool raised. *)
Definition lint_failed_results : gmap string value :=
  <["errors" := VNone]>
    (<["hints" := VNone]>
       (<["lints" := VNone]>
          (<["lint_error" := VBool true]> ∅))).

Definition is_json_dump_call (e : event) : bool :=
  match e with ECall (json_dump _ _) => true | _ => false end.

(** A world whose lint tool raises, every other call succeeding. *)
Definition world_lint_raises (err : exn) : world :=
  λ c h,
    match c return answer (ret_type c) with
    | lint_feedstock _ _ => Err err
    | c => quiet c h
    end.

(** A world whose version tool bumps to 1.2.3 and whose rerender changes
    the feedstock. *)
Definition world_bump : world :=
  λ c h,
    match c return answer (ret_type c) with
    | update_version _ _ _ => Ok (true, false, Some "1.2.3")
    | rerender _ => Ok (true, false, None, Some "MNT: Re-rendered with conda-smithy")
    | get_git_patch_relative_to_commit _ _ => Ok (Some "diff")
    | c => quiet c h
    end.

(** The chained-rerender fields say that nothing happened. *)
Definition nothing_chained (task_results : gmap string value) : Prop :=
  task_results !! "rerender_changed" = Some (VBool false) ∧
  task_results !! "rerender_error" = Some (VBool false) ∧
  task_results !! "info_message" = Some VNone ∧
  task_results !! "commit_message" = Some VNone ∧
  task_results !! "patch" = Some VNone.

(** The version tool reports an unchanged version. *)
Definition reports_unchanged (w : world) : Prop :=
  ∀ git_repo full_repo_name input_version h r,
    w (update_version git_repo full_repo_name input_version) h = Ok r →
    r.1.1 = false.

(** No open pull request has the given head commit. *)
Definition lists_no_match (w : world) (sha : string) : Prop :=
  ∀ gh_repo h pulls,
    w (get_pulls gh_repo) h = Ok pulls → Forall (λ pr, head_sha pr ≠ sha) pulls.

(** A world with two open pull requests, on commits "abc" and "def". *)
Definition other_pr : PullRequest :=
  {| number := 8; state := "open"; title := "other"; user_login := "someone";
     head_ref := "other"; head_sha := "def"; head_repo_owner_login := "someone";
     head_repo_name := "pkg-feedstock" |}.

Definition world_two_pulls : world :=
  λ c h,
    match c return answer (ret_type c) with
    | get_pulls _ => Ok [open_pr; other_pr]
    | c => quiet c h
    end.

(** ** Further observations *)

(** The calls of the image pull: the two environment lookups and the
    unchecked [docker pull]. *)
Definition is_pull_step (e : event) : bool :=
  match e with
  | ECall (os_environ _) => true
  | ECall (subprocess_run ("docker" :: "pull" :: _) None false false) => true
  | _ => false
  end.

(** The calls a runner makes once it has accepted its task: tools,
    subprocesses, the Task Result file. *)
Definition is_task_step (e : event) : bool :=
  match e with
  | ECall (rerender _) | ECall (update_version _ _ _) | ECall (lint_feedstock _ _)
  | ECall (get_git_patch_relative_to_commit _ _) | ECall (subprocess_run _ _ _ _)
  | ECall (os_environ _) | ECall (json_dump _ _) => true
  | _ => false
  end.

(** The version tool is only ever given [input_version]. *)
Definition update_version_input (input_version : option string) (e : event) : Prop :=
  match e with
  | ECall (update_version _ _ v) => v = input_version
  | _ => True
  end.

(** The lint tool returns the two-tuple. *)
Definition lints_two (w : world) (lints hints : gmap string value) : Prop :=
  ∀ feedstock_dir use_container h,
    w (lint_feedstock feedstock_dir use_container) h = Ok (LintTwo lints hints).

(** The scratch directory of the finalizer is [tmpdir]. *)
Definition scratch_is (w : world) (tmpdir : string) : Prop :=
  ∀ h, w TemporaryDirectory h = Ok tmpdir.

(** The push/comment step may close the pull request only when [closes]
    holds. *)
Definition push_closes (closes : bool) (e : event) : Prop :=
  match e with
  | ECall (comment_and_push_if_changed a) => close_pr_if_no_changes_or_errors a = closes
  | _ => True
  end.

Definition is_scoping_call (e : event) : bool :=
  match e with ECall (get_recipes_for_linting _ _ _ _ _) => true | _ => false end.

(** A rerender Task Result with the given fields. *)
Definition rerender_task_data (rerender_error changed : bool)
    (info_message commit_message patch : option string) (td : TaskData) : Prop :=
  task td = "rerender" ∧
  task_results td !! "rerender_error" = Some (VBool rerender_error) ∧
  task_results td !! "changed" = Some (VBool changed) ∧
  task_results td !! "info_message" = Some (of_opt_str info_message) ∧
  task_results td !! "commit_message" = Some (of_opt_str commit_message) ∧
  task_results td !! "patch" = Some (of_opt_str patch).

(** The push/comment step reports [push_error]. *)
Definition push_reports (w : world) (push_error : bool) : Prop :=
  ∀ a h, w (comment_and_push_if_changed a) h = Ok push_error.

Definition sets_rerender_status (status : string) (e : event) : Prop :=
  match e with
  | ECall (set_rerender_pr_status _ _ s _ _) => s = status
  | _ => False
  end.

(** The pull request was opened by the bot for a rerender. *)
Definition is_bot_rerender (pr : PullRequest) : bool :=
  String.eqb (title pr) "MNT: rerender"
  && String.eqb (user_login pr) "conda-forge-admin".

(** A version_update Task Result of a successful bump to [new_version]. *)
Definition bumped_task_data (rerender_error : bool) (new_version : string)
    (info_message commit_message patch : option string) (td : TaskData) : Prop :=
  task td = "version_update" ∧
  task_results td !! "version_error" = Some (VBool false) ∧
  task_results td !! "version_changed" = Some (VBool true) ∧
  task_results td !! "new_version" = Some (VStr new_version) ∧
  task_results td !! "rerender_error" = Some (VBool rerender_error) ∧
  task_results td !! "info_message" = Some (of_opt_str info_message) ∧
  task_results td !! "commit_message" = Some (of_opt_str commit_message) ∧
  task_results td !! "patch" = Some (of_opt_str patch).

(** The title update reports [title_error]. *)
Definition title_reports (w : world) (title_error : bool) : Prop :=
  ∀ full_repo_name n new_version h,
    w (update_pr_title full_repo_name n new_version) h = Ok title_error.

Definition updates_title_to (new_version : string) (e : event) : Prop :=
  match e with
  | ECall (update_pr_title _ _ v) => v = VStr new_version
  | _ => False
  end.

(** Writing or applying a patch. *)
Definition is_patch_step (e : event) : bool :=
  match e with
  | ECall (open_w _) | ECall (fp_write _ _)
  | ECall (subprocess_run ("git" :: "apply" :: _) _ _ _)
  | ECall (subprocess_run ("git" :: "add" :: _) _ _ _) => true
  | _ => false
  end.

(** The merge is only evaluated for pull requests on commit [sha]. *)
Definition merges_only (sha : string) (e : event) : Prop :=
  match e with
  | ECall (automerge_pr _ pr _) => head_sha pr = sha
  | _ => True
  end.

Definition is_automerge_call (e : event) : bool :=
  match e with ECall (automerge_pr _ _ _) => true | _ => false end.

Definition is_admin_session_call (e : event) : bool :=
  match e with ECall create_api_sessions_for_admin => true | _ => false end.

Definition is_print (e : event) : bool :=
  match e with EPrint _ => true | _ => false end.

(** The open pull requests are [pulls]. *)
Definition lists (w : world) (pulls : list PullRequest) : Prop :=
  ∀ gh_repo h, w (get_pulls gh_repo) h = Ok pulls.

(** The open pull requests on commit [sha]. *)
Definition on_commit (sha : string) (pulls : list PullRequest) : list PullRequest :=
  List.filter (λ pr, String.eqb (head_sha pr) sha) pulls.

(** The report that no pull request was found: the error record and the
    warning notice. *)
Definition is_no_match_report (e : event) : bool :=
  match e with
  | ELog _ _ _ => true
  | EPrint line => String.prefix "::warning" line
  | _ => false
  end.

(** A world whose lint tool returns the two-tuple with findings for the
    recipes "a" (a lint) and "b" (a hint). *)
Definition world_lint_two : world :=
  λ c h,
    match c return answer (ret_type c) with
    | lint_feedstock _ _ =>
        Ok (LintTwo (<["a" := VList [VStr "lint"]]> ∅) (<["b" := VList [VStr "hint"]]> ∅))
    | c => quiet c h
    end.

(** The Task Result of a clean rerender that changed the feedstock. *)
Definition rerender_results : gmap string value :=
  <["patch" := VStr "diff"]>
    (<["commit_message" := VStr "MNT: rerender"]>
       (<["info_message" := VNone]>
          (<["rerender_error" := VBool false]>
             (<["changed" := VBool true]> ∅)))).

(** The bot's own rerender pull request. *)
Definition bot_pr : PullRequest :=
  {| number := 7; state := "open"; title := "MNT: rerender";
     user_login := "conda-forge-admin"; head_ref := "rerender";
     head_sha := "abc"; head_repo_owner_login := "conda-forge-admin";
     head_repo_name := "pkg-feedstock" |}.

(** Task results with a patch and no commit message. *)
Definition patch_only_results : gmap string value :=
  <["patch" := VStr "diff"]> (<["commit_message" := VNone]> ∅).

(** ** Further observations on the finalizer *)

(** The other fields that the version finalizer reads are in place: a new
    version, and an info message, a commit message and a patch that are
    strings or null. *)
Definition version_fields_present (td : TaskData) : Prop :=
  is_Some (task_results td !! "new_version") ∧
  (∃ info_message,
     task_results td !! "info_message" = Some (of_opt_str info_message)) ∧
  (∃ commit_message,
     task_results td !! "commit_message" = Some (of_opt_str commit_message)) ∧
  (∃ patch, task_results td !! "patch" = Some (of_opt_str patch)).

(** The formatter of the findings reports [status]. *)
Definition formats (w : world) (status : string) : Prop :=
  ∀ gh gh_repo n lints hints h,
    ∃ msg, w (build_and_make_lint_comment gh gh_repo n lints hints) h
           = Ok (msg, status).

Definition sets_status (status : string) (e : event) : Prop :=
  match e with
  | ECall (set_pr_status _ _ s _) => s = status
  | _ => False
  end.

(** The lint Task Result of the scoping example with the flag of the
    Runner set. *)
Definition lint_results_a_b_flagged : gmap string value :=
  <["lint_error" := VBool true]> lint_results_a_b.

(** The Task Result of a version update whose version did not change,
    with a rerender error all the same. *)
Definition unchanged_rerender_error_results : gmap string value :=
  <["rerender_error" := VBool true]> unchanged_version_results.

(** * The team update ([update_teams.py])

    The same kind of embedding, in a name space of its own: the script
    [update_team] with its helpers, over the calls it makes to the forge
    and to [configure_github_team].  The store of a run also holds the
    memo of [get_filter_out_members], which is decorated with [@cache]. *)

Module Teams.

(** The exceptions that matter to the script. *)
Inductive error :=
| KeyError (key : string)
| AssertionError (msg : string)
| UnknownObjectException
| OtherError (what : string).

Inductive result (A : Type) :=
| Done (a : A)
| Fail (e : error).
Arguments Done {A} a.
Arguments Fail {A} e.

(** ** Strings *)

(** [s.endswith(suffix)] *)
Fixpoint endswith (suffix s : string) : bool :=
  String.eqb suffix s
  || match s with
     | EmptyString => false
     | String _ s' => endswith suffix s'
     end.

(** [s.replace(old, "")] for a non-empty [old]: the occurrences are found
    from left to right and do not overlap.  [skip] counts the characters
    of the current occurrence that are still to be dropped. *)
Fixpoint remove_from (old : string) (skip : nat) (s : string) : string :=
  match s with
  | EmptyString => EmptyString
  | String c s' =>
      match skip with
      | S skip' => remove_from old skip' s'
      | O =>
          if String.prefix old s
          then remove_from old (String.length old - 1) s'
          else String c (remove_from old 0 s')
      end
  end.

Definition remove_all (old s : string) : string := remove_from old 0 s.

(** [s.count(",")] *)
Fixpoint count_commas (s : string) : nat :=
  match s with
  | EmptyString => 0
  | String c s' => (if Ascii.eqb c "," then 1 else 0) + count_commas s'
  end.

(** [sep.join(parts)] *)
Fixpoint join (sep : string) (parts : list string) : string :=
  match parts with
  | [] => ""
  | [part] => part
  | part :: rest => part +:+ sep +:+ join sep rest
  end.

(** ** The jinja filter

    [JINJA_PAT] is the regular expression "{{", then the longest run of
    characters other than braces (the group), then "}}". *)

Definition is_brace (c : ascii) : bool :=
  Ascii.eqb c "{" || Ascii.eqb c "}".

(** The longest prefix without a brace, and what follows it. *)
Fixpoint span_group (s : string) : string * string :=
  match s with
  | EmptyString => (EmptyString, EmptyString)
  | String c s' =>
      if is_brace c then (EmptyString, s)
      else let '(group, rest) := span_group s' in (String c group, rest)
  end.

(** A match of [JINJA_PAT] at the start of [s]: its group and what
    follows the match. *)
Definition match_jinja (s : string) : option (string * string) :=
  match s with
  | String "{" (String "{" s') =>
      let '(group, rest) := span_group s' in
      match rest with
      | String "}" (String "}" rest') => Some (group, rest')
      | _ => None
      end
  | _ => None
  end.

Definition _jinja2_repl (group : string) : string :=
  "${{" +:+ group +:+ "}}".

(** [JINJA_PAT.sub(_jinja2_repl, line)]: at each position, from left to
    right, a match is replaced and the scan resumes after it; otherwise
    the character is kept.  Every step consumes a character, so the length
    of the line is fuel enough. *)
Fixpoint sub_jinja (fuel : nat) (s : string) : string :=
  match fuel with
  | O => s
  | S fuel' =>
      match match_jinja s with
      | Some (group, rest) => _jinja2_repl group +:+ sub_jinja fuel' rest
      | None =>
          match s with
          | EmptyString => EmptyString
          | String c s' => String c (sub_jinja fuel' s')
          end
      end
  end.

Definition _filter_jinja2 (line : string) : string :=
  sub_jinja (String.length line) line.

(** ** The recipe *)

Section Recipe.

(** [str.splitlines], [str.strip] and the YAML loader of [DummyMeta],
    taken as given. *)
Variable splitlines : string → list string.
Variable strip : string → string.
Variable yaml_load : string → result value.

(** The test of line 70. *)
Definition is_extra (line : string) : bool :=
  String.prefix "extra:" (strip line).

(** One round of the loop of lines 69-73, on [(keep_lines, skip)]. *)
Definition keep_step (st : list string * nat) (line : string) : list string * nat :=
  let '(keep_lines, skip) := st in
  let skip := if is_extra line then (skip + 1)%nat else skip in
  let keep_lines :=
    if (0 <? skip)%nat then keep_lines ++ [_filter_jinja2 line] else keep_lines in
  (keep_lines, skip).

(** [DummyMeta(meta_yaml)]: the parsed document. *)
Definition DummyMeta (meta_yaml : string) : result value := yaml_load meta_yaml.

Definition get_recipe_dummy_meta (recipe_content : string) : result value :=
  let '(keep_lines, skip) :=
    fold_left keep_step (splitlines recipe_content) ([], 0%nat) in
  if (skip =? 1)%nat then DummyMeta (join newline keep_lines)
  else Fail (AssertionError "team update failed due to > 1 'extra:' sections").

End Recipe.

(** ** Calls *)

Inductive Client :=
| TokenClient (token : string)
| DefaultClient (id : string).

Record Organization := { org_id : string }.
Record Team := { team_id : string }.
Record Repo := { repo_id : string }.
Record Commit := { commit_id : string }.

Inductive call :=
| os_environ (name : string)
| get_gh_client
| get_organization (gh : Client) (org_name : string)
| get_team_by_slug (org : Organization) (slug : string)
| get_members (team : Team)
| get_repo (org : Organization) (repo_name : string)
| get_contents (gh_repo : Repo) (path : string)
| configure_github_team (meta : value) (gh_repo : Repo) (org : Organization)
    (name : string) (remove : bool)
| get_commit (gh_repo : Repo) (commit : string)
| create_comment (c : Commit) (message : string).

(** Results: the logins of the members of a team, the decoded text of a
    file, the three sets of maintainers. *)
Definition ret_type (c : call) : Type :=
  match c with
  | os_environ _ => string
  | get_gh_client => Client
  | get_organization _ _ => Organization
  | get_team_by_slug _ _ => Team
  | get_members _ => list string
  | get_repo _ _ => Repo
  | get_contents _ _ => string
  | configure_github_team _ _ _ _ _ => gset string * gset string * gset string
  | get_commit _ _ => Commit
  | create_comment _ _ => unit
  end.

Definition world := ∀ c : call, list call → result (ret_type c).

(** The calls made so far, and the memo of [get_filter_out_members]. *)
Record store := { calls : list call; memo : option (gset string) }.

Definition M (A : Type) : Type := world → store → result A * store.

Definition ret {A} (a : A) : M A := λ _ s, (Done a, s).

Definition bind {A B} (m : M A) (f : A → M B) : M B :=
  λ w s,
    match m w s with
    | (Done a, s') => f a w s'
    | (Fail e, s') => (Fail e, s')
    end.

#[local] Instance M_ret : MRet M := @ret.
#[local] Instance M_bind : MBind M := λ A B f m, bind m f.

Definition lift {A} (r : result A) : M A := λ _ s, (r, s).

Definition ext (c : call) : M (ret_type c) :=
  λ w s, (w c (calls s), {| calls := calls s ++ [c]; memo := memo s |}).

(** [try: body  except github.UnknownObjectException: handler] *)
Definition except_unknown_object {A} (body handler : M A) : M A :=
  λ w s,
    match body w s with
    | (Fail UnknownObjectException, s') => handler w s'
    | r => r
    end.

Definition read_memo : M (option (gset string)) := λ _ s, (Done (memo s), s).

Definition write_memo (members : gset string) : M unit :=
  λ _ s, (Done tt, {| calls := calls s; memo := Some members |}).

(** [list(f(x) for x in xs)] *)
Fixpoint for_each {A B} (f : A → M B) (xs : list A) : M (list B) :=
  match xs with
  | [] => ret []
  | x :: rest =>
      y ← f x;
      ys ← for_each f rest;
      ret (y :: ys)
  end.

(** The loop of lines 33-34. *)
Fixpoint collect_members (gh_teams : list Team) (members : gset string)
    : M (gset string) :=
  match gh_teams with
  | [] => ret members
  | team :: rest =>
      logins ← ext (get_members team);
      collect_members rest (members ∪ list_to_set logins)
  end.

(** The body of [get_filter_out_members]. *)
Definition fetch_filter_out_members : M (gset string) :=
  token ← ext (os_environ "GH_TOKEN");
  let gh := TokenClient token in
  org ← ext (get_organization gh "conda-forge");
  let teams := ["staged-recipes"; "help-r"; "r"] in
  gh_teams ← for_each (λ team, ext (get_team_by_slug org team)) teams;
  collect_members gh_teams ∅.

(** [@cache]: the body runs when nothing is stored, and its result is
    stored when it returns. *)
Definition get_filter_out_members : M (gset string) :=
  stored ← read_memo;
  match stored with
  | Some members => ret members
  | None =>
      members ← fetch_filter_out_members;
      write_memo members;;
      ret members
  end.

Definition filter_members (members : list string) : M (list string) :=
  out ← get_filter_out_members;
  ret (List.filter (λ m, negb (bool_decide (m ∈ out))) members).

Definition get_handles (members : list string) : M string :=
  mem ← filter_members members;
  ret (join ", " (map (λ m, "@" +:+ m) mem)).

Definition get_recipe_contents (gh_repo : Repo) : M string :=
  except_unknown_object
    (ext (get_contents gh_repo "recipe/meta.yaml"))
    (ext (get_contents gh_repo "recipe/recipe.yaml")).

Definition intro_text : string :=
"
            Hi! This is the friendly automated conda-forge-webservice.

            I updated the Github team because of this commit.
            ".

Definition new_members_text (newm verb : string) : string :=
"
                - " +:+ newm +:+ " " +:+ verb +:+ " added to conda-forge. Welcome to conda-forge!
                  Go to https://github.com/orgs/conda-forge/invitation see your invitation.
            ".

Definition added_members_text (addm verb : string) : string :=
"
                - " +:+ addm +:+ " " +:+ verb +:+ " added to this feedstock maintenance team.
            ".

Definition access_text : string :=
"
                You should get push access to this feedstock and CI services.

                Your package won't be available for installation locally until it is built
                and synced to the anaconda.org CDN (takes 1-2 hours after the build finishes).

                Feel free to join the community on [Zulip](https://conda-forge.zulipchat.com).

                NOTE: Please make sure to not push to the repository directly.
                      Use branches in your fork for any changes and send a PR.
                      More details on this are [here](https://conda-forge.org/docs/maintainer/updating_pkgs.html#forking-and-pull-requests).
            ".

(** ["were" if s.count(",") >= 1 else "was"] *)
Definition verb_for (handles : string) : string :=
  if (1 <=? count_commas handles)%nat then "were" else "was".

(** The teams that are not derived from a recipe. *)
Definition is_reserved (team_name : string) : bool :=
  str_in team_name ["core"; "bot"; "staged-recipes"; "arm-arch"; "systems"]
  || String.prefix "help-" team_name.

Section Script.

Variable splitlines : string → list string.
Variable strip : string → string.
Variable yaml_load : string → result value.
(** [textwrap.dedent] *)
Variable dedent : string → string.
(** [for m in members] over a set of strings.  The order in which Python
    walks such a set follows the hashes of its members, which change with
    the hash seed of the process; it is not fixed here.  [iter_set] lists
    a set in the order of the run. *)
Variable iter_set : gset string → list string.

(** Lines 112-151: the comment on the commit.  The two sets are walked in
    the order of [iter_set]. *)
Definition comment_on_commit (gh_repo : Repo) (commit : string)
    (current_maintainers prev_maintainers new_conda_forge_members : gset string)
    : M unit :=
  let message := dedent intro_text in
  newm ← get_handles (iter_set new_conda_forge_members);
  let message :=
    if negb (String.eqb newm "")
    then message +:+ dedent (new_members_text newm (verb_for newm))
    else message in
  addm ← get_handles
           (iter_set (current_maintainers ∖ prev_maintainers ∖ new_conda_forge_members));
  let message :=
    if negb (String.eqb addm "")
    then message +:+ dedent (added_members_text addm (verb_for addm))
    else message in
  if negb (String.eqb addm "") || negb (String.eqb newm "") then
    let message := message +:+ dedent access_text in
    c ← ext (get_commit gh_repo commit);
    ext (create_comment c message)
  else ret tt.

(** [commit] is [None] when the argument is left out. *)
Definition update_team (org_name repo_name : string) (commit : option string)
    : M unit :=
  if negb (endswith "-feedstock" repo_name) then ret tt
  else
    let team_name := lower (remove_all "-feedstock" repo_name) in
    if is_reserved team_name then ret tt
    else
      gh ← ext get_gh_client;
      org ← ext (get_organization gh org_name);
      gh_repo ← ext (get_repo org repo_name);
      recipe_content ← get_recipe_contents gh_repo;
      meta ← lift (get_recipe_dummy_meta splitlines strip yaml_load recipe_content);
      '(current_maintainers, prev_maintainers, new_conda_forge_members) ←
        ext (configure_github_team meta gh_repo org
               (remove_all "-feedstock" repo_name) true);
      match commit with
      | Some commit =>
          if negb (String.eqb commit "") then
            comment_on_commit gh_repo commit
              current_maintainers prev_maintainers new_conda_forge_members
          else ret tt
      | None => ret tt
      end.

End Script.

(** Run a script from the empty store. *)
Definition run {A} (m : M A) (w : world) : result A * store :=
  m w {| calls := []; memo := None |}.

End Teams.

(** ** Observations on the team update *)

(** [c in s] for a character. *)
Fixpoint has_char (c : ascii) (s : string) : bool :=
  match s with
  | EmptyString => false
  | String c' s' => Ascii.eqb c' c || has_char c s'
  end.

(** [any(is_brace(c) for c in s)] *)
Fixpoint has_brace (s : string) : bool :=
  match s with
  | EmptyString => false
  | String c s' => Teams.is_brace c || has_brace s'
  end.

(** The lines from the first one that passes [test] on. *)
Fixpoint from_first (test : string → bool) (lines : list string) : list string :=
  match lines with
  | [] => []
  | line :: rest => if test line then lines else from_first test rest
  end.

(** The weakest precondition of a script of the team update. *)
Definition teams_wp {A} (m : Teams.M A) (w : Teams.world) (s : Teams.store)
    (Q : Teams.result A → Teams.store → Prop) : Prop :=
  Q (m w s).1 (m w s).2.

(** The calls that reach the repository and configure its team. *)
Definition is_setup_call (c : Teams.call) : bool :=
  match c with
  | Teams.get_gh_client | Teams.get_organization _ _ | Teams.get_repo _ _
  | Teams.get_contents _ _ | Teams.configure_github_team _ _ _ _ _ => true
  | _ => false
  end.

(** The calls of [get_filter_out_members]. *)
Definition is_lookup_call (c : Teams.call) : bool :=
  match c with
  | Teams.os_environ _ | Teams.get_organization _ _
  | Teams.get_team_by_slug _ _ | Teams.get_members _ => true
  | _ => false
  end.

Definition is_comment_call (c : Teams.call) : bool :=
  match c with
  | Teams.get_commit _ _ | Teams.create_comment _ _ => true
  | _ => false
  end.

Definition is_create_comment (c : Teams.call) : bool :=
  match c with
  | Teams.create_comment _ _ => true
  | _ => false
  end.

(** [configure_github_team] hands out these three sets, whatever it is
    called with. *)
Definition configures (w : Teams.world)
    (current prev new : gset string) : Prop :=
  ∀ meta gh_repo org name remove h,
    w (Teams.configure_github_team meta gh_repo org name remove) h
    = Teams.Done (current, prev, new).

(** Every call but the reading of a file is answered, and every file
    read has the text [content]. *)
Definition serves (w : Teams.world) (content : string) : Prop :=
  (∀ c h, ∃ a, w c h = Teams.Done a)
  ∧ ∀ gh_repo path h, w (Teams.get_contents gh_repo path) h = Teams.Done content.

(** *** A sample forge *)

(** Lines ended by a line feed. *)
Fixpoint sample_splitlines (s : string) : list string :=
  match s with
  | EmptyString => []
  | String c s' =>
      if Ascii.eqb c "010" then EmptyString :: sample_splitlines s'
      else
        match sample_splitlines s' with
        | [] => [String c EmptyString]
        | line :: rest => String c line :: rest
        end
  end.

(** Leading blanks dropped. *)
Fixpoint sample_strip (s : string) : string :=
  match s with
  | String " " s' => sample_strip s'
  | _ => s
  end.

Definition sample_yaml_load (s : string) : Teams.result value :=
  Teams.Done (VStr s).

Definition sample_recipe : string :=
  "package:
  name: {{ name }}
extra:
  recipe-maintainers:
    - {{ owner }}
    - carol".

Definition sample_maintainers : gset string * gset string * gset string :=
  ({["alice"; "bob"; "carol"]}, {["bob"]}, {["carol"]}).

(** A forge with a v1 recipe only, and one member of the excluded teams. *)
Definition sample_forge : Teams.world :=
  λ c _,
    match c return Teams.result (Teams.ret_type c) with
    | Teams.os_environ _ => Teams.Done "token"
    | Teams.get_gh_client => Teams.Done (Teams.DefaultClient "app")
    | Teams.get_organization _ name => Teams.Done {| Teams.org_id := name |}
    | Teams.get_team_by_slug _ slug => Teams.Done {| Teams.team_id := slug |}
    | Teams.get_members team =>
        Teams.Done (if String.eqb (Teams.team_id team) "r" then ["alice"] else [])
    | Teams.get_repo _ name => Teams.Done {| Teams.repo_id := name |}
    | Teams.get_contents _ path =>
        if String.eqb path "recipe/meta.yaml"
        then Teams.Fail Teams.UnknownObjectException
        else Teams.Done sample_recipe
    | Teams.configure_github_team _ _ _ _ _ => Teams.Done sample_maintainers
    | Teams.get_commit _ commit => Teams.Done {| Teams.commit_id := commit |}
    | Teams.create_comment _ _ => Teams.Done tt
    end.

(** The same forge with a [meta.yaml]. *)
Definition sample_forge_v0 : Teams.world :=
  λ c h,
    match c return Teams.result (Teams.ret_type c) with
    | Teams.get_contents _ _ => Teams.Done sample_recipe
    | c => sample_forge c h
    end.

(** A forge that reports two new members. *)
Definition sample_forge_pair : Teams.world :=
  λ c h,
    match c return Teams.result (Teams.ret_type c) with
    | Teams.configure_github_team _ _ _ _ _ =>
        Teams.Done ({["alice"; "bob"; "carol"; "dave"]}, {["bob"]}, {["carol"; "dave"]})
    | c => sample_forge_v0 c h
    end.

(** A set walked from its last member to its first. *)
Definition sample_iter_set (X : gset string) : list string :=
  reverse (elements X).

Definition cold : Teams.store := {| Teams.calls := []; Teams.memo := None |}.

Definition warm (out : gset string) : Teams.store :=
  {| Teams.calls := []; Teams.memo := Some out |}.

Definition is_token_read (c : Teams.call) : bool :=
  match c with
  | Teams.os_environ _ => true
  | _ => false
  end.

(** [iter_set] lists every set without repetition: each member once, in
    some order. *)
Definition walks (iter_set : gset string → list string) : Prop :=
  ∀ X, iter_set X ≡ₚ elements X.

(** The handles of the members that are not in [out]. *)
Definition handles_of (out : gset string) (members : list string) : string :=
  Teams.join ", "
    (map (λ m, "@" +:+ m)
       (List.filter (λ m, negb (bool_decide (m ∈ out))) members)).

(** How a run of the comment part ends, after the calls [before]: with
    nothing more; with the commit asked for in vain; or with the commit
    and one comment on it, whose text opens with the greeting and closes
    with the note on access. *)
Definition comment_tail (dedent : string → string) (w : Teams.world)
    (before : list Teams.call) (gh_repo : Teams.Repo) (sha : string)
    (r : Teams.result unit) (tail : list Teams.call) : Prop :=
  tail = []
  ∨ (tail = [Teams.get_commit gh_repo sha] ∧ ∃ e, r = Teams.Fail e)
  ∨ ∃ c body,
      tail = [Teams.get_commit gh_repo sha;
              Teams.create_comment c
                (dedent Teams.intro_text +:+ body +:+ dedent Teams.access_text)]
      ∧ w (Teams.get_commit gh_repo sha) before = Teams.Done c.

(** What is parsed of [sample_recipe]. *)
Definition sample_meta : value :=
  VStr "extra:
  recipe-maintainers:
    - ${{ owner }}
    - carol".

(** ** Rules of the weakest-precondition calculus *)

Section Rules.
Context {A B : Type}.
Implicit Types (w : world) (h : trace).

Lemma wp_ret (a : A) w h Q : Q (Ret a) h → wp (ret a) w h Q.
Proof. done. Qed.

Lemma wp_raise (e : exn) w h (Q : outcome A → trace → Prop) :
  Q (Raise e) h → wp (raise e) w h Q.
Proof. done. Qed.

Lemma wp_sys_exit (c : Z) w h (Q : outcome A → trace → Prop) :
  Q (SysExit c) h → wp (sys_exit c) w h Q.
Proof. done. Qed.

Lemma wp_lift (o : answer A) w h Q :
  match o with
  | Ok a => Q (Ret a) h
  | Err e => Q (Raise e) h
  end →
  wp (lift o) w h Q.
Proof. by destruct o. Qed.

Lemma wp_bind (m : M A) (f : A → M B) w h (Q : outcome B → trace → Prop) :
  wp m w h (λ o h',
    match o with
    | Ret a => wp (f a) w h' Q
    | Raise e => Q (Raise e) h'
    | SysExit c => Q (SysExit c) h'
    end) →
  wp (m ≫= f) w h Q.
Proof.
  unfold wp, mbind, M_bind, bind. destruct (m w h) as [[a|e|c] h']; done.
Qed.

Lemma wp_try_except (body : M A) (handler : exn → M A) w h Q :
  wp body w h (λ o h',
    match o with
    | Raise e => wp (handler e) w h' Q
    | _ => Q o h'
    end) →
  wp (try_except body handler) w h Q.
Proof.
  unfold wp, try_except. destruct (body w h) as [[a|e|c] h']; done.
Qed.

Lemma wp_try_finally (body : M A) (final : M unit) w h Q :
  wp body w h (λ o h',
    wp final w h' (λ o' h'',
      match o' with
      | Ret _ => Q o h''
      | Raise e => Q (Raise e) h''
      | SysExit c => Q (SysExit c) h''
      end)) →
  wp (try_finally body final) w h Q.
Proof.
  unfold wp, try_finally. destruct (body w h) as [o h']; simpl.
  destruct (final w h') as [[a|e|c] h'']; simpl; auto.
Qed.

Lemma wp_local (name : string) (x : option A) w h Q :
  match x with
  | Some a => Q (Ret a) h
  | None => Q (Raise (UnboundLocalError name)) h
  end →
  wp (local name x) w h Q.
Proof. by destruct x. Qed.

End Rules.

Lemma wp_ext (c : call) w h (Q : outcome (ret_type c) → trace → Prop) :
  (∀ r, w c h = Ok r → Q (Ret r) (h ++ [ECall c])) →
  (∀ e, w c h = Err e → Q (Raise e) (h ++ [ECall c])) →
  wp (ext c) w h Q.
Proof.
  intros HR HE. unfold wp, ext.
  destruct (w c h) as [r|e]; [by apply HR | by apply HE].
Qed.

Lemma wp_emit (e : event) w h (Q : outcome unit → trace → Prop) :
  Q (Ret tt) (h ++ [e]) → wp (emit e) w h Q.
Proof. done. Qed.

Lemma wp_int_of py_int (s : string) w h (Q : outcome Z → trace → Prop) :
  match py_int s with
  | Some n => Q (Ret n) h
  | None => Q (Raise (ValueError "int")) h
  end →
  wp (int_of py_int s) w h Q.
Proof. unfold int_of. by destruct (py_int s). Qed.

Lemma wp_mono {A} (m : M A) w h (Q Q' : outcome A → trace → Prop) :
  wp m w h Q → (∀ o h', Q o h' → Q' o h') → wp m w h Q'.
Proof. unfold wp. auto. Qed.

Lemma getitem_Some (d : gmap string value) (k : string) (v : value) :
  d !! k = Some v → getitem d k = Ok v.
Proof. unfold getitem. by intros ->. Qed.

Lemma getitem_insert_ne (d : gmap string value) (k k' : string) (v : value) :
  k ≠ k' → getitem (<[k:=v]> d) k' = getitem d k'.
Proof. intros Hne. unfold getitem. by rewrite lookup_insert_ne. Qed.

Lemma getitem_insert_eq (d : gmap string value) (k : string) (v : value) :
  getitem (<[k:=v]> d) k = Ok v.
Proof. unfold getitem. by rewrite lookup_insert_eq. Qed.

Lemma wp_run {A} (m : M A) w (Q : outcome A → trace → Prop) :
  wp m w [] Q → Q (run m w).1 (run m w).2.
Proof. done. Qed.

Lemma answers_all_no_err w c h e : answers_all w → w c h = Err e → False.
Proof. intros Hw He. destruct (Hw c h) as [r Hr]. congruence. Qed.

Lemma answers_all_but_lint_no_err w c h e :
  answers_all_but_lint w → is_lint_feedstock c = false → w c h = Err e → False.
Proof. intros Hw Hc He. destruct (Hw c h Hc) as [r Hr]. congruence. Qed.

Lemma quiet_answers_all : answers_all quiet.
Proof. intros c h. by eexists. Qed.

Lemma world_with_answers_all task_data pr recipes :
  answers_all (world_with task_data pr recipes).
Proof. intros c h. destruct c; by eexists. Qed.

(** One step of symbolic execution. *)
Ltac wp_rule :=
  lazymatch goal with
  | |- wp (_ ≫= _) _ _ _ => apply wp_bind
  | |- wp (ret _) _ _ _ => apply wp_ret
  | |- wp (raise _) _ _ _ => apply wp_raise
  | |- wp (sys_exit _) _ _ _ => apply wp_sys_exit
  | |- wp (lift _) _ _ _ => apply wp_lift
  | |- wp (emit _) _ _ _ => apply wp_emit
  | |- @wp _ (ext ?c) ?w ?h ?Q =>
      apply (wp_ext c w h Q); [intros ? ? | intros ? ?]
  | |- wp (int_of _ _) _ _ _ => apply wp_int_of
  | |- wp (local _ _) _ _ _ => apply wp_local
  | |- wp (try_finally _ _) _ _ _ => apply wp_try_finally
  | |- wp (try_except _ _) _ _ _ => apply wp_try_except
  end; cbv beta iota.

(** A call cannot fail in a world that answers it. *)
Ltac no_err :=
  match goal with
  | Hw : answers_all ?w, He : ?w _ _ = Err _ |- _ =>
      exfalso; exact (answers_all_no_err _ _ _ _ Hw He)
  | Hw : answers_all_but_lint ?w, He : ?w _ _ = Err _ |- _ =>
      exfalso; refine (answers_all_but_lint_no_err _ _ _ _ Hw _ He); reflexivity
  end.

(** Case analysis on what the script inspects next, unless it is known. *)
Ltac known x :=
  first
    [ match goal with H : x = _ |- _ => rewrite H end
    | lazymatch x with
      | negb ?y => match goal with H : y = _ |- _ => rewrite H; simpl negb end
      | getitem _ _ =>
          first [ rewrite getitem_insert_eq
                | rewrite getitem_insert_ne by done
                | erewrite getitem_Some by eassumption ]
      end ].

Ltac decided b :=
  let b' := eval cbn in b in
  lazymatch b' with
  | true => change b with true
  | false => change b with false
  end.

Ltac wp_case :=
  lazymatch goal with
  | |- wp (if ?b then _ else _) _ _ _ =>
      first [decided b | known b | destruct b eqn:?]
  | |- wp (match ?x with _ => _ end) _ _ _ => first [known x | destruct x eqn:?]
  | |- match ?x with _ => _ end => first [known x | destruct x eqn:?]
  end; cbv beta iota.

(** A property of every event of a trace, event by event. *)
Ltac trace_all :=
  lazymatch goal with
  | |- Forall _ _ =>
      repeat first
        [ assumption | apply Forall_nil_2 | apply Forall_cons_2 | apply Forall_app_2 ];
      try done
  end.

(** Some event of a literal trace has a property. *)
Ltac trace_some :=
  lazymatch goal with
  | |- Exists _ _ =>
      simpl app; repeat first [ by apply Exists_cons_hd | apply Exists_cons_tl ]
  end.

(** The result of a call that returns nothing is [tt]. *)
Ltac unit_result :=
  lazymatch goal with
  | |- Ret ?r = Ret () => by destruct r
  end.

(** Some event of a trace built by appending has a property. *)
Ltac trace_some_app :=
  lazymatch goal with
  | |- Exists _ _ =>
      repeat first
        [ by (apply Exists_app; right; apply Exists_cons_hd)
        | apply Exists_app; left
        | by apply Exists_cons_hd
        | apply Exists_cons_tl ]
  end.

(** ** The finalizer *)

Section Finalizer.
Variable py_int : string → option Z.
Variable dedent : string → string.

(** C1.  When the pull request that the finalizer resolves is closed, a
    rerender, version_update or lint Task Result is dropped: the command
    returns normally and its whole run makes read-only calls only (no
    clone, no patch, no commit, no push or comment, no status, no
    ready-for-review). *)
Theorem closed_pull_request_is_left_alone (w : world) (task_data_dir : string) :
  answers_all w →
  hands_out w (λ td,
    str_in (task td) ["rerender"; "version_update"; "lint"] = true ∧
    is_Some (py_int (pr_number td))) →
  resolves w (λ pr, state pr = "closed") →
  (run (main_finalize_task py_int dedent task_data_dir) w).1 = Ret tt ∧
  Forall (λ e, mutates e = false)
    (run (main_finalize_task py_int dedent task_data_dir) w).2.
Proof.
  intros Hw Htd Hpr.
  apply (wp_run _ _ (λ o tr, o = Ret tt ∧ Forall _ tr)).
  unfold main_finalize_task.
  repeat (wp_rule; try no_err).
  match goal with H : w (json_load _) _ = Ok ?td |- _ =>
    destruct (Htd _ _ _ H) as [Htask [n Hn]] end.
  rewrite Hn.
  repeat (wp_rule; try no_err).
  match goal with H : w (get_pull _ _) _ = Ok ?pr |- _ =>
    pose proof (Hpr _ _ _ _ H) as Hclosed end.
  unfold finalize_pull. simpl in Hclosed. rewrite Htask, Hclosed. simpl andb. cbv iota.
  repeat (wp_rule; try no_err).
  split; [done | trace_all].
Qed.


(** The commit phase appends commit steps only, never exits, and hands
    the task results on unchanged but for a defaulted commit message. *)
Lemma commit_changes_spec (tmpdir : string) (pr : PullRequest)
    (task_results : gmap string value) (w : world) (h : trace) :
  wp (commit_changes tmpdir pr task_results) w h (λ o h',
    (∃ steps, h' = h ++ steps ∧ Forall (λ e, is_commit_step e = true) steps) ∧
    match o with
    | Ret (task_results', _) =>
        ∀ k, k ≠ "commit_message" → task_results' !! k = task_results !! k
    | Raise _ => True
    | SysExit _ => False
    end).
Proof.
  assert (Hsteps : ∀ steps : trace,
    Forall (λ e, is_commit_step e = true) steps →
    ∃ steps', h ++ steps = h ++ steps' ∧
              Forall (λ e, is_commit_step e = true) steps') by eauto.
  assert (Hnil : ∃ steps', h = h ++ steps' ∧
              Forall (λ e, is_commit_step e = true) steps').
  { exists []. by rewrite app_nil_r. }
  unfold commit_changes. cbv zeta.
  repeat first
    [ wp_rule | wp_case
    | split; [ first [ exact Hnil | rewrite <- ?(assoc_L (++)); apply Hsteps; trace_all ]
             | first [ done | intros k Hk; by rewrite ?lookup_insert_ne ] ] ].
Qed.

(** The error flag of a version update, on boolean fields. *)
Lemma version_update_action_error_bools (task_results : gmap string value)
    (ve vc re : bool) :
  task_results !! "version_error" = Some (VBool ve) →
  task_results !! "version_changed" = Some (VBool vc) →
  task_results !! "rerender_error" = Some (VBool re) →
  version_update_action_error task_results = Ok (VBool (ve || (re && vc))).
Proof.
  intros Hve Hvc Hre. unfold version_update_action_error, getitem.
  rewrite Hve, Hvc, Hre. by destruct ve, vc, re.
Qed.

(** On arbitrary JSON values the flag has the truth value of the
    combination. *)
Lemma version_update_action_error_truthy (task_results : gmap string value)
    (ve vc re : value) :
  task_results !! "version_error" = Some ve →
  task_results !! "version_changed" = Some vc →
  task_results !! "rerender_error" = Some re →
  ∃ v, version_update_action_error task_results = Ok v ∧
       truthy v = truthy ve || (truthy re && truthy vc).
Proof.
  intros Hve Hvc Hre. unfold version_update_action_error, getitem.
  rewrite Hve, Hvc, Hre.
  destruct (truthy ve) eqn:Eve; [by eexists|].
  destruct (truthy vc) eqn:Evc; eexists; (split; [done|]); simpl.
  - by rewrite andb_true_r.
  - by rewrite andb_false_r.
Qed.

Lemma commit_step_pushes_with_error (v : value) (steps : trace) :
  Forall (λ e, is_commit_step e = true) steps →
  Forall (pushes_with_error v) steps.
Proof.
  intros Hsteps. eapply Forall_impl; [exact Hsteps|].
  intros [[]| | | |] He; done.
Qed.

(** With a patch and a commit message that are strings or null, and every
    call succeeding, the commit phase returns. *)
Lemma commit_changes_returns (tmpdir : string) (pr : PullRequest)
    (task_results : gmap string value) (commit_message patch : option string)
    (w : world) (h : trace) :
  answers_all w →
  task_results !! "commit_message" = Some (of_opt_str commit_message) →
  task_results !! "patch" = Some (of_opt_str patch) →
  wp (commit_changes tmpdir pr task_results) w h (λ o h',
    ∃ task_results' locals steps,
      o = Ret (task_results', locals) ∧
      h' = h ++ steps ∧
      Forall (λ e, is_commit_step e = true) steps ∧
      ∀ k, k ≠ "commit_message" → task_results' !! k = task_results !! k).
Proof.
  intros Hw Hcm Hp.
  unfold commit_changes. cbv zeta.
  destruct patch as [patch|], commit_message as [commit_message|];
    simpl of_opt_str in Hp, Hcm;
    repeat first [ wp_rule; try no_err | wp_case ];
    eexists _, _, _;
    (split; [reflexivity|]);
    (split; [rewrite <- ?(assoc_L (++)); reflexivity|]);
    (split; [by repeat constructor|]);
    intros k Hk; by rewrite ?lookup_insert_ne.
Qed.

(** An event that some step of a trace has, with a property of all. *)
Lemma Exists_with_Forall {A} (P Q : A → Prop) (l : list A) :
  Exists P l → Forall Q l → Exists (λ x, P x ∧ Q x) l.
Proof.
  intros (x & Hin & HP)%Exists_exists HQ. apply Exists_exists.
  exists x. split; [exact Hin|]. split; [exact HP|].
  by apply (proj1 (Forall_forall Q l) HQ).
Qed.

(** With the fields it reads in place, the version finalizer on an open
    pull request reaches the push/comment step when every call succeeds. *)
Lemma version_update_reaches_push (w : world) (task_data_dir : string)
    (ve vc re : bool) :
  hands_out w (λ td,
    task td = "version_update" ∧
    task_results td !! "version_error" = Some (VBool ve) ∧
    task_results td !! "version_changed" = Some (VBool vc) ∧
    task_results td !! "rerender_error" = Some (VBool re)) →
  answers_all w →
  hands_out w (λ td,
    version_fields_present td ∧ is_Some (py_int (pr_number td))) →
  resolves w (λ pr, state pr ≠ "closed") →
  Exists (λ e, is_push_call e = true)
    (run (main_finalize_task py_int dedent task_data_dir) w).2.
Proof.
  intros Htd Hw Hfields Hpr.
  apply (wp_run _ _ (λ _ tr, Exists (λ e, is_push_call e = true) tr)).
  unfold main_finalize_task.
  repeat (wp_rule; try no_err).
  match goal with H : w (json_load _) _ = Ok ?td |- _ =>
    destruct (Htd _ _ _ H) as (Htask & Hve & Hvc & Hre);
    destruct (Hfields _ _ _ H)
      as [([nv Hnv] & [im Him] & [cm Hcm] & [p Hp]) [n Hn]] end.
  rewrite Hn.
  repeat (wp_rule; try no_err).
  match goal with H : w (get_pull _ _) _ = Ok ?pr |- _ =>
    pose proof (Hpr _ _ _ _ H) as Hopen end.
  apply String.eqb_neq in Hopen.
  unfold finalize_pull. rewrite Htask, Hopen. simpl str_in. simpl String.eqb.
  simpl andb. cbv iota. do 2 wp_rule.
  eapply wp_mono; [by apply (commit_changes_returns _ _ _ cm p)|].
  cbv beta.
  intros o h' (task_results' & locals & steps & -> & -> & Hsteps & Hkeep).
  assert (task_results' !! "version_error" = Some (VBool ve))
    by (by rewrite Hkeep).
  assert (task_results' !! "version_changed" = Some (VBool vc))
    by (by rewrite Hkeep).
  assert (task_results' !! "new_version" = Some nv)
    by (by rewrite Hkeep).
  assert (task_results' !! "rerender_error" = Some (VBool re))
    by (by rewrite Hkeep).
  assert (task_results' !! "info_message" = Some (of_opt_str im))
    by (by rewrite Hkeep).
  wp_rule. unfold finalize_version_update, _push_changes. cbv zeta.
  rewrite (version_update_action_error_bools task_results' ve vc re) by done.
  destruct im as [im|]; simpl of_opt_str in *;
    destruct ve, vc, re; destruct (truthy nv) eqn:Hnew;
    repeat first
      [ wp_rule; try no_err
      | progress (simpl is_None; cbv iota; simpl iadd_str)
      | wp_case ];
    trace_some_app.
Qed.

(** C2.  For a version_update Task Result with boolean flags, every
    push/comment step of the finalizer is handed the error flag
    [version_error or (rerender_error and version_changed)]; with an
    unchanged version the rerender error does not count.  And the step is
    made, with that flag, whenever the finalizer gets as far: the pull
    request is open, the other fields that are read are present, and
    every call succeeds. *)
Theorem version_update_combined_error (w : world) (task_data_dir : string)
    (ve vc re : bool) :
  hands_out w (λ td,
    task td = "version_update" ∧
    task_results td !! "version_error" = Some (VBool ve) ∧
    task_results td !! "version_changed" = Some (VBool vc) ∧
    task_results td !! "rerender_error" = Some (VBool re)) →
  Forall (pushes_with_error (VBool (ve || (re && vc))))
    (run (main_finalize_task py_int dedent task_data_dir) w).2 ∧
  (answers_all w →
   hands_out w (λ td,
     version_fields_present td ∧ is_Some (py_int (pr_number td))) →
   resolves w (λ pr, state pr ≠ "closed") →
   Exists (λ e, is_push_call e = true ∧
                pushes_with_error (VBool (ve || (re && vc))) e)
     (run (main_finalize_task py_int dedent task_data_dir) w).2).
Proof.
  intros Htd.
  assert (Forall (pushes_with_error (VBool (ve || (re && vc))))
            (run (main_finalize_task py_int dedent task_data_dir) w).2) as Hall.
  { apply (wp_run _ _ (λ _ tr, Forall _ tr)).
    unfold main_finalize_task.
    repeat first [wp_rule | trace_all].
    match goal with H : w (json_load _) _ = Ok ?td |- _ =>
      destruct (Htd _ _ _ H) as (Htask & Hve & Hvc & Hre) end.
    wp_case; [|repeat first [wp_rule | trace_all]].
    repeat first [wp_rule | trace_all].
    unfold finalize_pull. rewrite Htask. simpl str_in. simpl String.eqb.
    wp_case; [repeat first [wp_rule | trace_all]|].
    cbv iota. do 2 wp_rule.
    eapply wp_mono; [apply commit_changes_spec|]. cbv beta.
    intros o h' [(steps & -> & Hsteps) Hkeep].
    apply (commit_step_pushes_with_error (VBool (ve || (re && vc)))) in Hsteps.
    destruct o as [[task_results' locals]|e|c];
      [|repeat first [wp_rule | trace_all]|done].
    assert (task_results' !! "version_error" = Some (VBool ve))
      by (by rewrite Hkeep).
    assert (task_results' !! "version_changed" = Some (VBool vc))
      by (by rewrite Hkeep).
    assert (task_results' !! "rerender_error" = Some (VBool re))
      by (by rewrite Hkeep).
    wp_rule. unfold finalize_version_update, _push_changes. cbv zeta.
    rewrite (version_update_action_error_bools task_results' ve vc re) by done.
    repeat first [wp_rule | wp_case | trace_all]. }
  split; [exact Hall|].
  intros Hw Hfields Hpr.
  apply Exists_with_Forall; [|exact Hall].
  by apply (version_update_reaches_push w task_data_dir ve vc re).
Qed.

(** The finalizer of a version update whose title update is skipped
    (version error, unchanged version or no new version) on an open pull
    request: line 424 reads [pr_title_error], which no path has assigned,
    so the command never ends with exit code 0, whatever the push/comment
    step reports. *)
Lemma version_update_without_title_update (w : world) (task_data_dir : string)
    (ve vc nv : value) :
  hands_out w (λ td,
    task td = "version_update" ∧
    task_results td !! "version_error" = Some ve ∧
    task_results td !! "version_changed" = Some vc ∧
    task_results td !! "new_version" = Some nv) →
  negb (truthy ve) && truthy vc && truthy nv = false →
  resolves w (λ pr, state pr ≠ "closed") →
  exit_code (run (main_finalize_task py_int dedent task_data_dir) w).1 = 1.
Proof.
  intros Htd Hskip Hpr.
  apply (wp_run _ _ (λ o _, exit_code o = 1)).
  unfold main_finalize_task.
  repeat first [wp_rule | done].
  match goal with H : w (json_load _) _ = Ok ?td |- _ =>
    destruct (Htd _ _ _ H) as (Htask & Hve & Hvc & Hnv) end.
  wp_case; [|repeat first [wp_rule | done]].
  repeat first [wp_rule | done].
  match goal with H : w (get_pull _ _) _ = Ok ?pr |- _ =>
    pose proof (Hpr _ _ _ _ H) as Hopen end.
  apply String.eqb_neq in Hopen.
  unfold finalize_pull. rewrite Htask, Hopen. simpl str_in. simpl String.eqb.
  simpl andb. cbv iota. do 2 wp_rule.
  eapply wp_mono; [apply commit_changes_spec|]. cbv beta.
  intros o h' [_ Hkeep].
  destruct o as [[task_results' locals]|e|c];
    [|repeat first [wp_rule | done]|done].
  assert (task_results' !! "version_error" = Some ve) by (by rewrite Hkeep).
  assert (task_results' !! "version_changed" = Some vc) by (by rewrite Hkeep).
  assert (task_results' !! "new_version" = Some nv) by (by rewrite Hkeep).
  wp_rule. unfold finalize_version_update, _push_changes. cbv zeta.
  destruct (truthy ve) eqn:Eve; destruct (truthy vc) eqn:Evc;
    destruct (truthy nv) eqn:Env; try discriminate Hskip;
    repeat first [wp_rule | wp_case | done].
Qed.

(** On a dict, [any] over the scoped recipes is a plain disjunction. *)
Lemma any_errors_dict (errors : gmap string value) (recipes : list string) :
  any_errors (VDict errors) recipes = Ok (existsb (reports_error errors) recipes).
Proof.
  induction recipes as [|rec rest IH]; [done|].
  simpl. unfold reports_error at 1.
  destruct (errors !! rec) as [v|]; simpl; [|done].
  destruct (truthy v); [done | exact IH].
Qed.

(** Re-scoping never clears the error flag. *)
Lemma rescope_lint_error_keeps (task_results task_results' : gmap string value)
    (errors : value) (recipes : list string) (lint_error : value) :
  task_results !! "lint_error" = Some lint_error →
  truthy lint_error = true →
  rescope_lint_error task_results errors recipes = Ok task_results' →
  ∃ v, task_results' !! "lint_error" = Some v ∧ truthy v = true.
Proof.
  intros Hle Ht. unfold rescope_lint_error.
  destruct (any_errors errors recipes) as [[]|]; intros [= <-].
  - exists (VBool true). by rewrite lookup_insert_eq.
  - by exists lint_error.
Qed.

(** The lint finalizer on an open pull request, with findings present
    and a dict of errors: it fails when the flag of the Task Result is
    set or a scoped recipe reports an error, and succeeds otherwise. *)
Lemma finalize_lint_outcome (w : world) (task_data_dir : string)
    (lints hints lint_error : value) (errors : gmap string value)
    (recipes : list string) :
  answers_all w →
  hands_out w (λ td,
    lint_task_data lints hints (VDict errors) lint_error td ∧
    is_Some (py_int (pr_number td))) →
  is_None lints = false →
  is_None hints = false →
  resolves w (λ pr, state pr ≠ "closed") →
  scopes_to w recipes →
  if truthy lint_error || existsb (reports_error errors) recipes
  then lint_failure (run (main_finalize_task py_int dedent task_data_dir) w).1
                    (run (main_finalize_task py_int dedent task_data_dir) w).2
  else lint_success (run (main_finalize_task py_int dedent task_data_dir) w).1
                    (run (main_finalize_task py_int dedent task_data_dir) w).2.
Proof.
  intros Hw Htd Hlints Hhints Hpr Hscope.
  apply (wp_run _ _ (λ o tr,
    if truthy lint_error || existsb (reports_error errors) recipes
    then lint_failure o tr else lint_success o tr)).
  unfold main_finalize_task.
  repeat (wp_rule; try no_err).
  match goal with H : w (json_load _) _ = Ok ?td |- _ =>
    destruct (Htd _ _ _ H) as [(Htask & Hl & Hh & He & Hle) [n Hn]] end.
  rewrite Hn.
  repeat (wp_rule; try no_err).
  match goal with H : w (get_pull _ _) _ = Ok ?pr |- _ =>
    pose proof (Hpr _ _ _ _ H) as Hopen end.
  apply String.eqb_neq in Hopen.
  unfold finalize_pull. rewrite Htask, Hopen. simpl str_in. simpl String.eqb.
  simpl andb. cbv iota.
  repeat (wp_rule; try no_err).
  unfold finalize_lint. cbv zeta.
  do 12 first [wp_rule; try no_err | wp_case].
  simpl is_None. simpl negb. cbv iota.
  wp_rule. wp_rule; [|no_err].
  match goal with H : w (get_recipes_for_linting _ _ _ _ _) _ = Ok ?r |- _ =>
    rewrite Hscope in H; injection H as <- end.
  wp_rule. unfold rescope_lint_error. rewrite any_errors_dict.
  destruct (existsb (reports_error errors) recipes) eqn:Hany.
  - rewrite orb_true_r.
    repeat first [wp_rule; try no_err | wp_case].
    unfold lint_failure. repeat split; [trace_some.. | trace_all].
  - rewrite orb_false_r.
    destruct (truthy lint_error) eqn:Htruthy.
    + repeat first [wp_rule; try no_err | wp_case].
      unfold lint_failure. repeat split; [trace_some.. | trace_all].
    + repeat first [wp_rule; try no_err | wp_case].
      unfold lint_success. repeat split; [trace_some | trace_all].
Qed.

Lemma reports_error_a : reports_error errors_a_b "a" = true.
Proof. reflexivity. Qed.

Lemma reports_error_b : reports_error errors_a_b "b" = false.
Proof. reflexivity. Qed.

(** On the success path the status that is set is the one that the
    formatter of the findings reports. *)
Lemma finalize_lint_reports_status (w : world) (task_data_dir : string)
    (lints hints lint_error : value) (errors : gmap string value)
    (recipes : list string) (status : string) :
  answers_all w →
  hands_out w (λ td,
    lint_task_data lints hints (VDict errors) lint_error td ∧
    is_Some (py_int (pr_number td))) →
  is_None lints = false →
  is_None hints = false →
  resolves w (λ pr, state pr ≠ "closed") →
  scopes_to w recipes →
  formats w status →
  truthy lint_error || existsb (reports_error errors) recipes = false →
  Exists (sets_status status)
    (run (main_finalize_task py_int dedent task_data_dir) w).2.
Proof.
  intros Hw Htd Hlints Hhints Hpr Hscope Hformat [Hflag Hany]%orb_false_elim.
  apply (wp_run _ _ (λ _ tr, Exists (sets_status status) tr)).
  unfold main_finalize_task.
  repeat (wp_rule; try no_err).
  match goal with H : w (json_load _) _ = Ok ?td |- _ =>
    destruct (Htd _ _ _ H) as [(Htask & Hl & Hh & He & Hle) [n Hn]] end.
  rewrite Hn.
  repeat (wp_rule; try no_err).
  match goal with H : w (get_pull _ _) _ = Ok ?pr |- _ =>
    pose proof (Hpr _ _ _ _ H) as Hopen end.
  apply String.eqb_neq in Hopen.
  unfold finalize_pull. rewrite Htask, Hopen. simpl str_in. simpl String.eqb.
  simpl andb. cbv iota.
  repeat (wp_rule; try no_err).
  unfold finalize_lint. cbv zeta.
  do 12 first [wp_rule; try no_err | wp_case].
  simpl is_None. simpl negb. cbv iota.
  wp_rule. wp_rule; [|no_err].
  match goal with H : w (get_recipes_for_linting _ _ _ _ _) _ = Ok ?r |- _ =>
    rewrite Hscope in H; injection H as <- end.
  wp_rule. unfold rescope_lint_error. rewrite any_errors_dict, Hany.
  repeat first
    [ wp_rule; try no_err
    | match goal with
      | H : _ (build_and_make_lint_comment ?gh ?gh_repo ?n ?l ?hs) ?h = Ok _ |- _ =>
          destruct (Hformat gh gh_repo n l hs h) as [msg Hmsg];
          rewrite Hmsg in H; injection H as <-
      end
    | wp_case ];
    trace_some.
Qed.

(** C8.  With errors = {"a": true, "b": false} and findings present, the
    final lint state is the flag of the Runner or-ed with the errors of
    the recipes in scope: with only "b" in scope the run succeeds, with
    the status of the formatter, provided the flag of the Runner is not
    set, and fails when it is set; as soon as "a" is in scope it fails. *)
Theorem lint_error_scoping (w : world) (task_data_dir : string)
    (lints hints lint_error : value) (recipes : list string) (status : string) :
  answers_all w →
  hands_out w (λ td,
    lint_task_data lints hints (VDict errors_a_b) lint_error td ∧
    is_Some (py_int (pr_number td))) →
  is_None lints = false →
  is_None hints = false →
  resolves w (λ pr, state pr ≠ "closed") →
  scopes_to w recipes →
  formats w status →
  (recipes = ["b"] →
   if truthy lint_error
   then lint_failure (run (main_finalize_task py_int dedent task_data_dir) w).1
                     (run (main_finalize_task py_int dedent task_data_dir) w).2
   else lint_success (run (main_finalize_task py_int dedent task_data_dir) w).1
                     (run (main_finalize_task py_int dedent task_data_dir) w).2
        ∧ Exists (sets_status status)
            (run (main_finalize_task py_int dedent task_data_dir) w).2) ∧
  ("a" ∈ recipes →
   lint_failure (run (main_finalize_task py_int dedent task_data_dir) w).1
                (run (main_finalize_task py_int dedent task_data_dir) w).2).
Proof.
  intros Hw Htd Hlints Hhints Hpr Hscope Hformat.
  pose proof (finalize_lint_outcome w task_data_dir lints hints lint_error
                errors_a_b recipes Hw Htd Hlints Hhints Hpr Hscope) as Hout.
  split.
  - intros ->. destruct (truthy lint_error) eqn:Hflag; [exact Hout|].
    split; [exact Hout|].
    apply (finalize_lint_reports_status w task_data_dir lints hints lint_error
             errors_a_b ["b"] status); try done.
    by rewrite Hflag.
  - intros Ha.
    assert (existsb (reports_error errors_a_b) recipes = true) as Hany.
    { apply existsb_exists. exists "a". split; [|exact reports_error_a].
      by apply list_elem_of_In. }
    by rewrite Hany, orb_true_r in Hout.
Qed.

(** A flag that is set survives the scoping. *)
Lemma lint_rescoping_fails (w : world) (task_data_dir : string)
    (lints hints lint_error : value) (errors : gmap string value)
    (recipes : list string) :
  answers_all w →
  hands_out w (λ td,
    lint_task_data lints hints (VDict errors) lint_error td ∧
    is_Some (py_int (pr_number td))) →
  is_None lints = false →
  is_None hints = false →
  resolves w (λ pr, state pr ≠ "closed") →
  scopes_to w recipes →
  truthy lint_error = true →
  lint_failure (run (main_finalize_task py_int dedent task_data_dir) w).1
               (run (main_finalize_task py_int dedent task_data_dir) w).2.
Proof.
  intros Hw Htd Hlints Hhints Hpr Hscope Hflag.
  pose proof (finalize_lint_outcome w task_data_dir lints hints lint_error
                errors recipes Hw Htd Hlints Hhints Hpr Hscope) as Hout.
  by rewrite Hflag in Hout.
Qed.

(** C10.  Re-scoping only escalates: a Task Result whose lint_error is
    already true ends on the failure path whatever the scoped recipes
    report, and so does one with a scoped recipe that is no key of the
    errors mapping, since its lookup defaults to true. *)
Theorem lint_rescoping_only_escalates (w : world) (task_data_dir : string)
    (lints hints lint_error : value) (errors : gmap string value)
    (recipes : list string) :
  answers_all w →
  hands_out w (λ td,
    lint_task_data lints hints (VDict errors) lint_error td ∧
    is_Some (py_int (pr_number td))) →
  is_None lints = false →
  is_None hints = false →
  resolves w (λ pr, state pr ≠ "closed") →
  scopes_to w recipes →
  (truthy lint_error = true →
   lint_failure (run (main_finalize_task py_int dedent task_data_dir) w).1
                (run (main_finalize_task py_int dedent task_data_dir) w).2) ∧
  (∀ rec, rec ∈ recipes → errors !! rec = None →
   lint_failure (run (main_finalize_task py_int dedent task_data_dir) w).1
                (run (main_finalize_task py_int dedent task_data_dir) w).2).
Proof.
  intros Hw Htd Hlints Hhints Hpr Hscope.
  pose proof (finalize_lint_outcome w task_data_dir lints hints lint_error
                errors recipes Hw Htd Hlints Hhints Hpr Hscope) as Hout.
  split.
  - intros Ht. by rewrite Ht in Hout.
  - intros rec Hin Hnone.
    assert (existsb (reports_error errors) recipes = true) as Hany.
    { apply existsb_exists. exists rec. split; [by apply list_elem_of_In|].
      unfold reports_error. by rewrite Hnone. }
    by rewrite Hany, orb_true_r in Hout.
Qed.
End Finalizer.

(** ** The runner *)

(** The sentinels of "no version requested" are normalized to [None]. *)
Lemma normalize_requested_version_sentinel (s : string) :
  lower s = "null" ∨ lower s = "none" ∨ s = "" →
  normalize_requested_version (Some s) = Ok None.
Proof.
  unfold normalize_requested_version. simpl.
  intros [-> | [-> | ->]]; [done | done | done].
Qed.

(** Any other string is kept. *)
Lemma normalize_requested_version_other (s : string) :
  lower s ≠ "null" → lower s ≠ "none" → s ≠ "" →
  normalize_requested_version (Some s) = Ok (Some s).
Proof.
  intros H1 H2 H3. unfold normalize_requested_version. simpl.
  apply String.eqb_neq in H1, H2, H3. by rewrite H1, H2, H3.
Qed.

(** A string never makes the normalization fail. *)
Lemma normalize_requested_version_Some (s : string) :
  ∃ v, normalize_requested_version (Some s) = Ok v.
Proof.
  unfold normalize_requested_version. simpl.
  destruct (String.eqb (lower s) "null"); [by eexists|].
  destruct (String.eqb (lower s) "none"); [by eexists|].
  destruct (String.eqb s ""); by eexists.
Qed.

(** The absent option does: [None] has no [lower]. *)
Lemma normalize_requested_version_None :
  normalize_requested_version None = Err (AttributeError "lower").
Proof. reflexivity. Qed.

(** For a sentinel string the version tool is only asked to auto-detect. *)
Lemma sentinel_requested_version_auto_detects (w : world)
    (repo pr_number task_data_dir s : string) (sha : option string) :
  lower s = "null" ∨ lower s = "none" ∨ s = "" →
  Forall update_version_auto
    (run (main_run_task "version_update" repo pr_number task_data_dir (Some s) sha) w).2.
Proof.
  intros Hs.
  apply (wp_run _ _ (λ _ tr, Forall _ tr)).
  unfold main_run_task, run_version_update, _pull_docker_image. cbv zeta.
  rewrite (normalize_requested_version_sentinel s Hs).
  repeat first [wp_rule | wp_case | trace_all].
Qed.

(** C4.  When the option is absent ([requested_version] is [None]) the
    version update task dies on [requested_version.lower()] before the
    version tool is called: in every world the exit code is 1, the tool is
    never invoked and no Task Result is written. *)
Theorem absent_requested_version_crashes (w : world)
    (repo pr_number task_data_dir : string) (sha : option string) :
  exit_code
    (run (main_run_task "version_update" repo pr_number task_data_dir None sha) w).1 = 1 ∧
  Forall (λ e, is_update_version_call e || is_json_dump_call e = false)
    (run (main_run_task "version_update" repo pr_number task_data_dir None sha) w).2.
Proof.
  apply (wp_run _ _ (λ o tr, exit_code o = 1 ∧ Forall _ tr)).
  unfold main_run_task, run_version_update. cbv zeta.
  rewrite normalize_requested_version_None.
  repeat first [wp_rule | wp_case | split; [done | trace_all]].
Qed.

(** In a world where every call succeeds the exception is the
    [AttributeError]. *)
Example absent_requested_version_sample :
  (run (main_run_task "version_update" "pkg-feedstock" "7" "/data" None None) quiet).1
  = Raise (AttributeError "lower").
Proof. reflexivity. Qed.

(** C5.  When the lint tool raises, the runner still writes the Task
    Result, with lint_error true and lints, hints and errors null, and
    returns normally. *)
Theorem lint_exception_is_recorded (w : world)
    (repo pr_number task_data_dir : string) (requested_version sha : option string)
    (err : exn) :
  answers_all_but_lint w →
  (∀ feedstock_dir use_container h,
     w (lint_feedstock feedstock_dir use_container) h = Err err) →
  (run (main_run_task "lint" repo pr_number task_data_dir requested_version sha) w).1
  = Ret tt ∧
  ECall (json_dump (os_path_join task_data_dir "task_data.json")
           {| task := "lint"; repo := repo; pr_number := pr_number; sha := sha;
              task_results := lint_failed_results |})
  ∈ (run (main_run_task "lint" repo pr_number task_data_dir requested_version sha) w).2.
Proof.
  intros Hw Hlint.
  apply (wp_run _ _ (λ o tr, o = Ret tt ∧ _ ∈ tr)).
  unfold main_run_task, run_lint, _pull_docker_image. cbv zeta.
  repeat first
    [ wp_rule; try no_err
    | wp_case
    | match goal with H : w (lint_feedstock _ _) _ = Ok _ |- _ =>
        rewrite Hlint in H; discriminate H end ].
  split; [unit_result|]. simpl app. unfold lint_failed_results, of_bool.
  repeat first [ apply list_elem_of_here | apply list_elem_of_further ].
Qed.

(** C6.  When the version tool reports an unchanged version, the runner
    never calls the rerender tool, and the Task Result it writes has
    rerender_changed and rerender_error false and info_message,
    commit_message and patch null. *)
Theorem unchanged_version_skips_rerender (w : world)
    (repo pr_number task_data_dir requested_version : string) (sha : option string) :
  answers_all w →
  reports_unchanged w →
  (run (main_run_task "version_update" repo pr_number task_data_dir
          (Some requested_version) sha) w).1 = Ret tt ∧
  Forall (λ e, is_rerender_call e = false)
    (run (main_run_task "version_update" repo pr_number task_data_dir
            (Some requested_version) sha) w).2 ∧
  ∃ task_data,
    ECall (json_dump (os_path_join task_data_dir "task_data.json") task_data)
    ∈ (run (main_run_task "version_update" repo pr_number task_data_dir
              (Some requested_version) sha) w).2 ∧
    nothing_chained (task_results task_data).
Proof.
  intros Hw Hunchanged.
  apply (wp_run _ _ (λ o tr,
    o = Ret tt ∧ Forall (λ e, is_rerender_call e = false) tr ∧
    ∃ td, ECall (json_dump (os_path_join task_data_dir "task_data.json") td) ∈ tr ∧
          nothing_chained (task_results td))).
  unfold main_run_task, run_version_update, _pull_docker_image. cbv zeta.
  destruct (normalize_requested_version_Some requested_version) as [v ->].
  repeat first [wp_rule; try no_err | wp_case];
    match goal with H : _ (update_version _ _ _) _ = Ok _ |- _ =>
      apply Hunchanged in H; simpl in H; try discriminate H end.
  split; [unit_result|]. split; [trace_all|].
  eexists. split.
  - simpl app. repeat first [ apply list_elem_of_here | apply list_elem_of_further ].
  - simpl. by repeat split.
Qed.

(** C7.  When the version changed and the chained rerender changed the
    feedstock too, the commit message of the Task Result is the version
    message, then " & ", then the rerender message without its "MNT: "
    prefix. *)
Theorem chained_commit_message (w : world)
    (repo pr_number task_data_dir requested_version : string) (sha : option string)
    (version_error rerender_error : bool) (new_version info_message : option string)
    (rerender_message : string) :
  answers_all w →
  (∀ git_repo full_repo_name input_version h,
     w (update_version git_repo full_repo_name input_version) h
     = Ok (true, version_error, new_version)) →
  (∀ git_repo h,
     w (rerender git_repo) h
     = Ok (true, rerender_error, info_message, Some ("MNT: " +:+ rerender_message))) →
  (run (main_run_task "version_update" repo pr_number task_data_dir
          (Some requested_version) sha) w).1 = Ret tt ∧
  ∃ task_data,
    ECall (json_dump (os_path_join task_data_dir "task_data.json") task_data)
    ∈ (run (main_run_task "version_update" repo pr_number task_data_dir
              (Some requested_version) sha) w).2 ∧
    task_results task_data !! "commit_message"
    = Some (VStr ("ENH: updated version to " +:+ str_of_opt new_version +:+
                  " & " +:+ rerender_message)).
Proof.
  intros Hw Hversion Hrerender.
  apply (wp_run _ _ (λ o tr,
    o = Ret tt ∧
    ∃ td, ECall (json_dump (os_path_join task_data_dir "task_data.json") td) ∈ tr ∧
          task_results td !! "commit_message"
          = Some (VStr ("ENH: updated version to " +:+ str_of_opt new_version +:+
                        " & " +:+ rerender_message)))).
  unfold main_run_task, run_version_update, _pull_docker_image. cbv zeta.
  destruct (normalize_requested_version_Some requested_version) as [v ->].
  repeat first
    [ wp_rule; try no_err
    | match goal with
      | H : w (update_version _ _ _) _ = Ok _ |- _ =>
          rewrite Hversion in H; injection H as <-
      | H : w (rerender _) _ = Ok _ |- _ =>
          rewrite Hrerender in H; injection H as <-
      end; cbv beta iota
    | wp_case ].
  split; [unit_result|].
  eexists. split.
  - simpl app. repeat first [ apply list_elem_of_here | apply list_elem_of_further ].
  - simpl. by rewrite lookup_insert_ne, lookup_insert_eq.
Qed.

(** ** The automerge trigger *)

(** A scan that meets no matching pull request makes no call. *)
Lemma automerge_scan_no_match (gh_repo : Repository) (full_repo_name sha : string)
    (pulls : list PullRequest) (found_pr : bool) (w : world) (h : trace) :
  Forall (λ pr, head_sha pr ≠ sha) pulls →
  automerge_scan gh_repo full_repo_name sha pulls found_pr w h = (Ret found_pr, h).
Proof.
  induction 1 as [|pr rest Hpr _ IH]; [done|].
  simpl. apply String.eqb_neq in Hpr. by rewrite Hpr.
Qed.

Lemma wp_automerge_scan_no_match (gh_repo : Repository) (full_repo_name sha : string)
    (pulls : list PullRequest) (found_pr : bool) (w : world) (h : trace)
    (Q : outcome bool → trace → Prop) :
  Forall (λ pr, head_sha pr ≠ sha) pulls →
  Q (Ret found_pr) h →
  wp (automerge_scan gh_repo full_repo_name sha pulls found_pr) w h Q.
Proof. intros Hno HQ. unfold wp. by rewrite automerge_scan_no_match. Qed.

(** C9.  When no open pull request has [sha] as its head commit, the
    automerge trigger prints the warning notice and returns normally
    (exit code 0), having made read-only calls only: the listing of the
    pull requests, but no elevated session and no merge evaluation. *)
Theorem automerge_without_matching_pull (w : world) (repo sha : string) :
  answers_all w →
  lists_no_match w sha →
  (run (main_automerge repo sha) w).1 = Ret tt ∧
  exit_code (run (main_automerge repo sha) w).1 = 0 ∧
  EPrint ("::warning title=No PR Found for Automerge::" +:+
          "No PR found for " +:+ "conda-forge/" +:+ repo +:+ "@" +:+ sha)
  ∈ (run (main_automerge repo sha) w).2 ∧
  Forall (λ e, mutates e = false) (run (main_automerge repo sha) w).2.
Proof.
  intros Hw Hlist.
  apply (wp_run _ _ (λ o tr,
    o = Ret tt ∧ exit_code o = 0 ∧
    EPrint ("::warning title=No PR Found for Automerge::" +:+
            "No PR found for " +:+ "conda-forge/" +:+ repo +:+ "@" +:+ sha) ∈ tr ∧
    Forall (λ e, mutates e = false) tr)).
  unfold main_automerge. cbv zeta.
  repeat (wp_rule; try no_err).
  match goal with H : w (get_pulls _) _ = Ok _ |- _ =>
    pose proof (Hlist _ _ _ H) as Hno end.
  apply wp_automerge_scan_no_match; [exact Hno|].
  simpl negb. cbv iota.
  repeat (wp_rule; try no_err).
  repeat split.
  - simpl app. repeat first [ apply list_elem_of_here | apply list_elem_of_further ].
  - simpl app. trace_all.
Qed.

(** ** More on the runner *)

(** X1.  The image pull always closes its log group: whatever the
    environment lookups and the pull do, the events of
    [_pull_docker_image] start with the group line and end with the
    end-of-group line, with only the lookups and the unchecked
    [docker pull] in between. *)
Theorem pull_docker_image_closes_group (w : world) (h : trace) :
  ∃ steps,
    (_pull_docker_image w h).2
    = (h ++ EPrint "::group::docker image pull" :: steps) ++ [EPrint "::endgroup::"] ∧
    Forall (λ e, is_pull_step e = true) steps.
Proof.
  change (wp _pull_docker_image w h (λ _ tr,
    ∃ steps,
      tr = (h ++ EPrint "::group::docker image pull" :: steps) ++ [EPrint "::endgroup::"] ∧
      Forall (λ e, is_pull_step e = true) steps)).
  unfold _pull_docker_image.
  repeat first
    [ wp_rule
    | eexists; split;
        [ f_equal; rewrite <- ?(assoc_L (++)); reflexivity | by repeat constructor ] ].
Qed.

(** X2.  A task that is none of rerender, version_update and lint is
    rejected after the clone: the runner ends with exit code 1 and has run
    no tool, no subprocess (so neither the image pull nor the removal of
    the working directory) and written no Task Result. *)
Theorem invalid_task_writes_nothing (w : world)
    (task repo pr_number task_data_dir : string) (requested_version sha : option string) :
  task ≠ "rerender" → task ≠ "version_update" → task ≠ "lint" →
  exit_code
    (run (main_run_task task repo pr_number task_data_dir requested_version sha) w).1 = 1 ∧
  Forall (λ e, is_task_step e = false)
    (run (main_run_task task repo pr_number task_data_dir requested_version sha) w).2.
Proof.
  intros H1 H2 H3. apply String.eqb_neq in H1, H2, H3.
  apply (wp_run _ _ (λ o tr, exit_code o = 1 ∧ Forall _ tr)).
  unfold main_run_task. cbv zeta. rewrite H1, H2, H3.
  repeat first [wp_rule | split; [done | trace_all]].
Qed.

(** In a world where the git calls succeed the exception is the
    [ValueError] of line 174. *)
Lemma invalid_task_value_error (w : world)
    (task repo pr_number task_data_dir : string) (requested_version sha : option string) :
  answers_all w →
  task ≠ "rerender" → task ≠ "version_update" → task ≠ "lint" →
  (run (main_run_task task repo pr_number task_data_dir requested_version sha) w).1
  = Raise (ValueError ("Task `" +:+ task +:+ "` is not valid!")).
Proof.
  intros Hw H1 H2 H3. apply String.eqb_neq in H1, H2, H3.
  apply (wp_run _ _ (λ o _, o = Raise _)).
  unfold main_run_task. cbv zeta. rewrite H1, H2, H3.
  repeat first [wp_rule; try no_err | done].
Qed.

(** X3.  When the lint tool returns the two-tuple, the runner writes a
    Task Result with lint_error false, the findings as returned, and an
    errors mapping that is false on exactly the recipes that occur in
    lints or hints. *)
Theorem lint_two_tuple_errors (w : world)
    (repo pr_number task_data_dir : string) (requested_version sha : option string)
    (lints hints : gmap string value) :
  answers_all w →
  lints_two w lints hints →
  (run (main_run_task "lint" repo pr_number task_data_dir requested_version sha) w).1
  = Ret tt ∧
  ∃ task_data errors,
    ECall (json_dump (os_path_join task_data_dir "task_data.json") task_data)
    ∈ (run (main_run_task "lint" repo pr_number task_data_dir requested_version sha) w).2 ∧
    task_results task_data !! "lint_error" = Some (VBool false) ∧
    task_results task_data !! "lints" = Some (VDict lints) ∧
    task_results task_data !! "hints" = Some (VDict hints) ∧
    task_results task_data !! "errors" = Some (VDict errors) ∧
    ∀ rec,
      errors !! rec
      = if bool_decide (is_Some (lints !! rec) ∨ is_Some (hints !! rec))
        then Some (VBool false) else None.
Proof.
  intros Hw Hlint.
  apply (wp_run _ _ (λ o tr,
    o = Ret tt ∧
    ∃ td errors,
      ECall (json_dump (os_path_join task_data_dir "task_data.json") td) ∈ tr ∧
      task_results td !! "lint_error" = Some (VBool false) ∧
      task_results td !! "lints" = Some (VDict lints) ∧
      task_results td !! "hints" = Some (VDict hints) ∧
      task_results td !! "errors" = Some (VDict errors) ∧
      ∀ rec,
        errors !! rec
        = if bool_decide (is_Some (lints !! rec) ∨ is_Some (hints !! rec))
          then Some (VBool false) else None)).
  unfold main_run_task, run_lint, _pull_docker_image. cbv zeta.
  repeat first
    [ wp_rule; try no_err
    | match goal with H : _ (lint_feedstock _ _) _ = Ok _ |- _ =>
        rewrite Hlint in H; injection H as <- end; cbv beta iota
    | wp_case ].
  split; [unit_result|].
  eexists _, _. split; [|split; [|split; [|split; [|split]]]].
  - simpl app. repeat first [ apply list_elem_of_here | apply list_elem_of_further ].
  - done.
  - done.
  - done.
  - simpl. by rewrite lookup_insert_eq.
  - intros rec. rewrite lookup_gset_to_gmap.
    case_bool_decide as Hin.
    + rewrite option_guard_True; [done|].
      rewrite elem_of_union, !elem_of_dom. exact Hin.
    + rewrite option_guard_False; [done|].
      rewrite elem_of_union, !elem_of_dom. exact Hin.
Qed.

(** X4.  A requested version that is no sentinel (not empty, and not
    "null" or "none" in any letter case) is what the version tool is
    given: no call of the tool has another input, and when every call
    succeeds the tool is called, on the clone and for the repository, with
    that very version. *)
Theorem explicit_requested_version_is_passed (w : world)
    (repo pr_number task_data_dir s : string) (sha : option string) :
  lower s ≠ "null" → lower s ≠ "none" → s ≠ "" →
  Forall (update_version_input (Some s))
    (run (main_run_task "version_update" repo pr_number task_data_dir (Some s) sha) w).2 ∧
  (answers_all w →
   ECall (update_version (os_path_join task_data_dir repo)
            ("conda-forge/" +:+ repo) (Some s))
   ∈ (run (main_run_task "version_update" repo pr_number task_data_dir (Some s) sha)
        w).2).
Proof.
  intros H1 H2 H3. split.
  - apply (wp_run _ _ (λ _ tr, Forall _ tr)).
    unfold main_run_task, run_version_update, _pull_docker_image. cbv zeta.
    rewrite (normalize_requested_version_other s H1 H2 H3).
    repeat first [wp_rule | wp_case | trace_all].
  - intros Hw.
    apply (wp_run _ _ (λ _ tr,
      ECall (update_version (os_path_join task_data_dir repo)
               ("conda-forge/" +:+ repo) (Some s)) ∈ tr)).
    unfold main_run_task, run_version_update, _pull_docker_image. cbv zeta.
    rewrite (normalize_requested_version_other s H1 H2 H3).
    repeat first [ wp_rule; try no_err | wp_case ].
    all: simpl app.
    all: repeat first [ apply list_elem_of_here | apply list_elem_of_further ].
Qed.

(** ** More on the finalizer *)

Lemma try_finally_cleanup_last {A} (body : M A) (tmpdir : string)
    (w : world) (h : trace) :
  last (try_finally body (ext (TemporaryDirectory_cleanup tmpdir)) w h).2
  = Some (ECall (TemporaryDirectory_cleanup tmpdir)).
Proof.
  unfold try_finally, ext. destruct (body w h) as [o h']. simpl.
  destruct (w _ h'); simpl; apply last_snoc.
Qed.

Lemma wp_eq {A} (m : M A) (w : world) (h : trace) (o : outcome A) (tr : trace) :
  wp m w h (λ o' tr', o' = o ∧ tr' = tr) → m w h = (o, tr).
Proof. unfold wp. destruct (m w h) as [o' tr']. simpl. by intros [-> ->]. Qed.

Section FinalizerMore.
Variable py_int : string → option Z.
Variable dedent : string → string.

(** X5.  A Task Result whose task is none of the three kinds is rejected
    by the finalizer: exit code 1, and nothing but read-only calls in the
    whole run, whatever the state of the pull request. *)
Theorem unknown_task_is_rejected (w : world) (task_data_dir : string) :
  hands_out w (λ td, str_in (task td) ["rerender"; "version_update"; "lint"] = false) →
  exit_code (run (main_finalize_task py_int dedent task_data_dir) w).1 = 1 ∧
  Forall (λ e, mutates e = false)
    (run (main_finalize_task py_int dedent task_data_dir) w).2.
Proof.
  intros Htd.
  apply (wp_run _ _ (λ o tr, exit_code o = 1 ∧ Forall _ tr)).
  unfold main_finalize_task.
  repeat first [wp_rule | split; [done | trace_all]].
  match goal with H : w (json_load _) _ = Ok ?td |- _ =>
    pose proof (Htd _ _ _ H) as Htask end.
  wp_case; [|repeat first [wp_rule | split; [done | trace_all]]].
  repeat first [wp_rule | split; [done | trace_all]].
  unfold finalize_pull. cbv zeta. rewrite Htask.
  unfold str_in in Htask |- *. simpl in Htask |- *.
  destruct (String.eqb (task r0) "rerender"); [discriminate Htask|].
  destruct (String.eqb (task r0) "version_update"); [discriminate Htask|].
  destruct (String.eqb (task r0) "lint"); [discriminate Htask|].
  simpl. repeat first [wp_rule | split; [done | trace_all]].
Qed.

(** X6.  Once the scratch directory exists it is removed: the last
    event of every run that created it is its clean-up, whether the
    finalizer returned, raised or exited. *)
Theorem scratch_directory_is_removed (w : world) (task_data_dir tmpdir : string) :
  scratch_is w tmpdir →
  ECall TemporaryDirectory ∈ (run (main_finalize_task py_int dedent task_data_dir) w).2 →
  last (run (main_finalize_task py_int dedent task_data_dir) w).2
  = Some (ECall (TemporaryDirectory_cleanup tmpdir)).
Proof.
  intros Htmp.
  apply (wp_run _ _ (λ _ tr,
    ECall TemporaryDirectory ∈ tr → last tr = Some (ECall (TemporaryDirectory_cleanup tmpdir)))).
  unfold main_finalize_task.
  repeat first
    [ match goal with |- wp (try_finally _ _) _ _ _ =>
        unfold wp; intros _; apply try_finally_cleanup_last end
    | match goal with
      | H : _ TemporaryDirectory _ = Ok _ |- _ => rewrite Htmp in H; injection H as <-
      | H : _ TemporaryDirectory _ = Err _ |- _ => rewrite Htmp in H; discriminate H
      end
    | wp_rule
    | intros Hin; exfalso; simpl app in Hin;
      repeat (apply elem_of_cons in Hin as [Hin|Hin]; [discriminate Hin|]);
      by apply elem_of_nil in Hin ].
Qed.

Lemma commit_step_push_closes (closes : bool) (steps : trace) :
  Forall (λ e, is_commit_step e = true) steps →
  Forall (push_closes closes) steps.
Proof.
  intros Hsteps. eapply Forall_impl; [exact Hsteps|].
  intros [[]| | | |] He; done.
Qed.

(** X7.  Only a version update may close the pull request: every
    push/comment step of the finalizer is made with
    [close_pr_if_no_changes_or_errors] true for the version_update task
    and false for any other. *)
Theorem only_version_update_may_close (w : world) (task_data_dir t : string) :
  hands_out w (λ td, task td = t) →
  Forall (push_closes (String.eqb t "version_update"))
    (run (main_finalize_task py_int dedent task_data_dir) w).2.
Proof.
  intros Htd.
  apply (wp_run _ _ (λ _ tr, Forall _ tr)).
  unfold main_finalize_task.
  repeat first [wp_rule | trace_all].
  match goal with H : w (json_load _) _ = Ok ?td |- _ =>
    pose proof (Htd _ _ _ H) as Htask end.
  wp_case; [|repeat first [wp_rule | trace_all]].
  repeat first [wp_rule | trace_all].
  unfold finalize_pull. cbv zeta. rewrite Htask.
  wp_case; [repeat first [wp_rule | trace_all]|].
  destruct (String.eqb t "rerender") eqn:Er;
    [apply String.eqb_eq in Er; subst t|
     destruct (String.eqb t "version_update") eqn:Ev;
       [apply String.eqb_eq in Ev; subst t|]].
  - simpl str_in. simpl String.eqb. cbv iota. do 2 wp_rule.
    eapply wp_mono; [apply commit_changes_spec|]. cbv beta.
    intros o h' [(steps & -> & Hsteps) Hkeep].
    apply (commit_step_push_closes false) in Hsteps.
    destruct o as [[task_results' locals]|e|c];
      [|repeat first [wp_rule | trace_all]|done].
    wp_rule. unfold finalize_rerender, _push_changes. cbv zeta.
    repeat first [wp_rule | wp_case | trace_all].
  - simpl str_in. simpl String.eqb. cbv iota. do 2 wp_rule.
    eapply wp_mono; [apply commit_changes_spec|]. cbv beta.
    intros o h' [(steps & -> & Hsteps) Hkeep].
    apply (commit_step_push_closes true) in Hsteps.
    destruct o as [[task_results' locals]|e|c];
      [|repeat first [wp_rule | trace_all]|done].
    wp_rule. unfold finalize_version_update, _push_changes. cbv zeta.
    repeat first [wp_rule | wp_case | trace_all].
  - unfold str_in. simpl existsb. rewrite Er, Ev. simpl orb. cbv iota.
    unfold finalize_lint, rescope_lint_error. cbv zeta.
    repeat first [wp_rule | wp_case | trace_all].
Qed.

(** X8.  With null findings, as the runner writes them when the lint
    tool raised, the finalizer does not ask which recipes are in scope:
    the flag of the Task Result decides alone, and a set flag ends on the
    failure path. *)
Theorem null_findings_fail_unscoped (w : world) (task_data_dir : string)
    (lint_error : value) :
  answers_all w →
  hands_out w (λ td,
    task td = "lint" ∧
    task_results td !! "lints" = Some VNone ∧
    task_results td !! "lint_error" = Some lint_error ∧
    is_Some (py_int (pr_number td))) →
  truthy lint_error = true →
  resolves w (λ pr, state pr ≠ "closed") →
  lint_failure (run (main_finalize_task py_int dedent task_data_dir) w).1
               (run (main_finalize_task py_int dedent task_data_dir) w).2 ∧
  Forall (λ e, is_scoping_call e = false)
    (run (main_finalize_task py_int dedent task_data_dir) w).2.
Proof.
  intros Hw Htd Htruthy Hpr.
  apply (wp_run _ _ (λ o tr,
    lint_failure o tr ∧ Forall (λ e, is_scoping_call e = false) tr)).
  unfold main_finalize_task.
  repeat (wp_rule; try no_err).
  match goal with H : w (json_load _) _ = Ok ?td |- _ =>
    destruct (Htd _ _ _ H) as (Htask & Hl & Hle & [n Hn]) end.
  rewrite Hn.
  repeat (wp_rule; try no_err).
  match goal with H : w (get_pull _ _) _ = Ok ?pr |- _ =>
    pose proof (Hpr _ _ _ _ H) as Hopen end.
  apply String.eqb_neq in Hopen.
  unfold finalize_pull. rewrite Htask, Hopen. simpl str_in. simpl String.eqb.
  simpl andb. cbv iota.
  repeat (wp_rule; try no_err).
  unfold finalize_lint. cbv zeta.
  repeat first [wp_rule; try no_err | wp_case].
  split; [|trace_all].
  unfold lint_failure. repeat split; [trace_some.. | trace_all].
Qed.

Lemma commit_step_not_ready (steps : trace) :
  Forall (λ e, is_commit_step e = true) steps →
  Forall (λ e, is_ready_call e = false) steps.
Proof.
  intros Hsteps. eapply Forall_impl; [exact Hsteps|].
  intros [[]| | | |] He; done.
Qed.

(** The finalizer of a rerender on an open pull request, every call
    succeeding: it fails when the rerender or the push failed. *)
Lemma finalize_rerender_outcome (w : world) (task_data_dir : string)
    (rerender_error changed push_error : bool)
    (info_message commit_message patch : option string) (pr : PullRequest) :
  answers_all w →
  hands_out w (λ td,
    rerender_task_data rerender_error changed info_message commit_message patch td ∧
    is_Some (py_int (pr_number td))) →
  resolves w (λ pr', pr' = pr) →
  state pr ≠ "closed" →
  push_reports w push_error →
  let failed := rerender_error || push_error in
  let o := (run (main_finalize_task py_int dedent task_data_dir) w).1 in
  let tr := (run (main_finalize_task py_int dedent task_data_dir) w).2 in
  o = (if failed then SysExit 1 else Ret tt) ∧
  Exists (sets_rerender_status (if failed then "failure" else "success")) tr ∧
  (if negb failed && is_bot_rerender pr
   then Exists (λ e, is_ready_call e = true) tr
   else Forall (λ e, is_ready_call e = false) tr).
Proof.
  intros Hw Htd Hpr Hopen Hpush. cbv zeta.
  apply (wp_run _ _ (λ o tr,
    o = (if rerender_error || push_error then SysExit 1 else Ret tt) ∧
    Exists (sets_rerender_status
              (if rerender_error || push_error then "failure" else "success")) tr ∧
    (if negb (rerender_error || push_error) && is_bot_rerender pr
     then Exists (λ e, is_ready_call e = true) tr
     else Forall (λ e, is_ready_call e = false) tr))).
  unfold main_finalize_task.
  repeat (wp_rule; try no_err).
  match goal with H : w (json_load _) _ = Ok ?td |- _ =>
    destruct (Htd _ _ _ H) as [(Htask & Hre & Hc & Him & Hcm & Hp) [n Hn]] end.
  rewrite Hn.
  repeat (wp_rule; try no_err).
  match goal with H : w (get_pull _ _) _ = Ok ?pr |- _ =>
    pose proof (Hpr _ _ _ _ H) as Heq; simpl in Heq; subst end.
  apply String.eqb_neq in Hopen.
  unfold finalize_pull. rewrite Htask, Hopen. simpl str_in. simpl String.eqb.
  simpl andb. cbv iota. do 2 wp_rule.
  eapply wp_mono; [by apply (commit_changes_returns _ _ _ commit_message patch)|].
  cbv beta.
  intros o h' (task_results' & locals & steps & -> & -> & Hsteps & Hkeep).
  apply commit_step_not_ready in Hsteps.
  assert (task_results' !! "rerender_error" = Some (VBool rerender_error))
    by (by rewrite Hkeep).
  assert (task_results' !! "changed" = Some (VBool changed)) by (by rewrite Hkeep).
  assert (task_results' !! "info_message" = Some (of_opt_str info_message))
    by (by rewrite Hkeep).
  simpl app.
  wp_rule. unfold finalize_rerender, _push_changes, is_bot_rerender. cbv zeta.
  destruct info_message as [info_message|]; simpl of_opt_str in *;
    destruct rerender_error, push_error;
    repeat first
      [ wp_rule; try no_err
      | match goal with H : _ (comment_and_push_if_changed _) _ = Ok _ |- _ =>
          rewrite Hpush in H; injection H as <- end
      | progress (simpl is_None; cbv iota; simpl iadd_str)
      | wp_case ];
    cbn [orb negb andb]; (split; [done|split; [trace_some_app|]]);
    repeat match goal with H : _ = true |- _ => simpl in H; rewrite H end;
    repeat match goal with H : _ = false |- _ => simpl in H; rewrite H end;
    first [trace_some_app | trace_all].
Qed.

(** X9.  A rerender finalized against an open pull request, every call
    succeeding: the commit status is "failure" and the exit code 1 when
    the rerender or the push/comment step reported an error, and
    "success" with a normal return otherwise. *)
Theorem rerender_status_and_exit (w : world) (task_data_dir : string)
    (rerender_error changed push_error : bool)
    (info_message commit_message patch : option string) :
  answers_all w →
  hands_out w (λ td,
    rerender_task_data rerender_error changed info_message commit_message patch td ∧
    is_Some (py_int (pr_number td))) →
  resolves w (λ pr, state pr ≠ "closed") →
  push_reports w push_error →
  (run (main_finalize_task py_int dedent task_data_dir) w).1
  = (if rerender_error || push_error then SysExit 1 else Ret tt) ∧
  Exists (sets_rerender_status
            (if rerender_error || push_error then "failure" else "success"))
    (run (main_finalize_task py_int dedent task_data_dir) w).2.
Proof.
  intros Hw Htd Hpr Hpush.
  apply (wp_run _ _ (λ o tr,
    o = (if rerender_error || push_error then SysExit 1 else Ret tt) ∧
    Exists (sets_rerender_status
              (if rerender_error || push_error then "failure" else "success")) tr)).
  unfold main_finalize_task.
  repeat (wp_rule; try no_err).
  match goal with H : w (json_load _) _ = Ok ?td |- _ =>
    destruct (Htd _ _ _ H) as [(Htask & Hre & Hc & Him & Hcm & Hp) [n Hn]] end.
  rewrite Hn.
  repeat (wp_rule; try no_err).
  match goal with H : w (get_pull _ _) _ = Ok ?pr |- _ =>
    pose proof (Hpr _ _ _ _ H) as Hopen end.
  apply String.eqb_neq in Hopen.
  unfold finalize_pull. rewrite Htask, Hopen. simpl str_in. simpl String.eqb.
  simpl andb. cbv iota. do 2 wp_rule.
  eapply wp_mono; [by apply (commit_changes_returns _ _ _ commit_message patch)|].
  cbv beta.
  intros o h' (task_results' & locals & steps & -> & -> & Hsteps & Hkeep).
  assert (task_results' !! "rerender_error" = Some (VBool rerender_error))
    by (by rewrite Hkeep).
  assert (task_results' !! "changed" = Some (VBool changed)) by (by rewrite Hkeep).
  assert (task_results' !! "info_message" = Some (of_opt_str info_message))
    by (by rewrite Hkeep).
  simpl app.
  wp_rule. unfold finalize_rerender, _push_changes. cbv zeta.
  destruct info_message as [info_message|]; simpl of_opt_str in *;
    destruct rerender_error, push_error;
    repeat first
      [ wp_rule; try no_err
      | match goal with H : _ (comment_and_push_if_changed _) _ = Ok _ |- _ =>
          rewrite Hpush in H; injection H as <- end
      | progress (simpl is_None; cbv iota; simpl iadd_str)
      | wp_case ];
    cbn [orb negb andb]; (split; [done|trace_some_app]).
Qed.

(** X10.  The finalizer of a rerender marks the pull request ready for
    review exactly when nothing failed and the pull request is the bot's
    own (title "MNT: rerender", author conda-forge-admin). *)
Theorem rerender_ready_only_for_bot (w : world) (task_data_dir : string)
    (rerender_error changed push_error : bool)
    (info_message commit_message patch : option string) (pr : PullRequest) :
  answers_all w →
  hands_out w (λ td,
    rerender_task_data rerender_error changed info_message commit_message patch td ∧
    is_Some (py_int (pr_number td))) →
  resolves w (λ pr', pr' = pr) →
  state pr ≠ "closed" →
  push_reports w push_error →
  if negb (rerender_error || push_error) && is_bot_rerender pr
  then Exists (λ e, is_ready_call e = true)
         (run (main_finalize_task py_int dedent task_data_dir) w).2
  else Forall (λ e, is_ready_call e = false)
         (run (main_finalize_task py_int dedent task_data_dir) w).2.
Proof.
  intros Hw Htd Hpr Hopen Hpush.
  apply (finalize_rerender_outcome w task_data_dir rerender_error changed push_error
           info_message commit_message patch pr Hw Htd Hpr Hopen Hpush).
Qed.

(** The finalizer of a successful version bump on an open pull request,
    every call succeeding. *)
Lemma finalize_bump_outcome (w : world) (task_data_dir : string)
    (rerender_error title_error push_error : bool) (new_version : string)
    (info_message commit_message patch : option string) :
  answers_all w →
  hands_out w (λ td,
    bumped_task_data rerender_error new_version info_message commit_message patch td ∧
    is_Some (py_int (pr_number td))) →
  new_version ≠ "" →
  resolves w (λ pr, state pr ≠ "closed") →
  title_reports w title_error →
  push_reports w push_error →
  let o := (run (main_finalize_task py_int dedent task_data_dir) w).1 in
  let tr := (run (main_finalize_task py_int dedent task_data_dir) w).2 in
  o = (if title_error || rerender_error || push_error then SysExit 1 else Ret tt) ∧
  Exists (updates_title_to new_version) tr ∧
  Forall (pushes_with_error (VBool rerender_error)) tr ∧
  (if negb (rerender_error || push_error)
   then Exists (λ e, is_ready_call e = true) tr
   else Forall (λ e, is_ready_call e = false) tr).
Proof.
  intros Hw Htd Hv Hpr Htitle Hpush. cbv zeta.
  apply (wp_run _ _ (λ o tr,
    o = (if title_error || rerender_error || push_error then SysExit 1 else Ret tt) ∧
    Exists (updates_title_to new_version) tr ∧
    Forall (pushes_with_error (VBool rerender_error)) tr ∧
    (if negb (rerender_error || push_error)
     then Exists (λ e, is_ready_call e = true) tr
     else Forall (λ e, is_ready_call e = false) tr))).
  unfold main_finalize_task.
  repeat (wp_rule; try no_err).
  match goal with H : w (json_load _) _ = Ok ?td |- _ =>
    destruct (Htd _ _ _ H)
      as [(Htask & Hve & Hvc & Hnv & Hre & Him & Hcm & Hp) [n Hn]] end.
  rewrite Hn.
  repeat (wp_rule; try no_err).
  match goal with H : w (get_pull _ _) _ = Ok ?pr |- _ =>
    pose proof (Hpr _ _ _ _ H) as Hopen end.
  apply String.eqb_neq in Hopen.
  unfold finalize_pull. rewrite Htask, Hopen. simpl str_in. simpl String.eqb.
  simpl andb. cbv iota. do 2 wp_rule.
  eapply wp_mono; [by apply (commit_changes_returns _ _ _ commit_message patch)|].
  cbv beta.
  intros o h' (task_results' & locals & steps & -> & -> & Hsteps & Hkeep).
  pose proof (commit_step_not_ready _ Hsteps) as Hnot_ready.
  apply (commit_step_pushes_with_error (VBool rerender_error)) in Hsteps.
  assert (task_results' !! "version_error" = Some (VBool false))
    by (by rewrite Hkeep).
  assert (task_results' !! "version_changed" = Some (VBool true))
    by (by rewrite Hkeep).
  assert (task_results' !! "new_version" = Some (VStr new_version))
    by (by rewrite Hkeep).
  assert (task_results' !! "rerender_error" = Some (VBool rerender_error))
    by (by rewrite Hkeep).
  assert (task_results' !! "info_message" = Some (of_opt_str info_message))
    by (by rewrite Hkeep).
  assert (truthy (VStr new_version) = true) as Htruthy.
  { simpl. apply String.eqb_neq in Hv. by rewrite Hv. }
  simpl app.
  wp_rule. unfold finalize_version_update, _push_changes. cbv zeta.
  rewrite (version_update_action_error_bools task_results' false true rerender_error)
    by done.
  destruct info_message as [info_message|]; simpl of_opt_str in *;
    destruct rerender_error, title_error, push_error;
    repeat first
      [ wp_rule; try no_err
      | match goal with
        | H : _ (comment_and_push_if_changed _) _ = Ok _ |- _ =>
            rewrite Hpush in H; injection H as <-
        | H : _ (update_pr_title _ _ _) _ = Ok _ |- _ =>
            rewrite Htitle in H; injection H as <-
        end
      | progress (simpl is_None; cbv iota; simpl iadd_str)
      | wp_case ];
    cbn [orb negb andb];
    (split; [done|split; [trace_some_app|split; [trace_all|]]]);
    first [trace_some_app | trace_all].
Qed.

(** X11.  A successful version bump finalized against an open pull
    request, every call succeeding: the title is updated to the new
    version, and the exit code is 1 exactly when the title update, the
    chained rerender or the push/comment step reported an error. *)
Theorem bump_exit_code (w : world) (task_data_dir : string)
    (rerender_error title_error push_error : bool) (new_version : string)
    (info_message commit_message patch : option string) :
  answers_all w →
  hands_out w (λ td,
    bumped_task_data rerender_error new_version info_message commit_message patch td ∧
    is_Some (py_int (pr_number td))) →
  new_version ≠ "" →
  resolves w (λ pr, state pr ≠ "closed") →
  title_reports w title_error →
  push_reports w push_error →
  (run (main_finalize_task py_int dedent task_data_dir) w).1
  = (if title_error || rerender_error || push_error then SysExit 1 else Ret tt) ∧
  Exists (updates_title_to new_version)
    (run (main_finalize_task py_int dedent task_data_dir) w).2.
Proof.
  intros Hw Htd Hv Hpr Htitle Hpush.
  pose proof (finalize_bump_outcome w task_data_dir rerender_error title_error
                push_error new_version info_message commit_message patch
                Hw Htd Hv Hpr Htitle Hpush) as (Ho & Ht & _).
  by split.
Qed.

(** X12.  After a version bump the pull request is marked ready for
    review whenever the chained rerender and the push/comment step
    succeeded, also when the title update failed; it is not marked
    otherwise. *)
Theorem bump_ready_despite_title_error (w : world) (task_data_dir : string)
    (rerender_error title_error push_error : bool) (new_version : string)
    (info_message commit_message patch : option string) :
  answers_all w →
  hands_out w (λ td,
    bumped_task_data rerender_error new_version info_message commit_message patch td ∧
    is_Some (py_int (pr_number td))) →
  new_version ≠ "" →
  resolves w (λ pr, state pr ≠ "closed") →
  title_reports w title_error →
  push_reports w push_error →
  if negb (rerender_error || push_error)
  then Exists (λ e, is_ready_call e = true)
         (run (main_finalize_task py_int dedent task_data_dir) w).2
  else Forall (λ e, is_ready_call e = false)
         (run (main_finalize_task py_int dedent task_data_dir) w).2.
Proof.
  intros Hw Htd Hv Hpr Htitle Hpush.
  apply (finalize_bump_outcome w task_data_dir rerender_error title_error
           push_error new_version info_message commit_message patch
           Hw Htd Hv Hpr Htitle Hpush).
Qed.

(** X13.  A patch without a commit message is committed under the
    default message: the commit phase logs the warning, clones, writes
    and applies the patch, stages everything and commits with
    "chore: conda-forge-webservices update", which it also records in the
    task results. *)
Theorem patch_without_message_commits_default (tmpdir : string) (pr : PullRequest)
    (task_results : gmap string value) (patch : string) (w : world) (h : trace) :
  answers_all w →
  task_results !! "patch" = Some (VStr patch) →
  task_results !! "commit_message" = Some VNone →
  let feedstock_dir := os_path_join tmpdir (head_repo_name pr) in
  let patch_file := os_path_join tmpdir "rerender-diff.patch" in
  ∃ warning,
    commit_changes tmpdir pr task_results w h
    = (Ret (<["commit_message" := VStr "chore: conda-forge-webservices update"]>
              task_results,
            {| l_pr_branch := head_ref pr; l_pr_owner := head_repo_owner_login pr;
               l_pr_repo := head_repo_name pr; l_git_repo := feedstock_dir |}),
       h ++ [ELog "warning" warning [];
             ECall (Repo_clone_from
                      ("https://github.com/" +:+ head_repo_owner_login pr +:+ "/"
                       +:+ head_repo_name pr +:+ ".git")
                      feedstock_dir (Some (head_ref pr)));
             ECall (open_w patch_file);
             ECall (fp_write patch_file patch);
             ECall (subprocess_run ["git"; "apply"; "--allow-empty"; patch_file]
                      (Some feedstock_dir) true false);
             ECall (subprocess_run ["git"; "add"; "-f"; "."]
                      (Some feedstock_dir) true false);
             ECall (subprocess_run
                      ["git"; "commit"; "-m"; "chore: conda-forge-webservices update";
                       "--allow-empty"]
                      (Some feedstock_dir) true false)]).
Proof.
  intros Hw Hp Hcm. cbv zeta. eexists. apply wp_eq.
  unfold commit_changes. cbv zeta.
  repeat first [wp_rule; try no_err | wp_case].
  split; [reflexivity | rewrite <- ?(assoc_L (++)); reflexivity].
Qed.

(** X14.  Without a patch the commit phase writes and applies nothing:
    in every world, whatever the commit message, its steps contain no
    patch file, no [git apply] and no [git add]. *)
Theorem no_patch_nothing_applied (tmpdir : string) (pr : PullRequest)
    (task_results : gmap string value) (w : world) (h : trace) :
  task_results !! "patch" = Some VNone →
  ∃ steps,
    (commit_changes tmpdir pr task_results w h).2 = h ++ steps ∧
    Forall (λ e, is_patch_step e = false) steps.
Proof.
  intros Hp.
  change (wp (commit_changes tmpdir pr task_results) w h (λ _ tr,
    ∃ steps, tr = h ++ steps ∧ Forall (λ e, is_patch_step e = false) steps)).
  unfold commit_changes. cbv zeta.
  repeat first
    [ wp_rule | wp_case
    | eexists; split;
        [ rewrite <- ?(assoc_L (++)); reflexivity | by repeat constructor ]
    | exists []; split; [by rewrite app_nil_r | constructor] ].
Qed.

(** X15.  A rerender or version_update Task Result without the "patch"
    key, finalized against an open pull request: the finalizer dies on the
    lookup before the clone, so its run holds read-only calls only and
    ends with exit code 1. *)
Theorem missing_patch_key_stops_before_clone (w : world) (task_data_dir : string) :
  hands_out w (λ td,
    str_in (task td) ["rerender"; "version_update"] = true ∧
    task_results td !! "patch" = None) →
  resolves w (λ pr, state pr ≠ "closed") →
  exit_code (run (main_finalize_task py_int dedent task_data_dir) w).1 = 1 ∧
  Forall (λ e, mutates e = false)
    (run (main_finalize_task py_int dedent task_data_dir) w).2.
Proof.
  intros Htd Hpr.
  apply (wp_run _ _ (λ o tr, exit_code o = 1 ∧ Forall _ tr)).
  unfold main_finalize_task.
  repeat first [wp_rule | split; [done | trace_all]].
  match goal with H : w (json_load _) _ = Ok ?td |- _ =>
    destruct (Htd _ _ _ H) as [Htask Hp] end.
  wp_case; [|repeat first [wp_rule | split; [done | trace_all]]].
  repeat first [wp_rule | split; [done | trace_all]].
  match goal with H : w (get_pull _ _) _ = Ok ?pr |- _ =>
    pose proof (Hpr _ _ _ _ H) as Hopen end.
  apply String.eqb_neq in Hopen.
  unfold finalize_pull. cbv zeta. rewrite Hopen, andb_false_r, Htask. cbv iota.
  unfold commit_changes, getitem. cbv zeta. rewrite Hp.
  repeat first [wp_rule | split; [done | trace_all]].
Qed.
End FinalizerMore.

(** ** More on the automerge trigger *)

Lemma automerge_scan_merges_only (gh_repo : Repository) (full_repo_name sha : string)
    (w : world) (pulls : list PullRequest) (found_pr : bool) (h : trace) :
  Forall (merges_only sha) h →
  wp (automerge_scan gh_repo full_repo_name sha pulls found_pr) w h
    (λ _ h', Forall (merges_only sha) h').
Proof.
  revert found_pr h. induction pulls as [|pr rest IH]; intros found_pr h Hh.
  - by apply wp_ret.
  - simpl automerge_scan. destruct (String.eqb (head_sha pr) sha) eqn:Hsha.
    + apply String.eqb_eq in Hsha.
      repeat first [wp_rule | apply IH | trace_all].
    + by apply IH.
Qed.

(** X16.  The merge is only ever evaluated for a listed pull request
    whose head commit is the given [sha], in every world. *)
Theorem automerge_only_matching_pulls (w : world) (repo sha : string) :
  Forall (merges_only sha) (run (main_automerge repo sha) w).2.
Proof.
  apply (wp_run _ _ (λ _ tr, Forall _ tr)).
  unfold main_automerge. cbv zeta.
  repeat first [wp_rule | trace_all].
  eapply wp_mono; [apply automerge_scan_merges_only; trace_all|].
  cbv beta. intros o h' Hh'.
  destruct o as [found_pr| |]; [|done..].
  repeat first [wp_rule | wp_case | trace_all].
Qed.

Lemma automerge_scan_counts (gh_repo : Repository) (full_repo_name sha : string)
    (w : world) (pulls : list PullRequest) (found_pr : bool) (h : trace) :
  answers_all w →
  wp (automerge_scan gh_repo full_repo_name sha pulls found_pr) w h
    (λ o h',
      ∃ steps,
        o = Ret (found_pr || negb (bool_decide (on_commit sha pulls = []))) ∧
        h' = h ++ steps ∧
        length (List.filter is_automerge_call steps) = length (on_commit sha pulls) ∧
        length (List.filter is_admin_session_call steps) = length (on_commit sha pulls) ∧
        Forall (λ e, is_no_match_report e = false) steps).
Proof.
  intros Hw. revert found_pr h. induction pulls as [|pr rest IH]; intros found_pr h.
  - apply wp_ret. exists []. simpl. rewrite orb_false_r, app_nil_r. by repeat split.
  - simpl automerge_scan. unfold on_commit. simpl List.filter.
    destruct (String.eqb (head_sha pr) sha) eqn:Hsha.
    + repeat (wp_rule; try no_err).
      eapply wp_mono; [apply IH|]. cbv beta.
      intros o h' (steps & -> & -> & Hm & Ha & Hr).
      eexists. split; [by rewrite orb_true_r|].
      split; [rewrite <- ?(assoc_L (++)); reflexivity|].
      simpl. rewrite Hm, Ha. repeat split. by repeat constructor.
    + eapply wp_mono; [apply IH|]. cbv beta.
      intros o h' (steps & -> & -> & Hm & Ha & Hr). by exists steps.
Qed.

(** X17.  When some open pull request is on the given commit and every
    call succeeds, the trigger returns normally without the "no PR found"
    report, having opened one elevated session and evaluated one merge for
    each pull request on that commit. *)
Theorem automerge_each_matching_pull (w : world) (repo sha : string)
    (pulls : list PullRequest) :
  answers_all w →
  lists w pulls →
  on_commit sha pulls ≠ [] →
  (run (main_automerge repo sha) w).1 = Ret tt ∧
  length (List.filter is_automerge_call (run (main_automerge repo sha) w).2)
  = length (on_commit sha pulls) ∧
  length (List.filter is_admin_session_call (run (main_automerge repo sha) w).2)
  = length (on_commit sha pulls) ∧
  Forall (λ e, is_no_match_report e = false) (run (main_automerge repo sha) w).2.
Proof.
  intros Hw Hlist Hsome.
  apply (wp_run _ _ (λ o tr,
    o = Ret tt ∧
    length (List.filter is_automerge_call tr) = length (on_commit sha pulls) ∧
    length (List.filter is_admin_session_call tr) = length (on_commit sha pulls) ∧
    Forall (λ e, is_no_match_report e = false) tr)).
  unfold main_automerge. cbv zeta.
  repeat (wp_rule; try no_err).
  match goal with H : w (get_pulls _) _ = Ok _ |- _ =>
    rewrite Hlist in H; injection H as <- end.
  eapply wp_mono; [by apply automerge_scan_counts|]. cbv beta.
  intros o h' (steps & -> & -> & Hm & Ha & Hr).
  rewrite bool_decide_eq_false_2 by done. simpl negb. simpl orb. cbv iota.
  wp_rule. simpl. rewrite Hm, Ha.
  repeat split. by repeat constructor.
Qed.

(** ** The team update: the jinja filter *)

Lemma span_group_length (s : string) :
  (String.length (Teams.span_group s).1 + String.length (Teams.span_group s).2
   = String.length s)%nat.
Proof.
  induction s as [|c s IH]; [done|]. simpl.
  destruct (Teams.is_brace c); [done|].
  destruct (Teams.span_group s) as [group rest]. simpl in *. lia.
Qed.

(** A match consumes at least the four braces. *)
Lemma match_jinja_length (s group rest : string) :
  Teams.match_jinja s = Some (group, rest) →
  (String.length s = 4 + String.length group + String.length rest)%nat.
Proof.
  unfold Teams.match_jinja.
  destruct s as [|c1 [|c2 s]]; try done.
  - by repeat case_match.
  - pose proof (span_group_length s) as Hlen.
    destruct (Teams.span_group s) as [g r]. simpl in Hlen.
    repeat case_match; try done.
    all: intros [= <- <-]; subst; simpl in *; lia.
Qed.

(** Fuel beyond the length of the line changes nothing. *)
Lemma sub_jinja_fuel (n m : nat) (s : string) :
  (String.length s ≤ n)%nat → (String.length s ≤ m)%nat →
  Teams.sub_jinja n s = Teams.sub_jinja m s.
Proof.
  revert m s. induction n as [|n IH]; intros m s Hn Hm.
  - destruct s; [|simpl in Hn; lia]. by destruct m.
  - destruct m as [|m].
    + destruct s; [|simpl in Hm; lia]. done.
    + simpl. destruct (Teams.match_jinja s) as [[group rest]|] eqn:Hmatch.
      * apply match_jinja_length in Hmatch. f_equal. apply IH; lia.
      * destruct s as [|c s]; [done|]. simpl in Hn, Hm. f_equal. apply IH; lia.
Qed.

Lemma sub_jinja_step (n : nat) (s : string) :
  Teams.sub_jinja (S n) s
  = match Teams.match_jinja s with
    | Some (group, rest) => Teams._jinja2_repl group +:+ Teams.sub_jinja n rest
    | None =>
        match s with
        | EmptyString => EmptyString
        | String c s' => String c (Teams.sub_jinja n s')
        end
    end.
Proof. reflexivity. Qed.

(** The two equations of the substitution. *)
Lemma filter_jinja2_match (s group rest : string) :
  Teams.match_jinja s = Some (group, rest) →
  Teams._filter_jinja2 s = Teams._jinja2_repl group +:+ Teams._filter_jinja2 rest.
Proof.
  intros Hmatch. pose proof (match_jinja_length _ _ _ Hmatch) as Hlen.
  unfold Teams._filter_jinja2. rewrite Hlen.
  change (4 + String.length group + String.length rest)%nat
    with (S (3 + String.length group + String.length rest)).
  rewrite sub_jinja_step, Hmatch. f_equal. apply sub_jinja_fuel; lia.
Qed.

Lemma filter_jinja2_skip (c : ascii) (s : string) :
  Teams.match_jinja (String c s) = None →
  Teams._filter_jinja2 (String c s) = String c (Teams._filter_jinja2 s).
Proof.
  intros Hmatch. unfold Teams._filter_jinja2.
  change (String.length (String c s)) with (S (String.length s)).
  by rewrite sub_jinja_step, Hmatch.
Qed.

Lemma match_jinja_no_open (c : ascii) (s : string) :
  Ascii.eqb c "{" = false → Teams.match_jinja (String c s) = None.
Proof.
  intros Hc. unfold Teams.match_jinja.
  destruct c as [[] [] [] [] [] [] [] []]; try done.
  all: by destruct s.
Qed.

(** X18.  A line without an opening brace is left as it is. *)
Theorem filter_jinja2_plain (line : string) :
  has_char "{" line = false →
  Teams._filter_jinja2 line = line.
Proof.
  induction line as [|c line IH]; [done|].
  simpl. intros [Hc Hline]%orb_false_elim.
  rewrite filter_jinja2_skip by (by apply match_jinja_no_open).
  by rewrite IH.
Qed.

Lemma string_app_cons (x : ascii) (a b : string) :
  String x a +:+ b = String x (a +:+ b).
Proof. reflexivity. Qed.

Lemma string_app_nil (b : string) : "" +:+ b = b.
Proof. reflexivity. Qed.

Lemma string_app_assoc (a b c : string) :
  (a +:+ b) +:+ c = a +:+ (b +:+ c).
Proof.
  induction a as [|x a IH]; [done|]. by rewrite !string_app_cons, IH.
Qed.

Lemma span_group_app (group rest : string) :
  has_brace group = false →
  Teams.span_group (group +:+ "}}" +:+ rest) = (group, "}}" +:+ rest).
Proof.
  induction group as [|c group IH]; [done|].
  simpl. intros [Hc Hgroup]%orb_false_elim.
  by rewrite Hc, IH.
Qed.

(** X19.  A jinja expression, two opening braces, a text without braces
    and two closing braces, gets a dollar sign in front, and the filter
    goes on with what follows it. *)
Theorem filter_jinja2_expression (group rest : string) :
  has_brace group = false →
  Teams._filter_jinja2 ("{{" +:+ group +:+ "}}" +:+ rest)
  = "${{" +:+ group +:+ "}}" +:+ Teams._filter_jinja2 rest.
Proof.
  intros Hgroup.
  rewrite (filter_jinja2_match _ group rest).
  - unfold Teams._jinja2_repl. by rewrite !string_app_assoc.
  - change (Teams.match_jinja (String "{" (String "{" (group +:+ "}}" +:+ rest)))
            = Some (group, rest)).
    unfold Teams.match_jinja.
    by rewrite (span_group_app group rest Hgroup).
Qed.

(** An opening brace too many stays in front of the expression. *)
Example filter_jinja2_triple :
  Teams._filter_jinja2 "v: {{{ x }}" = "v: {${{ x }}".
Proof. reflexivity. Qed.

(** ** The team update: the recipe *)

Section RecipeFacts.

Variable splitlines : string → list string.
Variable strip : string → string.
Variable yaml_load : string → Teams.result value.

(** The loop of [get_recipe_dummy_meta] from any state: the lines are
    kept from the first [extra:] line on, or all of them when one was
    seen before, and [skip] counts the [extra:] lines. *)
Lemma keep_loop (lines keep_lines : list string) (skip : nat) :
  fold_left (Teams.keep_step strip) lines (keep_lines, skip)
  = (keep_lines
       ++ map Teams._filter_jinja2
            (if (0 <? skip)%nat then lines else from_first (Teams.is_extra strip) lines),
     (skip + length (List.filter (Teams.is_extra strip) lines))%nat).
Proof.
  revert keep_lines skip.
  induction lines as [|line lines IH]; intros keep_lines skip.
  - simpl. rewrite Nat.add_0_r. by destruct (0 <? skip)%nat; rewrite app_nil_r.
  - simpl. destruct (Teams.is_extra strip line) eqn:Hline.
    + rewrite IH.
      replace (0 <? skip + 1)%nat with true by (symmetry; apply Nat.ltb_lt; lia).
      simpl. rewrite <- app_assoc. simpl.
      f_equal; [by destruct (0 <? skip)%nat|lia].
    + destruct (0 <? skip)%nat eqn:Hskip; rewrite IH, Hskip; [|done].
      by rewrite <- app_assoc.
Qed.

Lemma get_recipe_dummy_meta_eq (recipe_content : string) :
  Teams.get_recipe_dummy_meta splitlines strip yaml_load recipe_content
  = if (length (List.filter (Teams.is_extra strip) (splitlines recipe_content)) =? 1)%nat
    then yaml_load
           (Teams.join newline
              (map Teams._filter_jinja2
                 (from_first (Teams.is_extra strip) (splitlines recipe_content))))
    else Teams.Fail
           (Teams.AssertionError "team update failed due to > 1 'extra:' sections").
Proof.
  unfold Teams.get_recipe_dummy_meta. by rewrite keep_loop.
Qed.

(** X20.  A recipe is refused with the assertion error whenever the
    number of its [extra:] lines is not one: with two or more of them, and
    with none as well, although the message speaks of more than one. *)
Theorem recipe_needs_one_extra_section (recipe_content : string) :
  length (List.filter (Teams.is_extra strip) (splitlines recipe_content)) ≠ 1%nat →
  Teams.get_recipe_dummy_meta splitlines strip yaml_load recipe_content
  = Teams.Fail
      (Teams.AssertionError "team update failed due to > 1 'extra:' sections").
Proof.
  intros Hcount. rewrite get_recipe_dummy_meta_eq.
  by apply Nat.eqb_neq in Hcount as ->.
Qed.

(** X21.  With exactly one [extra:] line, the document that is parsed is
    made of the lines from that line on, each one passed through the
    jinja filter, joined by line feeds; the lines before it are dropped. *)
Theorem recipe_kept_from_extra_line (recipe_content : string) :
  length (List.filter (Teams.is_extra strip) (splitlines recipe_content)) = 1%nat →
  Teams.get_recipe_dummy_meta splitlines strip yaml_load recipe_content
  = yaml_load
      (Teams.join newline
         (map Teams._filter_jinja2
            (from_first (Teams.is_extra strip) (splitlines recipe_content)))).
Proof.
  intros Hcount. by rewrite get_recipe_dummy_meta_eq, Hcount.
Qed.

End RecipeFacts.

(** ** The team update: rules for the scripts *)

Lemma teams_wp_ret {A} (a : A) w s (Q : Teams.result A → Teams.store → Prop) :
  Q (Teams.Done a) s → teams_wp (Teams.ret a) w s Q.
Proof. done. Qed.

Lemma teams_wp_lift {A} (r : Teams.result A) w s
    (Q : Teams.result A → Teams.store → Prop) :
  Q r s → teams_wp (Teams.lift r) w s Q.
Proof. done. Qed.

Lemma teams_wp_bind {A B} (m : Teams.M A) (f : A → Teams.M B) w s
    (Q : Teams.result B → Teams.store → Prop) :
  teams_wp m w s
    (λ r s', match r with
             | Teams.Done a => teams_wp (f a) w s' Q
             | Teams.Fail e => Q (Teams.Fail e) s'
             end) →
  teams_wp (Teams.bind m f) w s Q.
Proof.
  unfold teams_wp, Teams.bind. by destruct (m w s) as [[a|e] s'].
Qed.

Lemma teams_wp_ext (c : Teams.call) w s
    (Q : Teams.result (Teams.ret_type c) → Teams.store → Prop) :
  Q (w c (Teams.calls s))
    {| Teams.calls := Teams.calls s ++ [c]; Teams.memo := Teams.memo s |} →
  teams_wp (Teams.ext c) w s Q.
Proof. done. Qed.

Lemma teams_wp_mono {A} (m : Teams.M A) w s
    (Q Q' : Teams.result A → Teams.store → Prop) :
  teams_wp m w s Q → (∀ r s', Q r s' → Q' r s') → teams_wp m w s Q'.
Proof. unfold teams_wp. auto. Qed.

Lemma teams_wp_except {A} (body handler : Teams.M A) w s
    (Q : Teams.result A → Teams.store → Prop) :
  teams_wp body w s
    (λ r s', match r with
             | Teams.Fail Teams.UnknownObjectException => teams_wp handler w s' Q
             | _ => Q r s'
             end) →
  teams_wp (Teams.except_unknown_object body handler) w s Q.
Proof.
  unfold teams_wp, Teams.except_unknown_object.
  by destruct (body w s) as [[a|[]] s'].
Qed.

Lemma teams_wp_read_memo w s
    (Q : Teams.result (option (gset string)) → Teams.store → Prop) :
  Q (Teams.Done (Teams.memo s)) s → teams_wp Teams.read_memo w s Q.
Proof. done. Qed.

Lemma teams_wp_write_memo members w s
    (Q : Teams.result unit → Teams.store → Prop) :
  Q (Teams.Done tt)
    {| Teams.calls := Teams.calls s; Teams.memo := Some members |} →
  teams_wp (Teams.write_memo members) w s Q.
Proof. done. Qed.

(** One step of a script. *)
Ltac teams_step :=
  cbn [Teams.calls Teams.memo];
  lazymatch goal with
  | |- teams_wp (Teams.ret _) _ _ _ => apply teams_wp_ret
  | |- teams_wp (Teams.lift _) _ _ _ => apply teams_wp_lift
  | |- teams_wp (mbind ?f ?m) ?w ?s ?Q => apply (teams_wp_bind m f w s Q)
  | |- teams_wp (Teams.bind ?m ?f) ?w ?s ?Q => apply (teams_wp_bind m f w s Q)
  | |- teams_wp (Teams.ext ?c) ?w ?s ?Q => apply (teams_wp_ext c w s Q)
  | |- teams_wp Teams.read_memo _ _ _ => apply teams_wp_read_memo
  | |- teams_wp (Teams.write_memo _) _ _ _ => apply teams_wp_write_memo
  | |- teams_wp (Teams.except_unknown_object _ _) _ _ _ =>
      apply teams_wp_except
  | |- teams_wp (Teams.for_each _ _) _ _ _ => cbn [Teams.for_each]
  | |- teams_wp (Teams.collect_members _ _) _ _ _ => cbn [Teams.collect_members]
  | |- match ?e with
       | Teams.KeyError _ => _
       | Teams.AssertionError _ => _
       | Teams.UnknownObjectException => _
       | Teams.OtherError _ => _
       end => destruct e
  | |- match ?w ?c ?h with Teams.Done _ => _ | Teams.Fail _ => _ end =>
      let a := fresh "a" in
      let e := fresh "e" in
      let Hw := fresh "Hw" in
      destruct (w c h) as [a|e] eqn:Hw
  end.

(** The calls added to [calls], listed. *)
Ltac teams_added :=
  cbn [Teams.calls Teams.memo];
  repeat match goal with H : Teams.calls _ = _ |- _ => rewrite H; clear H end;
  rewrite <- ?app_assoc; cbn [app]; reflexivity.

(** [get_filter_out_members]: with a memo nothing is asked; without one the
    token is read first and once, and the set is stored only when the body
    returns. *)
Lemma get_filter_out_members_spec w s :
  teams_wp Teams.get_filter_out_members w s
    (λ r s',
       ∃ new, Teams.calls s' = Teams.calls s ++ new
         ∧ forallb is_lookup_call new = true
         ∧ match Teams.memo s with
           | Some out =>
               new = [] ∧ r = Teams.Done out ∧ Teams.memo s' = Some out
           | None =>
               (∃ rest, new = Teams.os_environ "GH_TOKEN" :: rest
                  ∧ List.filter is_token_read rest = [])
               ∧ match r with
                 | Teams.Done out => Teams.memo s' = Some out
                 | Teams.Fail _ => Teams.memo s' = None
                 end
           end).
Proof.
  unfold Teams.get_filter_out_members. do 2 teams_step.
  destruct (Teams.memo s) as [out|] eqn:Hmemo.
  - teams_step. exists []. by rewrite app_nil_r.
  - unfold Teams.fetch_filter_out_members.
    repeat teams_step.
    all: cbn [Teams.calls Teams.memo].
    all: eexists; split; [teams_added|].
    all: split; [reflexivity|].
    all: split; [eexists; split; [reflexivity|reflexivity]|done].
Qed.

(** [get_handles]: what [get_filter_out_members] asks, and the handles of
    the members outside the stored set. *)
Lemma get_handles_spec members w s :
  teams_wp (Teams.get_handles members) w s
    (λ r s',
       ∃ new, Teams.calls s' = Teams.calls s ++ new
         ∧ forallb is_lookup_call new = true
         ∧ (length (List.filter is_token_read new) ≤ 1)%nat
         ∧ (∀ out, Teams.memo s = Some out →
              new = [] ∧ Teams.memo s' = Some out
              ∧ r = Teams.Done (handles_of out members))
         ∧ (∀ handles, r = Teams.Done handles →
              ∃ out, Teams.memo s' = Some out
                ∧ handles = handles_of out members)).
Proof.
  unfold Teams.get_handles, Teams.filter_members. do 2 teams_step.
  eapply teams_wp_mono; [apply get_filter_out_members_spec|].
  intros r s' (new & Hcalls & Hnew & Hmemo).
  destruct (Teams.memo s) as [out|].
  - destruct Hmemo as (-> & -> & Hmemo).
    do 2 teams_step. exists [].
    split; [done|]. split; [done|]. split; [simpl; lia|]. split.
    + by intros ? [= <-].
    + intros ? [= <-]. by exists out.
  - destruct Hmemo as ((rest & -> & Hrest) & Hmemo).
    destruct r as [out|e].
    + do 2 teams_step. eexists. split; [done|]. split; [done|].
      split; [simpl; rewrite Hrest; simpl; lia|].
      split; [done|]. intros ? [= <-]. by exists out.
    + eexists. split; [done|]. split; [done|].
      split; [simpl; rewrite Hrest; simpl; lia|]. done.
Qed.

(** X22.  What [get_filter_out_members] returns is kept: asked again, in
    whatever state the forge is by then, it returns the same set and asks
    nothing.  A failure is not kept. *)
Theorem filter_out_members_cached w s :
  teams_wp Teams.get_filter_out_members w s
    (λ r s',
       match r with
       | Teams.Done out =>
           ∀ w', teams_wp Teams.get_filter_out_members w' s'
                   (λ r' s'', r' = Teams.Done out
                      ∧ Teams.calls s'' = Teams.calls s')
       | Teams.Fail _ => Teams.memo s' = Teams.memo s
       end).
Proof.
  eapply teams_wp_mono; [apply get_filter_out_members_spec|].
  intros r s' (new & Hcalls & Hnew & Hmemo).
  assert (∀ out, Teams.memo s' = Some out →
    ∀ w', teams_wp Teams.get_filter_out_members w' s'
            (λ r' s'', r' = Teams.Done out
               ∧ Teams.calls s'' = Teams.calls s')) as Hagain.
  { intros out Hout w'.
    eapply teams_wp_mono; [apply get_filter_out_members_spec|].
    intros r' s'' (new' & Hcalls' & _ & Hmemo'). rewrite Hout in Hmemo'.
    destruct Hmemo' as (-> & -> & _). by rewrite app_nil_r in Hcalls'. }
  destruct (Teams.memo s) as [out|].
  - destruct Hmemo as (_ & -> & Hmemo). by apply Hagain.
  - destruct Hmemo as (_ & Hmemo). destruct r as [out|e]; [by apply Hagain|done].
Qed.

(** ** The team update: [update_team] *)

Section TeamFacts.

Variable splitlines : string → list string.
Variable strip : string → string.
Variable yaml_load : string → Teams.result value.
Variable dedent : string → string.
Variable iter_set : gset string → list string.

(** The steps of [update_team] up to the configuration of the team. *)
Ltac teams_setup :=
  unfold Teams.update_team, Teams.get_recipe_contents;
  let Hends := fresh "Hends" in
  let Hreserved := fresh "Hreserved" in
  destruct (negb (Teams.endswith "-feedstock" _)) eqn:Hends;
    [teams_step
    |destruct (Teams.is_reserved _) eqn:Hreserved;
       [teams_step
       |repeat teams_step;
        try match goal with
          | |- context [let '(_, _) := ?a in _] => destruct a as [[? ?] ?]
          end]].

Lemma recipe_checked (recipe_content : string) (meta : value) :
  Teams.get_recipe_dummy_meta splitlines strip yaml_load recipe_content
  = Teams.Done meta →
  length (List.filter (Teams.is_extra strip) (splitlines recipe_content)) = 1%nat.
Proof.
  rewrite get_recipe_dummy_meta_eq.
  destruct (_ =? 1)%nat eqn:Hcount; [|done]. by apply Nat.eqb_eq in Hcount.
Qed.

Lemma lookups_no_configure lookups meta gh_repo org name remove :
  forallb is_lookup_call lookups = true →
  Teams.configure_github_team meta gh_repo org name remove ∉ lookups.
Proof.
  intros Hall Hin. apply list_elem_of_In in Hin.
  by apply (proj1 (forallb_forall _ _) Hall) in Hin.
Qed.

Lemma comment_tail_no_configure w before gh_repo sha r tail
    meta gh_repo' org name remove :
  comment_tail dedent w before gh_repo sha r tail →
  Teams.configure_github_team meta gh_repo' org name remove ∉ tail.
Proof.
  intros [->|[[-> _]|(c & body & -> & _)]] Hin.
  - by apply elem_of_nil in Hin.
  - by apply list_elem_of_singleton in Hin.
  - apply elem_of_cons in Hin as [Hin|Hin]; [done|].
    by apply list_elem_of_singleton in Hin.
Qed.

Lemma lookups_no_comment lookups :
  forallb is_lookup_call lookups = true →
  forallb (λ c, negb (is_comment_call c)) lookups = true.
Proof.
  induction lookups as [|c lookups IH]; [done|].
  simpl. intros [Hc Hall]%andb_prop. rewrite IH by done. by destruct c.
Qed.

Lemma walks_elem_of (X : gset string) (m : string) :
  walks iter_set → m ∈ iter_set X ↔ m ∈ X.
Proof. intros Hwalks. by rewrite (Hwalks X), elem_of_elements. Qed.

Lemma handles_of_excluded (out : gset string) (members : list string) :
  (∀ m, m ∈ members → m ∈ out) → handles_of out members = "".
Proof.
  intros Hall. unfold handles_of.
  replace (List.filter _ members) with (@nil string); [done|].
  symmetry. induction members as [|m members IH]; [done|].
  simpl. rewrite bool_decide_eq_true_2 by (apply Hall; left). simpl.
  apply IH. intros m' Hm'. apply Hall. by right.
Qed.

Lemma join_handles_nonempty (members : list string) :
  members ≠ [] →
  Teams.join ", " (map (λ m, "@" +:+ m) members) ≠ "".
Proof. by destruct members as [|m [|m' members]]. Qed.

Lemma handles_of_included (out : gset string) (members : list string) m :
  m ∈ members → m ∉ out → handles_of out members ≠ "".
Proof.
  intros Hin Hout. apply join_handles_nonempty.
  intros Hnil.
  assert (In m (List.filter (λ m, negb (bool_decide (m ∈ out))) members)) as H.
  { apply filter_In. split; [by apply list_elem_of_In|].
    by rewrite bool_decide_eq_false_2. }
  by rewrite Hnil in H.
Qed.

(** With a memo, [get_handles] asks nothing. *)
Lemma teams_wp_get_handles_warm members out w s
    (Q : Teams.result string → Teams.store → Prop) :
  Teams.memo s = Some out →
  Q (Teams.Done (handles_of out members)) s →
  teams_wp (Teams.get_handles members) w s Q.
Proof.
  intros Hmemo HQ.
  unfold teams_wp, Teams.get_handles, Teams.filter_members,
    Teams.get_filter_out_members, mbind, Teams.M_bind, Teams.bind,
    Teams.read_memo.
  rewrite Hmemo. exact HQ.
Qed.

(** The comment on the commit: the look-ups of the two calls of
    [get_handles], then nothing, or the commit and the comment. *)
Lemma comment_on_commit_spec gh_repo sha current prev new w s :
  teams_wp (Teams.comment_on_commit dedent iter_set gh_repo sha current prev new) w s
    (λ r s',
       ∃ lookups tail,
         Teams.calls s' = Teams.calls s ++ lookups ++ tail
         ∧ forallb is_lookup_call lookups = true
         ∧ (length (List.filter is_token_read lookups) ≤ 1)%nat
         ∧ (∀ out, Teams.memo s = Some out → lookups = [])
         ∧ comment_tail dedent w (Teams.calls s ++ lookups) gh_repo sha r tail).
Proof.
  unfold Teams.comment_on_commit. teams_step.
  eapply teams_wp_mono; [apply get_handles_spec|].
  intros r1 s1 (new1 & Hcalls1 & Hnew1 & Htoken1 & Hwarm1 & Hdone1).
  assert (∀ out, Teams.memo s = Some out → new1 = []) as Hnone.
  { intros out Hout. by destruct (Hwarm1 out Hout). }
  destruct r1 as [newm|e].
  2:{ exists new1, []. rewrite app_nil_r. unfold comment_tail. auto 6. }
  destruct (Hdone1 newm eq_refl) as (out & Hmemo1 & _).
  teams_step.
  eapply teams_wp_mono; [apply get_handles_spec|].
  intros r2 s2 (new2 & Hcalls2 & Hnew2 & _ & Hwarm & _).
  destruct (Hwarm out Hmemo1) as (-> & Hmemo2 & ->).
  rewrite app_nil_r in Hcalls2. rewrite Hcalls1 in Hcalls2.
  set (addm := handles_of out _).
  assert (∀ (r : Teams.result unit) e, r = Teams.Fail e →
    ∃ lookups tail,
      Teams.calls s2 ++ [Teams.get_commit gh_repo sha]
      = Teams.calls s ++ lookups ++ tail
      ∧ forallb is_lookup_call lookups = true
      ∧ (length (List.filter is_token_read lookups) ≤ 1)%nat
      ∧ (∀ out, Teams.memo s = Some out → lookups = [])
      ∧ comment_tail dedent w (Teams.calls s ++ lookups) gh_repo sha r tail)
    as Hfailed.
  { intros r e ->. exists new1, [Teams.get_commit gh_repo sha].
    split; [rewrite Hcalls2; apply eq_sym, app_assoc|].
    split; [exact Hnew1|]. split; [exact Htoken1|]. split; [exact Hnone|].
    right. left. split; [reflexivity|]. by exists e. }
  assert (∀ (r : Teams.result unit) c body message,
    w (Teams.get_commit gh_repo sha) (Teams.calls s2) = Teams.Done c →
    message = dedent Teams.intro_text +:+ body +:+ dedent Teams.access_text →
    ∃ lookups tail,
      (Teams.calls s2 ++ [Teams.get_commit gh_repo sha])
        ++ [Teams.create_comment c message]
      = Teams.calls s ++ lookups ++ tail
      ∧ forallb is_lookup_call lookups = true
      ∧ (length (List.filter is_token_read lookups) ≤ 1)%nat
      ∧ (∀ out, Teams.memo s = Some out → lookups = [])
      ∧ comment_tail dedent w (Teams.calls s ++ lookups) gh_repo sha r tail)
    as Hposted.
  { intros r c body message Hw ->. rewrite Hcalls2 in Hw |- *.
    exists new1. eexists.
    split; [rewrite <- !app_assoc; reflexivity|].
    split; [exact Hnew1|]. split; [exact Htoken1|]. split; [exact Hnone|].
    right. right. exists c, body. split; [reflexivity|exact Hw]. }
  destruct (negb (newm =? "")%string) eqn:Hnewm;
    destruct (negb (addm =? "")%string) eqn:Haddm; cbn [orb].
  4:{ teams_step. exists new1, []. rewrite app_nil_r.
      unfold comment_tail. auto 6. }
  all: teams_step; teams_step.
  all: destruct (w _ _) as [c|e] eqn:Hw; [teams_step|]; cbn [Teams.calls].
  all: try (by eapply Hfailed).
  - apply (Hposted _ c
      (dedent (Teams.new_members_text newm (Teams.verb_for newm))
       +:+ dedent (Teams.added_members_text addm (Teams.verb_for addm))));
      [reflexivity|].
    rewrite !string_app_assoc. reflexivity.
  - apply (Hposted _ c
      (dedent (Teams.new_members_text newm (Teams.verb_for newm))));
      [reflexivity|].
    rewrite !string_app_assoc. reflexivity.
  - apply (Hposted _ c
      (dedent (Teams.added_members_text addm (Teams.verb_for addm))));
      [reflexivity|].
    rewrite !string_app_assoc. reflexivity.
Qed.

(** X23.  The team is configured only after the checks: whenever
    [configure_github_team] is called, the repository is a feedstock whose
    team is not a reserved one, the team is named after the repository,
    members may be removed, and the maintainers come from a recipe with
    exactly one [extra:] line that was parsed. *)
Theorem team_configured_from_checked_recipe org_name repo_name commit w s :
  teams_wp
    (Teams.update_team splitlines strip yaml_load dedent iter_set org_name repo_name commit)
    w s
    (λ _ s',
       ∃ new, Teams.calls s' = Teams.calls s ++ new
         ∧ ∀ meta gh_repo org name remove,
             Teams.configure_github_team meta gh_repo org name remove ∈ new →
             remove = true
             ∧ name = Teams.remove_all "-feedstock" repo_name
             ∧ Teams.endswith "-feedstock" repo_name = true
             ∧ Teams.is_reserved (lower name) = false
             ∧ ∃ recipe_content,
                 length (List.filter (Teams.is_extra strip)
                           (splitlines recipe_content)) = 1%nat
                 ∧ Teams.get_recipe_dummy_meta splitlines strip yaml_load
                     recipe_content = Teams.Done meta).
Proof.
  teams_setup.
  1,2: exists []; split; [by rewrite app_nil_r|];
    intros * Hin; by apply elem_of_nil in Hin.
  all: try match goal with
    | |- teams_wp (match ?c with Some _ => _ | None => _ end) _ _ _ =>
        destruct c as [sha|];
          [destruct (negb (sha =? "")%string);
             [eapply teams_wp_mono; [apply comment_on_commit_spec|];
              cbn [Teams.calls Teams.memo];
              intros r s' (lookups & tail & Hcalls & Hlookups & _ & _ & Htail)
             |teams_step]
          |teams_step]
    end.
  all: cbn [Teams.calls Teams.memo].
  all: eexists; (split; [teams_added|]).
  all: intros meta gh_repo org name remove Hin.
  all: repeat (apply elem_of_cons in Hin as [Hin|Hin]; [try discriminate Hin|]).
  all: try (by apply elem_of_nil in Hin).
  all: try (apply elem_of_app in Hin as [Hin|Hin];
            [by apply lookups_no_configure in Hin
            |by eapply comment_tail_no_configure in Hin]).
  all: injection Hin as -> -> -> -> ->.
  all: apply negb_false_iff in Hends.
  all: repeat (split; [done|]).
  all: match goal with
    | H : Teams.get_recipe_dummy_meta _ _ _ ?content = Teams.Done _ |- _ =>
        exists content; split; [exact (recipe_checked _ _ H)|exact H]
    end.
Qed.

(** X24.  Without a commit, left out or empty, the script only reaches the
    repository and configures its team: it reads no token, looks up no
    team of excluded members, comments on nothing, and leaves the memo as
    it is. *)
Theorem no_commit_no_comment org_name repo_name commit w s :
  commit = None ∨ commit = Some "" →
  teams_wp
    (Teams.update_team splitlines strip yaml_load dedent iter_set org_name repo_name commit)
    w s
    (λ _ s',
       ∃ new, Teams.calls s' = Teams.calls s ++ new
         ∧ forallb is_setup_call new = true
         ∧ Teams.memo s' = Teams.memo s).
Proof.
  intros Hcommit. teams_setup.
  1,2: exists []; by rewrite app_nil_r.
  all: try (destruct Hcommit as [-> | ->]; cbn [negb String.eqb]; teams_step).
  all: cbn [Teams.calls Teams.memo].
  all: eexists; split; [teams_added|]; split; reflexivity.
Qed.

(** X25.  At most one comment is made, and it comes last: the calls of a
    run are calls other than for a commit or a comment, and then nothing,
    or, for a commit that was given, the commit and at most one comment on
    it, which opens with the greeting and closes with the note on access. *)
Theorem comment_comes_last org_name repo_name commit w s :
  teams_wp
    (Teams.update_team splitlines strip yaml_load dedent iter_set org_name repo_name commit)
    w s
    (λ r s',
       ∃ before tail,
         Teams.calls s' = Teams.calls s ++ before ++ tail
         ∧ forallb (λ c, negb (is_comment_call c)) before = true
         ∧ (tail = []
            ∨ ∃ gh_repo sha,
                commit = Some sha ∧ sha ≠ ""
                ∧ comment_tail dedent w (Teams.calls s ++ before)
                    gh_repo sha r tail)).
Proof.
  teams_setup.
  1,2: exists [], []; split; [by rewrite app_nil_r|]; auto.
  all: try match goal with
    | |- teams_wp (match ?c with Some _ => _ | None => _ end) _ _ _ =>
        destruct c as [sha|];
          [destruct (negb (sha =? "")%string) eqn:Hsha;
             [eapply teams_wp_mono; [apply comment_on_commit_spec|];
              cbn [Teams.calls Teams.memo];
              intros r s' (lookups & tail & Hcalls & Hlookups & _ & _ & Htail)
             |teams_step]
          |teams_step]
    end.
  all: cbn [Teams.calls Teams.memo].
  all: try (eexists; exists []; rewrite app_nil_r;
            split; [teams_added|]; split; [reflexivity|by left]).
  all: match type of Hcalls with
    | _ = ?ys ++ _ ++ _ =>
        eassert (ys = Teams.calls s ++ _) as Hpre
          by (rewrite <- ?app_assoc; cbn [app]; reflexivity)
    end.
  all: rewrite Hpre in Hcalls, Htail.
  all: match type of Hpre with
    | _ = _ ++ ?pre => exists (pre ++ lookups), tail
    end.
  all: split; [rewrite Hcalls, <- !app_assoc; reflexivity|].
  all: split;
    [rewrite forallb_app, (lookups_no_comment _ Hlookups); reflexivity|].
  all: right; eexists _, sha; split; [reflexivity|].
  all: split; [by intros ->|].
  all: rewrite <- app_assoc in Htail; exact Htail.
Qed.

(** X26.  A run reads the token at most once, although the handles are
    worked out twice, and not at all when the memo is filled. *)
Theorem token_read_at_most_once org_name repo_name commit w s :
  teams_wp
    (Teams.update_team splitlines strip yaml_load dedent iter_set org_name repo_name commit)
    w s
    (λ _ s',
       ∃ new, Teams.calls s' = Teams.calls s ++ new
         ∧ (length (List.filter is_token_read new) ≤ 1)%nat
         ∧ ∀ out, Teams.memo s = Some out → List.filter is_token_read new = []).
Proof.
  teams_setup.
  1,2: exists []; split; [by rewrite app_nil_r|]; simpl; auto.
  all: try match goal with
    | |- teams_wp (match ?c with Some _ => _ | None => _ end) _ _ _ =>
        destruct c as [sha|];
          [destruct (negb (sha =? "")%string) eqn:Hsha;
             [eapply teams_wp_mono; [apply comment_on_commit_spec|];
              cbn [Teams.calls Teams.memo];
              intros r s'
                (lookups & tail & Hcalls & Hlookups & Htoken & Hwarm & Htail)
             |teams_step]
          |teams_step]
    end.
  all: cbn [Teams.calls Teams.memo].
  all: eexists; (split; [teams_added|]).
  all: try (split; [simpl; lia|reflexivity]).
  all: assert (List.filter is_token_read tail = []) as Hnone
    by (by destruct Htail as [->|[[-> _]|(c & body & -> & _)]]).
  all: cbn [List.filter is_token_read].
  all: rewrite List.filter_app, Hnone, app_nil_r.
  all: split; [exact Htoken|].
  all: intros out Hout; by rewrite (Hwarm out Hout).
Qed.

(** X27.  When the memo is filled and every new member and every added
    maintainer is in it, nobody is left to mention: the run stops after the
    configuration of the team, and makes no comment, even with a commit,
    in whatever order the sets are walked. *)
Theorem no_comment_when_all_excluded org_name repo_name commit w s
    (current prev new out : gset string) :
  walks iter_set →
  Teams.memo s = Some out →
  configures w current prev new →
  new ⊆ out →
  current ∖ prev ⊆ out →
  teams_wp
    (Teams.update_team splitlines strip yaml_load dedent iter_set org_name repo_name commit)
    w s
    (λ _ s',
       ∃ added, Teams.calls s' = Teams.calls s ++ added
         ∧ forallb is_setup_call added = true).
Proof.
  intros Hwalks Hmemo Hconfigures Hnew Hadded. teams_setup.
  1,2: exists []; by rewrite app_nil_r.
  all: try match goal with
    | H : _ (Teams.configure_github_team _ _ _ _ _) _ = Teams.Done _ |- _ =>
        rewrite Hconfigures in H; injection H as <- <- <-
    end.
  all: try match goal with
    | |- teams_wp (match ?c with Some _ => _ | None => _ end) _ _ _ =>
        destruct c as [sha|];
          [destruct (negb (sha =? "")%string) eqn:Hsha;
             [unfold Teams.comment_on_commit; teams_step;
              apply (teams_wp_get_handles_warm _ out); [exact Hmemo|];
              teams_step;
              apply (teams_wp_get_handles_warm _ out); [exact Hmemo|];
              rewrite !handles_of_excluded
                by (intros m' Hm'; apply (walks_elem_of _ _ Hwalks) in Hm';
                    first [by apply Hnew
                          |apply elem_of_difference in Hm' as [Hm' _];
                           by apply Hadded]);
              cbn [String.eqb negb orb]; teams_step
             |teams_step]
          |teams_step]
    end.
  all: cbn [Teams.calls Teams.memo].
  all: eexists; split; [teams_added|reflexivity].
Qed.

(** X28.  When the forge answers, the recipe passes the checks, the memo is
    filled and some new member is not in it, a run with a commit makes
    exactly the seven calls below and returns: the last one is the comment,
    which welcomes the new members that are not in the memo, their handles
    in the order in which the run walks the set. *)
Theorem new_member_gets_comment org_name repo_name sha w s
    (recipe_content : string) (meta : value)
    (current prev new out : gset string) (m : string) :
  walks iter_set →
  Teams.endswith "-feedstock" repo_name = true →
  Teams.is_reserved (lower (Teams.remove_all "-feedstock" repo_name)) = false →
  serves w recipe_content →
  Teams.get_recipe_dummy_meta splitlines strip yaml_load recipe_content
  = Teams.Done meta →
  configures w current prev new →
  Teams.memo s = Some out →
  m ∈ new → m ∉ out → sha ≠ "" →
  teams_wp
    (Teams.update_team splitlines strip yaml_load dedent iter_set org_name repo_name
       (Some sha))
    w s
    (λ r s',
       r = Teams.Done tt
       ∧ ∃ gh org gh_repo c body,
           Teams.calls s'
           = Teams.calls s
               ++ [Teams.get_gh_client;
                   Teams.get_organization gh org_name;
                   Teams.get_repo org repo_name;
                   Teams.get_contents gh_repo "recipe/meta.yaml";
                   Teams.configure_github_team meta gh_repo org
                     (Teams.remove_all "-feedstock" repo_name) true;
                   Teams.get_commit gh_repo sha;
                   Teams.create_comment c
                     (dedent Teams.intro_text
                        +:+ dedent
                              (Teams.new_members_text
                                 (handles_of out (iter_set new))
                                 (Teams.verb_for (handles_of out (iter_set new))))
                        +:+ body +:+ dedent Teams.access_text)]).
Proof.
  intros Hwalks Hends Hreserved [Hanswers Hcontent] Hmeta Hconfigures Hmemo
    Hm Hout Hsha.
  assert (∀ c h e, w c h ≠ Teams.Fail e) as Hnofail.
  { intros c h e He. destruct (Hanswers c h) as [a Ha]. congruence. }
  unfold Teams.update_team, Teams.get_recipe_contents.
  rewrite Hends, Hreserved. cbn [negb].
  do 2 teams_step. teams_step; [|by apply Hnofail in Hw].
  do 2 teams_step. teams_step; [|by apply Hnofail in Hw0].
  do 2 teams_step. teams_step; [|by apply Hnofail in Hw1].
  do 3 teams_step. rewrite Hcontent. teams_step.
  teams_step. rewrite Hmeta. do 2 teams_step. rewrite Hconfigures.
  cbn [Teams.calls Teams.memo].
  replace (negb (sha =? "")%string) with true
    by (symmetry; by apply negb_true_iff, String.eqb_neq).
  unfold Teams.comment_on_commit. teams_step.
  apply (teams_wp_get_handles_warm _ out); [exact Hmemo|]. teams_step.
  apply (teams_wp_get_handles_warm _ out); [exact Hmemo|].
  set (newm := handles_of out (iter_set new)).
  set (addm := handles_of out _).
  assert (negb (newm =? "")%string = true) as ->.
  { apply negb_true_iff, String.eqb_neq.
    apply (handles_of_included out _ m); [by apply walks_elem_of|done]. }
  rewrite orb_true_r. do 2 teams_step.
  teams_step; [|by apply Hnofail in Hw2].
  teams_step. cbn [Teams.calls Teams.memo].
  match goal with
  | |- ?r = Teams.Done () ∧ _ =>
      destruct r as [[]|e] eqn:Hw3; [|by apply Hnofail in Hw3]
  end.
  split; [reflexivity|].
  exists a, a0, a1, a2.
  destruct (negb (addm =? "")%string).
  - exists (dedent (Teams.added_members_text addm (Teams.verb_for addm))).
    rewrite <- !app_assoc. cbn [app]. do 8 f_equal.
    by rewrite !string_app_assoc.
  - exists "". rewrite <- !app_assoc. cbn [app]. do 8 f_equal.
    by rewrite !string_app_assoc.
Qed.

End TeamFacts.

(** ** The team update: the wording *)

Lemma count_commas_app (a b : string) :
  Teams.count_commas (a +:+ b)
  = (Teams.count_commas a + Teams.count_commas b)%nat.
Proof.
  induction a as [|c a IH]; [done|].
  rewrite string_app_cons. simpl. rewrite IH. lia.
Qed.

Lemma count_commas_handles (members : list string) :
  Forall (λ m, Teams.count_commas m = 0%nat) members →
  Teams.count_commas (Teams.join ", " (map (λ m, "@" +:+ m) members))
  = (length members - 1)%nat.
Proof.
  induction 1 as [|m members Hm Hmembers IH]; [done|].
  destruct members as [|m' members].
  - exact Hm.
  - change (Teams.join ", " (map (λ m, "@" +:+ m) (m :: m' :: members)))
      with (("@" +:+ m) +:+ ", "
              +:+ Teams.join ", " (map (λ m, "@" +:+ m) (m' :: members))).
    rewrite !count_commas_app, IH.
    change (Teams.count_commas ("@" +:+ m)) with (Teams.count_commas m).
    rewrite Hm. simpl. lia.
Qed.

(** X29.  For members whose names hold no comma, the comment says "were"
    of two handles or more, and "was" of one. *)
Theorem verb_follows_number_of_handles (members : list string) :
  Forall (λ m, Teams.count_commas m = 0%nat) members →
  Teams.verb_for (Teams.join ", " (map (λ m, "@" +:+ m) members))
  = if (2 <=? length members)%nat then "were" else "was".
Proof.
  intros Hmembers. unfold Teams.verb_for.
  rewrite (count_commas_handles members Hmembers).
  destruct members as [|m [|m' members]]; reflexivity.
Qed.

(** ** Sample runs *)

Lemma closed_pull_request_is_left_alone_witness :
  (run (main_finalize_task sample_int id "/data")
     (world_with (task_data_of "rerender" ∅) closed_pr [])).1 = Ret tt ∧
  Forall (λ e, mutates e = false)
    (run (main_finalize_task sample_int id "/data")
       (world_with (task_data_of "rerender" ∅) closed_pr [])).2.
Proof.
  apply closed_pull_request_is_left_alone.
  - apply world_with_answers_all.
  - intros path h td [= <-]. split; [reflexivity | by eexists].
  - intros gh_repo n h pr [= <-]. reflexivity.
Defined.


Lemma quiet_formats task_data pr recipes :
  formats (world_with task_data pr recipes) "good".
Proof. intros gh gh_repo n lints hints h. by eexists. Qed.

(** The scoping example, the flag of the Runner not being set: success
    with the status of the formatter when only "b" is in scope, failure
    when "a" is. *)
Lemma lint_error_scoping_witness :
  (lint_success
     (run (main_finalize_task sample_int id "/data")
        (world_with (task_data_of "lint" lint_results_a_b) open_pr ["b"])).1
     (run (main_finalize_task sample_int id "/data")
        (world_with (task_data_of "lint" lint_results_a_b) open_pr ["b"])).2
   ∧ Exists (sets_status "good")
       (run (main_finalize_task sample_int id "/data")
          (world_with (task_data_of "lint" lint_results_a_b) open_pr ["b"])).2) ∧
  lint_failure
    (run (main_finalize_task sample_int id "/data")
       (world_with (task_data_of "lint" lint_results_a_b) open_pr ["b"; "a"])).1
    (run (main_finalize_task sample_int id "/data")
       (world_with (task_data_of "lint" lint_results_a_b) open_pr ["b"; "a"])).2.
Proof.
  split.
  - apply (lint_error_scoping sample_int id _ "/data" (VDict ∅) (VDict ∅)
             (VBool false) ["b"] "good"); try done.
    + apply world_with_answers_all.
    + intros path h td [= <-]. split; [by repeat split | by eexists].
    + intros gh_repo n h pr [= <-]. done.
    + apply quiet_formats.
  - apply (lint_error_scoping sample_int id _ "/data" (VDict ∅) (VDict ∅)
             (VBool false) ["b"; "a"] "good"); try done.
    + apply world_with_answers_all.
    + intros path h td [= <-]. split; [by repeat split | by eexists].
    + intros gh_repo n h pr [= <-]. done.
    + apply quiet_formats.
    + set_solver.
Defined.

(** The claim as it is written fails: with the findings and the errors of
    the example, only "b" in scope, and the flag of the Runner set, the
    final state is not success.  The run sets the status "bad" and ends
    with exit code 1. *)
Lemma lint_error_scoping_counterexample :
  lint_task_data (VDict ∅) (VDict ∅) (VDict errors_a_b) (VBool true)
    (task_data_of "lint" lint_results_a_b_flagged) ∧
  ¬ lint_success
      (run (main_finalize_task sample_int id "/data")
         (world_with (task_data_of "lint" lint_results_a_b_flagged) open_pr ["b"])).1
      (run (main_finalize_task sample_int id "/data")
         (world_with (task_data_of "lint" lint_results_a_b_flagged) open_pr ["b"])).2 ∧
  lint_failure
    (run (main_finalize_task sample_int id "/data")
       (world_with (task_data_of "lint" lint_results_a_b_flagged) open_pr ["b"])).1
    (run (main_finalize_task sample_int id "/data")
       (world_with (task_data_of "lint" lint_results_a_b_flagged) open_pr ["b"])).2.
Proof.
  assert (lint_failure
    (run (main_finalize_task sample_int id "/data")
       (world_with (task_data_of "lint" lint_results_a_b_flagged) open_pr ["b"])).1
    (run (main_finalize_task sample_int id "/data")
       (world_with (task_data_of "lint" lint_results_a_b_flagged) open_pr ["b"])).2)
    as Hfails.
  { apply (lint_rescoping_fails sample_int id _ "/data" (VDict ∅) (VDict ∅)
             (VBool true) errors_a_b ["b"]); try done.
    - apply world_with_answers_all.
    - intros path h td [= <-]. split; [by repeat split | by eexists].
    - intros gh_repo n h pr [= <-]. done. }
  split; [by repeat split|]. split; [|exact Hfails].
  intros [Hret _]. destruct Hfails as [Hexit _]. congruence.
Qed.

(** The errors mapping knows recipe "b" only; recipe "c" is in scope. *)
Lemma lint_rescoping_only_escalates_witness :
  lint_failure
    (run (main_finalize_task sample_int id "/data")
       (world_with (task_data_of "lint" lint_results_a_b) open_pr ["b"; "c"])).1
    (run (main_finalize_task sample_int id "/data")
       (world_with (task_data_of "lint" lint_results_a_b) open_pr ["b"; "c"])).2.
Proof.
  apply (lint_rescoping_only_escalates sample_int id _ "/data" (VDict ∅) (VDict ∅)
           (VBool false) errors_a_b ["b"; "c"]) with (rec := "c"); try done.
  - apply world_with_answers_all.
  - intros path h td [= <-]. split; [by repeat split | by eexists].
  - intros gh_repo n h pr [= <-]. done.
  - set_solver.
Defined.

Lemma version_fields_of (task_results : gmap string value)
    (new_version : value) (info_message commit_message patch : option string) :
  task_results !! "new_version" = Some new_version →
  task_results !! "info_message" = Some (of_opt_str info_message) →
  task_results !! "commit_message" = Some (of_opt_str commit_message) →
  task_results !! "patch" = Some (of_opt_str patch) →
  version_fields_present (task_data_of "version_update" task_results).
Proof. intros. repeat split; by eexists. Qed.

(** Two runs in which the push/comment step is made: a changed version
    whose rerender failed (flag set), and an unchanged version with a
    rerender error (flag not set). *)
Lemma version_update_combined_error_witness :
  (Forall (pushes_with_error (VBool true))
     (run (main_finalize_task sample_int id "/data")
        (world_with (task_data_of "version_update" changed_version_results)
           open_pr [])).2 ∧
   Exists (λ e, is_push_call e = true ∧ pushes_with_error (VBool true) e)
     (run (main_finalize_task sample_int id "/data")
        (world_with (task_data_of "version_update" changed_version_results)
           open_pr [])).2) ∧
  (Forall (pushes_with_error (VBool false))
     (run (main_finalize_task sample_int id "/data")
        (world_with (task_data_of "version_update" unchanged_rerender_error_results)
           open_pr [])).2 ∧
   Exists (λ e, is_push_call e = true ∧ pushes_with_error (VBool false) e)
     (run (main_finalize_task sample_int id "/data")
        (world_with (task_data_of "version_update" unchanged_rerender_error_results)
           open_pr [])).2).
Proof.
  split.
  - destruct (version_update_combined_error sample_int id
                (world_with (task_data_of "version_update" changed_version_results)
                   open_pr [])
                "/data" false true true) as [Hall Hsome].
    { intros path h td [= <-]. by repeat split. }
    split; [exact Hall|]. apply Hsome.
    + apply world_with_answers_all.
    + intros path h td [= <-]. split; [|by eexists].
      by apply (version_fields_of _ (VStr "1.2.3") (Some "rerender failed")
                  (Some "ENH: updated version to 1.2.3") (Some "diff")).
    + by intros gh_repo n h pr [= <-].
  - destruct (version_update_combined_error sample_int id
                (world_with
                   (task_data_of "version_update" unchanged_rerender_error_results)
                   open_pr [])
                "/data" false false true) as [Hall Hsome].
    { intros path h td [= <-]. by repeat split. }
    split; [exact Hall|]. apply Hsome.
    + apply world_with_answers_all.
    + intros path h td [= <-]. split; [|by eexists].
      by apply (version_fields_of _ VNone None None None).
    + by intros gh_repo n h pr [= <-].
Defined.

(** C3.  A version update that found nothing to update, finalized
    against an open pull request in a world where every call succeeds:
    the title update is not attempted, the push/comment step reports no
    error and the pull request is marked ready, and then the command dies
    on the unassigned [pr_title_error] with exit code 1 instead of 0. *)
Theorem version_update_unchanged_exit_code :
  let r := run (main_finalize_task sample_int id "/data")
             (world_with (task_data_of "version_update" unchanged_version_results)
                open_pr []) in
  r.1 = Raise (UnboundLocalError "pr_title_error") ∧
  exit_code r.1 = 1 ∧
  Forall (λ e, is_update_pr_title_call e = false) r.2 ∧
  Exists (λ e, is_push_call e = true ∧ pushes_with_error (VBool false) e) r.2 ∧
  Exists (λ e, is_ready_call e = true) r.2.
Proof.
  vm_compute. repeat split.
  - repeat constructor.
  - repeat first [ by apply Exists_cons_hd | apply Exists_cons_tl ].
  - repeat first [ by apply Exists_cons_hd | apply Exists_cons_tl ].
Qed.

Lemma lint_exception_is_recorded_witness :
  (run (main_run_task "lint" "pkg-feedstock" "7" "/data" None (Some "abc"))
     (world_lint_raises (ExternalError "lint"))).1 = Ret tt ∧
  ECall (json_dump (os_path_join "/data" "task_data.json")
           {| task := "lint"; repo := "pkg-feedstock"; pr_number := "7";
              sha := Some "abc"; task_results := lint_failed_results |})
  ∈ (run (main_run_task "lint" "pkg-feedstock" "7" "/data" None (Some "abc"))
       (world_lint_raises (ExternalError "lint"))).2.
Proof.
  apply (lint_exception_is_recorded _ _ _ _ _ _ (ExternalError "lint")).
  - intros c h Hc. destruct c; try discriminate Hc; by eexists.
  - reflexivity.
Defined.

Lemma unchanged_version_skips_rerender_witness :
  (run (main_run_task "version_update" "pkg-feedstock" "7" "/data" (Some "null")
          (Some "abc")) quiet).1 = Ret tt ∧
  Forall (λ e, is_rerender_call e = false)
    (run (main_run_task "version_update" "pkg-feedstock" "7" "/data" (Some "null")
            (Some "abc")) quiet).2 ∧
  ∃ task_data,
    ECall (json_dump (os_path_join "/data" "task_data.json") task_data)
    ∈ (run (main_run_task "version_update" "pkg-feedstock" "7" "/data" (Some "null")
              (Some "abc")) quiet).2 ∧
    nothing_chained (task_results task_data).
Proof.
  apply unchanged_version_skips_rerender.
  - apply quiet_answers_all.
  - intros git_repo full_repo_name input_version h r [= <-]. reflexivity.
Defined.

Lemma chained_commit_message_witness :
  (run (main_run_task "version_update" "pkg-feedstock" "7" "/data" (Some "null")
          (Some "abc")) world_bump).1 = Ret tt ∧
  ∃ task_data,
    ECall (json_dump (os_path_join "/data" "task_data.json") task_data)
    ∈ (run (main_run_task "version_update" "pkg-feedstock" "7" "/data" (Some "null")
              (Some "abc")) world_bump).2 ∧
    task_results task_data !! "commit_message"
    = Some (VStr ("ENH: updated version to " +:+ str_of_opt (Some "1.2.3") +:+
                  " & " +:+ "Re-rendered with conda-smithy")).
Proof.
  apply (chained_commit_message world_bump "pkg-feedstock" "7" "/data" "null"
           (Some "abc") false false (Some "1.2.3") None
           "Re-rendered with conda-smithy").
  - intros c h. destruct c; by eexists.
  - reflexivity.
  - reflexivity.
Defined.

Lemma automerge_without_matching_pull_witness :
  (run (main_automerge "pkg-feedstock" "123") world_two_pulls).1 = Ret tt ∧
  exit_code (run (main_automerge "pkg-feedstock" "123") world_two_pulls).1 = 0 ∧
  EPrint ("::warning title=No PR Found for Automerge::" +:+
          "No PR found for " +:+ "conda-forge/" +:+ "pkg-feedstock" +:+ "@" +:+ "123")
  ∈ (run (main_automerge "pkg-feedstock" "123") world_two_pulls).2 ∧
  Forall (λ e, mutates e = false)
    (run (main_automerge "pkg-feedstock" "123") world_two_pulls).2.
Proof.
  apply automerge_without_matching_pull.
  - intros c h. destruct c; by eexists.
  - intros gh_repo h pulls [= <-]. by repeat constructor.
Defined.

Lemma invalid_task_writes_nothing_witness :
  exit_code (run (main_run_task "build" "pkg-feedstock" "7" "/data" None None) quiet).1 = 1 ∧
  Forall (λ e, is_task_step e = false)
    (run (main_run_task "build" "pkg-feedstock" "7" "/data" None None) quiet).2.
Proof. by apply invalid_task_writes_nothing. Defined.

Lemma lint_two_tuple_errors_witness :
  ∃ task_data errors,
    ECall (json_dump (os_path_join "/data" "task_data.json") task_data)
    ∈ (run (main_run_task "lint" "pkg-feedstock" "7" "/data" None None) world_lint_two).2 ∧
    task_results task_data !! "errors" = Some (VDict errors) ∧
    errors !! "a" = Some (VBool false) ∧
    errors !! "b" = Some (VBool false) ∧
    errors !! "c" = None.
Proof.
  destruct (lint_two_tuple_errors world_lint_two "pkg-feedstock" "7" "/data" None None
              (<["a" := VList [VStr "lint"]]> ∅) (<["b" := VList [VStr "hint"]]> ∅))
    as (_ & td & errors & Hin & _ & _ & _ & Herrors & Hall).
  - intros c h. destruct c; by eexists.
  - by intros d b h.
  - exists td, errors. split; [exact Hin|]. split; [exact Herrors|].
    rewrite !Hall. by repeat split.
Defined.

Lemma explicit_requested_version_is_passed_witness :
  Forall (update_version_input (Some "1.2.3"))
    (run (main_run_task "version_update" "pkg-feedstock" "7" "/data" (Some "1.2.3") None)
       quiet).2 ∧
  ECall (update_version (os_path_join "/data" "pkg-feedstock")
           ("conda-forge/" +:+ "pkg-feedstock") (Some "1.2.3"))
  ∈ (run (main_run_task "version_update" "pkg-feedstock" "7" "/data" (Some "1.2.3") None)
       quiet).2.
Proof.
  destruct (explicit_requested_version_is_passed quiet "pkg-feedstock" "7" "/data"
              "1.2.3" None) as [Hall Hcalled]; try done.
  split; [exact Hall|]. apply Hcalled. apply quiet_answers_all.
Defined.

Lemma unknown_task_is_rejected_witness :
  exit_code (run (main_finalize_task sample_int id "/data")
               (world_with (task_data_of "build" ∅) open_pr [])).1 = 1 ∧
  Forall (λ e, mutates e = false)
    (run (main_finalize_task sample_int id "/data")
       (world_with (task_data_of "build" ∅) open_pr [])).2.
Proof.
  apply unknown_task_is_rejected. by intros path h td [= <-].
Defined.

Lemma scratch_directory_is_removed_witness :
  last (run (main_finalize_task sample_int id "/data") quiet).2
  = Some (ECall (TemporaryDirectory_cleanup "/tmp/tmpdir")).
Proof.
  apply scratch_directory_is_removed.
  - by intros h.
  - vm_compute. repeat first [ apply list_elem_of_here | apply list_elem_of_further ].
Defined.

Lemma only_version_update_may_close_witness :
  Forall (push_closes false)
    (run (main_finalize_task sample_int id "/data")
       (world_with (task_data_of "rerender" rerender_results) open_pr [])).2.
Proof.
  apply (only_version_update_may_close sample_int id _ "/data" "rerender").
  by intros path h td [= <-].
Defined.

Lemma null_findings_fail_unscoped_witness :
  lint_failure
    (run (main_finalize_task sample_int id "/data")
       (world_with (task_data_of "lint" lint_failed_results) open_pr [])).1
    (run (main_finalize_task sample_int id "/data")
       (world_with (task_data_of "lint" lint_failed_results) open_pr [])).2 ∧
  Forall (λ e, is_scoping_call e = false)
    (run (main_finalize_task sample_int id "/data")
       (world_with (task_data_of "lint" lint_failed_results) open_pr [])).2.
Proof.
  apply (null_findings_fail_unscoped sample_int id _ "/data" (VBool true)); try done.
  - apply world_with_answers_all.
  - intros path h td [= <-]. repeat split; by eexists.
  - by intros gh_repo n h pr [= <-].
Defined.

Lemma rerender_status_and_exit_witness :
  (run (main_finalize_task sample_int id "/data")
     (world_with (task_data_of "rerender" rerender_results) open_pr [])).1 = Ret tt ∧
  Exists (sets_rerender_status "success")
    (run (main_finalize_task sample_int id "/data")
       (world_with (task_data_of "rerender" rerender_results) open_pr [])).2.
Proof.
  apply (rerender_status_and_exit sample_int id _ "/data" false true false
           None (Some "MNT: rerender") (Some "diff")).
  - apply world_with_answers_all.
  - intros path h td [= <-]. split; [by repeat split | by eexists].
  - by intros gh_repo n h pr [= <-].
  - by intros a h.
Defined.

Lemma rerender_ready_only_for_bot_witness :
  Exists (λ e, is_ready_call e = true)
    (run (main_finalize_task sample_int id "/data")
       (world_with (task_data_of "rerender" rerender_results) bot_pr [])).2 ∧
  Forall (λ e, is_ready_call e = false)
    (run (main_finalize_task sample_int id "/data")
       (world_with (task_data_of "rerender" rerender_results) open_pr [])).2.
Proof.
  split.
  - apply (rerender_ready_only_for_bot sample_int id _ "/data" false true false
             None (Some "MNT: rerender") (Some "diff") bot_pr); try done.
    + apply world_with_answers_all.
    + intros path h td [= <-]. split; [by repeat split | by eexists].
    + by intros gh_repo n h pr [= <-].
  - apply (rerender_ready_only_for_bot sample_int id _ "/data" false true false
             None (Some "MNT: rerender") (Some "diff") open_pr); try done.
    + apply world_with_answers_all.
    + intros path h td [= <-]. split; [by repeat split | by eexists].
    + by intros gh_repo n h pr [= <-].
Defined.

Lemma bump_exit_code_witness :
  (run (main_finalize_task sample_int id "/data")
     (world_with (task_data_of "version_update" changed_version_results) open_pr [])).1
  = SysExit 1 ∧
  Exists (updates_title_to "1.2.3")
    (run (main_finalize_task sample_int id "/data")
       (world_with (task_data_of "version_update" changed_version_results) open_pr [])).2.
Proof.
  apply (bump_exit_code sample_int id _ "/data" true false false "1.2.3"
           (Some "rerender failed") (Some "ENH: updated version to 1.2.3")
           (Some "diff")); try done.
  - apply world_with_answers_all.
  - intros path h td [= <-]. split; [by repeat split | by eexists].
  - by intros gh_repo n h pr [= <-].
Defined.

Lemma bump_ready_despite_title_error_witness :
  Forall (λ e, is_ready_call e = false)
    (run (main_finalize_task sample_int id "/data")
       (world_with (task_data_of "version_update" changed_version_results) open_pr [])).2.
Proof.
  apply (bump_ready_despite_title_error sample_int id _ "/data" true false false "1.2.3"
           (Some "rerender failed") (Some "ENH: updated version to 1.2.3")
           (Some "diff")); try done.
  - apply world_with_answers_all.
  - intros path h td [= <-]. split; [by repeat split | by eexists].
  - by intros gh_repo n h pr [= <-].
Defined.

Lemma patch_without_message_commits_default_witness :
  ∃ locals steps,
    commit_changes "/tmp/tmpdir" open_pr patch_only_results quiet []
    = (Ret (<["commit_message" := VStr "chore: conda-forge-webservices update"]>
              patch_only_results, locals), steps).
Proof.
  destruct (patch_without_message_commits_default "/tmp/tmpdir" open_pr
              patch_only_results "diff" quiet [] quiet_answers_all eq_refl eq_refl)
    as [warning Heq].
  eexists _, _. exact Heq.
Defined.

Lemma no_patch_nothing_applied_witness :
  ∃ steps,
    (commit_changes "/tmp/tmpdir" open_pr unchanged_version_results quiet []).2
    = [] ++ steps ∧
    Forall (λ e, is_patch_step e = false) steps.
Proof. by apply no_patch_nothing_applied. Defined.

Lemma missing_patch_key_stops_before_clone_witness :
  exit_code (run (main_finalize_task sample_int id "/data")
               (world_with (task_data_of "rerender" ∅) open_pr [])).1 = 1 ∧
  Forall (λ e, mutates e = false)
    (run (main_finalize_task sample_int id "/data")
       (world_with (task_data_of "rerender" ∅) open_pr [])).2.
Proof.
  apply missing_patch_key_stops_before_clone.
  - by intros path h td [= <-].
  - by intros gh_repo n h pr [= <-].
Defined.

Lemma automerge_each_matching_pull_witness :
  (run (main_automerge "pkg-feedstock" "abc") world_two_pulls).1 = Ret tt ∧
  length (List.filter is_automerge_call
            (run (main_automerge "pkg-feedstock" "abc") world_two_pulls).2) = 1%nat.
Proof.
  destruct (automerge_each_matching_pull world_two_pulls "pkg-feedstock" "abc"
              [open_pr; other_pr]) as (Ho & Hm & _).
  - intros c h. destruct c; by eexists.
  - by intros gh_repo h.
  - done.
  - by split.
Defined.

(** ** The team update on the sample forge *)

Lemma filter_jinja2_plain_witness :
  Teams._filter_jinja2 "  name: numpy" = "  name: numpy".
Proof. apply filter_jinja2_plain. reflexivity. Defined.

Lemma filter_jinja2_expression_witness :
  Teams._filter_jinja2 ("{{" +:+ " name " +:+ "}}" +:+ "-{{ version }}")
  = "${{" +:+ " name " +:+ "}}" +:+ Teams._filter_jinja2 "-{{ version }}".
Proof. apply filter_jinja2_expression. reflexivity. Defined.

Lemma recipe_needs_one_extra_section_witness :
  Teams.get_recipe_dummy_meta sample_splitlines sample_strip sample_yaml_load
    "package:
  name: numpy"
  = Teams.Fail
      (Teams.AssertionError "team update failed due to > 1 'extra:' sections").
Proof. apply recipe_needs_one_extra_section. vm_compute. lia. Defined.

Lemma recipe_kept_from_extra_line_witness :
  Teams.get_recipe_dummy_meta sample_splitlines sample_strip sample_yaml_load
    sample_recipe
  = sample_yaml_load
      (Teams.join newline
         (map Teams._filter_jinja2
            (from_first (Teams.is_extra sample_strip)
               (sample_splitlines sample_recipe)))).
Proof. apply recipe_kept_from_extra_line. reflexivity. Defined.

Lemma no_commit_no_comment_witness :
  teams_wp
    (Teams.update_team sample_splitlines sample_strip sample_yaml_load id
       sample_iter_set "conda-forge" "numpy-feedstock" None)
    sample_forge cold
    (λ _ s',
       ∃ new, Teams.calls s' = Teams.calls cold ++ new
         ∧ forallb is_setup_call new = true
         ∧ Teams.memo s' = Teams.memo cold).
Proof. apply no_commit_no_comment. by left. Defined.

Lemma sample_iter_set_walks : walks sample_iter_set.
Proof. intros X. apply reverse_Permutation. Qed.

Lemma sample_forge_pair_configures :
  configures sample_forge_pair
    {["alice"; "bob"; "carol"; "dave"]} {["bob"]} {["carol"; "dave"]}.
Proof. by intros meta gh_repo org name remove h. Qed.

Lemma sample_forge_configures :
  configures sample_forge_v0 {["alice"; "bob"; "carol"]} {["bob"]} {["carol"]}.
Proof. by intros meta gh_repo org name remove h. Qed.

Lemma no_comment_when_all_excluded_witness :
  teams_wp
    (Teams.update_team sample_splitlines sample_strip sample_yaml_load id
       sample_iter_set "conda-forge" "numpy-feedstock" (Some "abc123"))
    sample_forge_v0 (warm {["alice"; "carol"]})
    (λ _ s',
       ∃ added,
         Teams.calls s' = Teams.calls (warm {["alice"; "carol"]}) ++ added
         ∧ forallb is_setup_call added = true).
Proof.
  apply (no_comment_when_all_excluded _ _ _ _ _ _ _ _ _ _
           {["alice"; "bob"; "carol"]} {["bob"]} {["carol"]} {["alice"; "carol"]}).
  - apply sample_iter_set_walks.
  - reflexivity.
  - apply sample_forge_configures.
  - set_solver.
  - set_solver.
Defined.

Lemma new_member_gets_comment_witness :
  teams_wp
    (Teams.update_team sample_splitlines sample_strip sample_yaml_load id
       sample_iter_set "conda-forge" "numpy-feedstock" (Some "abc123"))
    sample_forge_pair (warm {["alice"]})
    (λ r s',
       r = Teams.Done tt
       ∧ ∃ gh org gh_repo c body,
           Teams.calls s'
           = Teams.calls (warm {["alice"]})
               ++ [Teams.get_gh_client;
                   Teams.get_organization gh "conda-forge";
                   Teams.get_repo org "numpy-feedstock";
                   Teams.get_contents gh_repo "recipe/meta.yaml";
                   Teams.configure_github_team sample_meta gh_repo org
                     (Teams.remove_all "-feedstock" "numpy-feedstock") true;
                   Teams.get_commit gh_repo "abc123";
                   Teams.create_comment c
                     (id Teams.intro_text
                        +:+ id
                              (Teams.new_members_text
                                 (handles_of {["alice"]}
                                    (sample_iter_set {["carol"; "dave"]}))
                                 (Teams.verb_for
                                    (handles_of {["alice"]}
                                       (sample_iter_set {["carol"; "dave"]}))))
                        +:+ body +:+ id Teams.access_text)]).
Proof.
  apply (new_member_gets_comment _ _ _ _ _ _ _ _ _ _ sample_recipe sample_meta
           {["alice"; "bob"; "carol"; "dave"]} {["bob"]} {["carol"; "dave"]}
           {["alice"]} "carol").
  - apply sample_iter_set_walks.
  - reflexivity.
  - reflexivity.
  - split.
    + intros c h. destruct c; by eexists.
    + by intros gh_repo path h.
  - reflexivity.
  - apply sample_forge_pair_configures.
  - reflexivity.
  - set_solver.
  - set_solver.
  - done.
Defined.

Lemma verb_follows_number_of_handles_witness :
  Teams.verb_for (Teams.join ", " (map (λ m, "@" +:+ m) ["alice"; "bob"]))
  = "were".
Proof.
  apply (verb_follows_number_of_handles ["alice"; "bob"]).
  by repeat constructor.
Defined.
